(** * Search-space dimensions of scikit-optimize

    A shallow embedding of [skopt/space/space.py]: the dimension classes
    [Real], [Integer] and [Categorical], the description inference
    [check_dimension] and the container [Space], followed by the properties
    of the specification that are settled on them.

    Conventions of the embedding.
    - Python values are the constructors of [pyval]; a Python [float] is an
      idealised real number (type [R], which has the logarithm and the power
      that the log-uniform prior needs): the rounding error of an
      operation, [nan] and [inf] are not represented, and a quotient by zero
      or a logarithm of a non-positive number, which numpy turns into one of
      them, has no meaning here; the statements about values exclude them.
      What is represented is the rounding of a conversion: of an [int] or a
      bound to binary64 when numpy puts it into an array of floats, and of
      a float to a narrower dtype ([round_to_format]).  The only place
      where binary64 arithmetic itself is the subject (the widening of the
      sampling width) is modelled with the primitive floats of the kernel,
      in module [Float64].
    - A dimension is a record, and a method that mutates it returns the new
      record.  Where one object may stand at several positions of a space
      and the mutation shows at all of them, the objects live in a [heap]
      and the space holds references ([set_shared_from]).
    - [skopt/space/transformers.py] is not among the sources; its classes
      are modelled from the specification, each definition saying so.
    - A call that may raise returns a [result]; a method that assigns to
      attributes of [self] before it raises returns the updated object
      together with the outcome.
    - numpy arrays are [ndarray]: one-dimensional, or two-dimensional with an
      explicit number of columns. *)

From Stdlib Require Import ZArith String Ascii Bool Reals Lra Lia.
From Stdlib Require Import DecimalString Floats List.
Import ListNotations.

Set Warnings "-register-all".

Local Open Scope R_scope.

(** ** Exceptions and fallible computations *)

(** The exception classes that the modelled code raises.  [EncoderError]
    stands for the error of an encoder asked for a value outside its fitted
    vocabulary, whose class the specification leaves open. *)
Inductive exn : Set :=
| ValueError
| RuntimeError
| ZeroDivisionError
| TypeError
| IndexError
| AttributeError
| EncoderError.

(** [isinstance(e, ValueError)]: none of the other classes derives from
    [ValueError]. *)
Definition is_ValueError (e : exn) : bool :=
  match e with ValueError => true | _ => false end.

Inductive result (A : Type) : Type :=
| Ok (a : A)
| Raise (e : exn).
Arguments Ok {A} a.
Arguments Raise {A} e.

Definition bind {A B : Type} (c : result A) (k : A -> result B) : result B :=
  match c with
  | Ok a => k a
  | Raise e => Raise e
  end.

Notation "x <- c ;; k" := (bind c (fun x => k))
  (at level 61, c at next level, right associativity).

Fixpoint mapM {A B : Type} (f : A -> result B) (l : list A) : result (list B) :=
  match l with
  | [] => Ok []
  | x :: r => y <- f x ;; ys <- mapM f r ;; Ok (y :: ys)
  end.

(** ** Numbers *)

Definition Rleb (x y : R) : bool := if Rle_dec x y then true else false.
Definition Rltb (x y : R) : bool := if Rlt_dec x y then true else false.
Definition Reqb (x y : R) : bool := if Req_dec_T x y then true else false.

(** [np.log10]. *)
Definition log10 (x : R) : R := ln x / ln 10.

(** [np.clip(x, lo, hi)], that is [minimum(hi, maximum(x, lo))]. *)
Definition np_clip (x lo hi : R) : R := Rmin (Rmax x lo) hi.

(** [np.round]: to the nearest integer, a tie to the even one. *)
Definition np_round (x : R) : Z :=
  let f := Zfloor x in
  let d := x - IZR f in
  if Rltb d (1 / 2) then f
  else if Rltb (1 / 2) d then (f + 1)%Z
  else if Z.even f then f else (f + 1)%Z.

(** [x] is a whole number. *)
Definition is_whole (x : R) : bool := Reqb (IZR (Zfloor x)) x.

(** *** Binary floating-point formats

    A format is given by its precision [p], the number of bits of the
    significand, and by [emin], the exponent of its least normal number.
    Conversion rounds to the nearest number of the format, a tie to the one
    with an even significand.  The overflow to an infinity is not
    represented: there are no infinities here. *)

(** [2 ** k]. *)
Definition pow2 (k : Z) : R := powerRZ 2 k.

(** The exponent of [x]: the [e] with [2 ** e <= |x| < 2 ** (e + 1)]. *)
Definition exponent (x : R) : Z := Zfloor (ln (Rabs x) / ln 2).

Definition round_to_format (p emin : Z) (x : R) : R :=
  if Reqb x 0 then 0
  else
    let quantum := pow2 (Z.max (exponent x) emin - p + 1) in
    IZR (np_round (x / quantum)) * quantum.

(** Conversion to binary64, the format of Python's [float] and of
    [np.float64]: what becomes of a number when numpy puts it into an array
    of floats. *)
Definition to_float (x : R) : R := round_to_format 53 (-1022) x.

(** [np.allclose([a], [b])] with the default tolerances
    [rtol = 1e-05] and [atol = 1e-08]. *)
Definition allclose1 (a b : R) : bool :=
  Rleb (Rabs (a - b)) (1 / 100000000 + 1 / 100000 * Rabs b).

(** ** Python values *)

Inductive pyval : Type :=
| PNone
| PBool (b : bool)
| PInt (z : Z)
| PFloat (r : R)
| PStr (s : string).

(** The number a value denotes in arithmetic and comparisons ([bool] is a
    subclass of [int]); [None] for values that are not numbers. *)
Definition as_num (v : pyval) : option R :=
  match v with
  | PBool b => Some (if b then 1 else 0)
  | PInt z => Some (IZR z)
  | PFloat r => Some r
  | PNone | PStr _ => None
  end.

(** Arithmetic on a value that is not a number raises [TypeError]. *)
Definition as_float (v : pyval) : result R :=
  match as_num v with
  | Some r => Ok r
  | None => Raise TypeError
  end.

(** Python's [==]: numbers compare by value across [bool], [int] and
    [float]; strings with strings; [None] with itself. *)
Definition py_eqb (a b : pyval) : bool :=
  match as_num a, as_num b with
  | Some x, Some y => Reqb x y
  | _, _ =>
      match a, b with
      | PStr s, PStr t => String.eqb s t
      | PNone, PNone => true
      | _, _ => false
      end
  end.

(** [v in l] for a list or tuple [l]. *)
Definition py_in (v : pyval) (l : list pyval) : bool :=
  existsb (fun c => py_eqb v c) l.

(** Equality of two tuples. *)
Fixpoint tuple_eqb (l1 l2 : list pyval) : bool :=
  match l1, l2 with
  | [], [] => true
  | a :: r1, b :: r2 => py_eqb a b && tuple_eqb r1 r2
  | _, _ => false
  end.

(** [s in t] for two strings: [s] occurs in [t]. *)
Definition str_in (s t : string) : bool :=
  match index 0 s t with
  | Some _ => true
  | None => false
  end.

(** [t in l] for a string and a list of string literals. *)
Definition str_among (t : string) (l : list string) : bool :=
  existsb (String.eqb t) l.

(** What the interpreter provides and this development does not define:
    the decimal rendering of a float. *)
Class PyRuntime : Type := { float_repr : R -> string }.

(** [str(v)]. *)
Definition py_str `{PyRuntime} (v : pyval) : string :=
  match v with
  | PNone => "None"
  | PBool true => "True"
  | PBool false => "False"
  | PInt z => NilZero.string_of_int (Z.to_int z)
  | PFloat r => float_repr r
  | PStr s => s
  end.

(** The [isinstance] tests of [check_dimension]. *)
Definition is_str_or_bool (d : pyval) : bool :=
  match d with PStr _ | PBool _ => true | _ => false end.

(** [isinstance(d, numbers.Integral)]. *)
Definition is_Integral (d : pyval) : bool :=
  match d with PInt _ | PBool _ => true | _ => false end.

(** [isinstance(d, numbers.Real)]. *)
Definition is_Real (d : pyval) : bool :=
  match d with PInt _ | PBool _ | PFloat _ => true | _ => false end.

(** [isinstance(d, int)]. *)
Definition is_int (d : pyval) : bool :=
  match d with PInt _ | PBool _ => true | _ => false end.

(** [isinstance(d, (float, int))]. *)
Definition is_float_or_int (d : pyval) : bool :=
  match d with PInt _ | PBool _ | PFloat _ => true | _ => false end.

(** The [name] setter of [Dimension]: a string or [None], else
    [ValueError]. *)
Definition set_name (value : pyval) : result (option string) :=
  match value with
  | PStr s => Ok (Some s)
  | PNone => Ok None
  | _ => Raise ValueError
  end.

(** ** dtypes *)

Inductive Dtype : Set :=
| dtype_name (s : string)
| py_float
| py_int
| np_floating (bits : Z)
| np_signed (bits : Z)
| np_unsigned (bits : Z).

(** The integer format [astype(dtype)] converts to: signedness and width.
    The Python [int] and the name ['int'] are numpy's default integer, 64
    bits wide. *)
Definition int_format (d : Dtype) : option (bool * Z) :=
  match d with
  | py_int => Some (true, 64%Z)
  | np_signed b => Some (true, b)
  | np_unsigned b => Some (false, b)
  | dtype_name s =>
      if String.eqb s "int" then Some (true, 64%Z)
      else if String.eqb s "int8" then Some (true, 8%Z)
      else if String.eqb s "int16" then Some (true, 16%Z)
      else if String.eqb s "int32" then Some (true, 32%Z)
      else if String.eqb s "int64" then Some (true, 64%Z)
      else if String.eqb s "uint8" then Some (false, 8%Z)
      else if String.eqb s "uint16" then Some (false, 16%Z)
      else if String.eqb s "uint32" then Some (false, 32%Z)
      else if String.eqb s "uint64" then Some (false, 64%Z)
      else None
  | py_float | np_floating _ => None
  end.

(** Conversion of an integer to a fixed-width integer type keeps the low
    [bits] bits. *)
Definition wrap (signed : bool) (bits : Z) (z : Z) : Z :=
  if signed
  then ((z + 2 ^ (bits - 1)) mod 2 ^ bits - 2 ^ (bits - 1))%Z
  else (z mod 2 ^ bits)%Z.

(** [astype(dtype)] on an integer-valued element. *)
Definition astype_int (d : Dtype) (z : Z) : Z :=
  match int_format d with
  | Some (signed, bits) => wrap signed bits z
  | None => z
  end.

(** The format [astype(dtype)] narrows a float to: precision and least
    normal exponent of binary16 and binary32.  Every other float dtype is
    binary64 or wider and holds a binary64 number as it is. *)
Definition float_format (d : Dtype) : option (Z * Z) :=
  match d with
  | np_floating bits =>
      if (bits =? 16)%Z then Some (11, -14)%Z
      else if (bits =? 32)%Z then Some (24, -126)%Z
      else None
  | dtype_name s =>
      if String.eqb s "float16" then Some (11, -14)%Z
      else if String.eqb s "float32" then Some (24, -126)%Z
      else None
  | py_float | py_int | np_signed _ | np_unsigned _ => None
  end.

(** [astype(dtype)] on an element of an array of floats. *)
Definition astype_float (d : Dtype) (x : R) : R :=
  match float_format d with
  | Some (p, emin) => round_to_format p emin x
  | None => x
  end.

(** ** Sampling distributions

    The frozen scipy distribution stored in [_rvs], recorded as the call
    that builds it.  [_uniform_inclusive loc scale] is the call of the
    helper of that name with the nominal width [scale]; what the helper does
    to the width is a matter of binary64 arithmetic, see [Float64]. *)
Inductive Dist : Type :=
| _uniform_inclusive (loc scale : R)
| randint (low high : R)
| rv_discrete (xk : list Z) (pk : list R).

(** ** Arrays *)

Inductive ndarray : Type :=
| Arr1 (l : list pyval)
| Arr2 (rows : list (list pyval)) (ncols : nat).

Definition elementwise (f : pyval -> result pyval) (X : ndarray) : result ndarray :=
  match X with
  | Arr1 l => l' <- mapM f l ;; Ok (Arr1 l')
  | Arr2 rows k => rows' <- mapM (mapM f) rows ;; Ok (Arr2 rows' k)
  end.

(** The elements of an array, row by row. *)
Definition flatten (a : ndarray) : list pyval :=
  match a with
  | Arr1 l => l
  | Arr2 rows _ => concat rows
  end.

Definition is_None (v : pyval) : bool :=
  match v with PNone => true | _ => false end.

Definition is_str (v : pyval) : bool :=
  match v with PStr _ => true | _ => false end.

Definition is_float (v : pyval) : bool :=
  match v with PFloat _ => true | _ => false end.

(** The type that [np.array] gives the elements of a list of Python values:
    a list that holds [None] becomes an array of objects; otherwise one
    string makes an array of strings, one float an array of floats, one
    [int] an array of integers; a list of booleans only, or an empty one,
    stays as it is. *)
Inductive array_type : Set :=
| of_objects
| of_strings
| of_floats
| of_integers
| of_booleans.

Definition common_type (l : list pyval) : array_type :=
  if existsb is_None l then of_objects
  else if existsb is_str l then of_strings
  else if existsb is_float l then of_floats
  else if existsb (fun v => match v with PInt _ => true | _ => false end) l
  then of_integers
  else of_booleans.

(** The element that an array of type [t] holds for the value [v]: its
    string form in an array of strings, its value as a float in an array of
    floats, 0 or 1 for a boolean in an array of integers. *)
Definition as_type `{PyRuntime} (t : array_type) (v : pyval) : pyval :=
  match t with
  | of_objects | of_booleans => v
  | of_strings => PStr (py_str v)
  | of_floats =>
      match v with
      | PInt z => PFloat (to_float (IZR z))
      | PBool b => PFloat (if b then 1 else 0)
      | _ => v
      end
  | of_integers =>
      match v with
      | PBool b => PInt (if b then 1 else 0)
      | _ => v
      end
  end.

(** [np.array(a)] on a list, or a list of lists, of Python values.  An
    array that numpy has built is left unchanged by it, so that it stands
    for [if isinstance(a, list): a = np.array(a)] on a value that is a list
    or an array of numpy's own types. *)
Definition np_array `{PyRuntime} (a : ndarray) : ndarray :=
  let t := common_type (flatten a) in
  match a with
  | Arr1 l => Arr1 (map (as_type t) l)
  | Arr2 rows k => Arr2 (map (map (as_type t)) rows) k
  end.

(** ** Transform primitives

    [skopt/space/transformers.py] is not among the sources; the primitives
    are modelled from section 4.1 of the specification. *)

(** Modelled from the spec: the classes of [transformers.py], absent from
    the sources.  An encoder carries the category tuple it was fitted on; a
    pipeline is the ordered list of its stages. *)
Inductive Transformer : Type :=
| Identity
| LogN (base : R)
| Normalize (low high : R) (is_int unbounded : bool) (n_categories : option nat)
| CategoricalEncoder (fitted : list pyval)
| StringEncoder (fitted : list pyval)
| LabelEncoder (fitted : list pyval)
| Pipeline (stages : list Transformer).

(** Modelled from the spec: [LogN.transform], absent from the sources:
    "transform(x) = log_base(x)", computed as the sources compute the
    logarithm of the bounds, [log10(x) / log10(base)]. *)
Definition LogN_transform (base : R) (v : pyval) : result pyval :=
  x <- as_float v ;; Ok (PFloat (log10 x / log10 base)).

(** Modelled from the spec: [LogN.inverse_transform], absent from the
    sources: "inverse_transform(y) = base^y". *)
Definition LogN_inverse_transform (base : R) (v : pyval) : result pyval :=
  y <- as_float v ;; Ok (PFloat (Rpower base y)).

(** Modelled from the spec: [Normalize.transform], absent from the sources:
    "transform(x) = (x - low) / (high - low)". *)
Definition Normalize_transform (low high : R) (v : pyval) : result pyval :=
  x <- as_float v ;; Ok (PFloat ((x - low) / (high - low))).

(** Modelled from the spec: the bound that [n_categories] puts on a rounded
    grid point of [Normalize], absent from the sources: the positions
    [0 .. n_categories - 1]. *)
Definition bound_categories (n_categories : option nat) (z : Z) : Z :=
  match n_categories with
  | Some n => Z.min (Z.max z 0) (Z.of_nat n - 1)
  | None => z
  end.

(** Modelled from the spec: [Normalize.inverse_transform], absent from the
    sources: "inverse_transform(y) = low + y*(high-low), then, if is_int,
    rounds to the nearest integer grid point (bounded by n_categories)";
    "when unbounded is false, input outside [0,1] on inverse must be clamped
    into range". *)
Definition Normalize_inverse_transform (low high : R) (is_int unbounded : bool)
    (n_categories : option nat) (v : pyval) : result pyval :=
  y <- as_float v ;;
  let y' := if unbounded then y else np_clip y 0 1 in
  let x := low + y' * (high - low) in
  if is_int then Ok (PInt (bound_categories n_categories (np_round x)))
  else Ok (PFloat x).

(** Modelled from the spec: the lookup of the encoders, absent from the
    sources: the zero-based position of the first category equal to [v]. *)
Fixpoint index_of (cats : list pyval) (v : pyval) : option nat :=
  match cats with
  | [] => None
  | c :: r =>
      if py_eqb v c then Some O
      else match index_of r v with
           | Some i => Some (S i)
           | None => None
           end
  end.

(** Modelled from the spec: [LabelEncoder.transform], absent from the
    sources: the category's "zero-based integer position". *)
Definition LabelEncoder_transform (cats : list pyval) (v : pyval) : result pyval :=
  match index_of cats v with
  | Some i => Ok (PInt (Z.of_nat i))
  | None => Raise EncoderError
  end.

(** Modelled from the spec: [LabelEncoder.inverse_transform], absent from
    the sources: "exact inverse lookup back to the original category value;
    attempting to invert a value outside the fitted vocabulary is an
    error". *)
Definition LabelEncoder_inverse_transform (cats : list pyval) (v : pyval)
    : result pyval :=
  match v with
  | PInt z =>
      if (0 <=? z)%Z
      then match nth_error cats (Z.to_nat z) with
           | Some c => Ok c
           | None => Raise EncoderError
           end
      else Raise EncoderError
  | _ => Raise EncoderError
  end.

(** Modelled from the spec: [StringEncoder.transform], absent from the
    sources: "the category rendered as its string form". *)
Definition StringEncoder_transform `{PyRuntime} (v : pyval) : result pyval :=
  Ok (PStr (py_str v)).

(** Modelled from the spec: [StringEncoder.inverse_transform], absent from
    the sources: the lookup of the fitted category with that string form,
    an error outside the fitted vocabulary. *)
Definition StringEncoder_inverse_transform `{PyRuntime} (cats : list pyval)
    (v : pyval) : result pyval :=
  match v with
  | PStr s =>
      match find (fun c => String.eqb (py_str c) s) cats with
      | Some c => Ok c
      | None => Raise EncoderError
      end
  | _ => Raise EncoderError
  end.

(** Modelled from the spec: the width of the one-hot code, absent from the
    sources: "width = category count, collapsed to a single value when there
    are exactly two categories". *)
Definition onehot_width (cats : list pyval) : nat :=
  if Nat.eqb (length cats) 2 then 1%nat else length cats.

(** Modelled from the spec: the one-hot code of the category at position
    [i], absent from the sources: one coordinate per category, or the
    position itself when there are exactly two categories. *)
Definition onehot_row (cats : list pyval) (i : nat) : list pyval :=
  if Nat.eqb (length cats) 2 then [PFloat (INR i)]
  else map (fun j => PFloat (if Nat.eqb j i then 1 else 0)) (seq 0 (length cats)).

(** Modelled from the spec: [CategoricalEncoder.transform] on one value,
    absent from the sources. *)
Definition CategoricalEncoder_transform (cats : list pyval) (v : pyval)
    : result (list pyval) :=
  match index_of cats v with
  | Some i => Ok (onehot_row cats i)
  | None => Raise EncoderError
  end.

(** Modelled from the spec: [CategoricalEncoder.inverse_transform] on one
    row, absent from the sources: the category whose code the row is, an
    error when it is the code of none. *)
Definition CategoricalEncoder_inverse_transform (cats : list pyval)
    (row : list pyval) : result pyval :=
  match find (fun i => tuple_eqb (onehot_row cats i) row) (seq 0 (length cats)) with
  | Some i =>
      match nth_error cats i with
      | Some c => Ok c
      | None => Raise EncoderError
      end
  | None => Raise EncoderError
  end.

(** Modelled from the spec: [fit], absent from the sources: an encoder is
    fitted on the category tuple, the numeric transforms have nothing to
    fit, a pipeline fits its stages. *)
Fixpoint fit (t : Transformer) (cats : list pyval) : Transformer :=
  match t with
  | CategoricalEncoder _ => CategoricalEncoder cats
  | StringEncoder _ => StringEncoder cats
  | LabelEncoder _ => LabelEncoder cats
  | Pipeline stages => Pipeline (map (fun s => fit s cats) stages)
  | Identity | LogN _ | Normalize _ _ _ _ _ => t
  end.

(** Modelled from the spec: [transform] of a transformer, absent from the
    sources; a pipeline "applies them left-to-right". *)
Fixpoint transformer_transform `{PyRuntime} (t : Transformer) (X : ndarray)
    : result ndarray :=
  match t with
  | Identity => Ok X
  | LogN base => elementwise (LogN_transform base) X
  | Normalize low high _ _ _ => elementwise (Normalize_transform low high) X
  | LabelEncoder cats => elementwise (LabelEncoder_transform cats) X
  | StringEncoder _ => elementwise StringEncoder_transform X
  | CategoricalEncoder cats =>
      match X with
      | Arr1 l =>
          rows <- mapM (CategoricalEncoder_transform cats) l ;;
          Ok (Arr2 rows (onehot_width cats))
      | Arr2 _ _ => Raise EncoderError
      end
  | Pipeline stages =>
      (fix thread (l : list Transformer) (X : ndarray) : result ndarray :=
         match l with
         | [] => Ok X
         | s :: r => Y <- transformer_transform s X ;; thread r Y
         end) stages X
  end.

(** Modelled from the spec: [inverse_transform] of a transformer, absent
    from the sources; a pipeline "applies their inverses right-to-left". *)
Fixpoint transformer_inverse_transform `{PyRuntime} (t : Transformer)
    (Xt : ndarray) : result ndarray :=
  match t with
  | Identity => Ok Xt
  | LogN base => elementwise (LogN_inverse_transform base) Xt
  | Normalize low high is_int unbounded n_categories =>
      elementwise
        (Normalize_inverse_transform low high is_int unbounded n_categories) Xt
  | LabelEncoder cats => elementwise (LabelEncoder_inverse_transform cats) Xt
  | StringEncoder cats => elementwise (StringEncoder_inverse_transform cats) Xt
  | CategoricalEncoder cats =>
      match Xt with
      | Arr2 rows _ =>
          l <- mapM (CategoricalEncoder_inverse_transform cats) rows ;;
          Ok (Arr1 l)
      | Arr1 _ => Raise EncoderError
      end
  | Pipeline stages =>
      (fix thread (l : list Transformer) (Xt : ndarray) : result ndarray :=
         match l with
         | [] => Ok Xt
         | s :: r => Y <- thread r Xt ;; transformer_inverse_transform s Y
         end) stages Xt
  end.

(** [Dimension.transform] and [Dimension.inverse_transform]: the call is
    delegated to the attribute [transformer], which is [None] until
    [set_transformer] has run. *)
Definition Dimension_transform `{PyRuntime} (transformer : option Transformer)
    (X : list pyval) : result ndarray :=
  match transformer with
  | Some t => transformer_transform t (Arr1 X)
  | None => Raise AttributeError
  end.

Definition Dimension_inverse_transform `{PyRuntime}
    (transformer : option Transformer) (Xt : ndarray) : result ndarray :=
  match transformer with
  | Some t => transformer_inverse_transform t Xt
  | None => Raise AttributeError
  end.

(** ** Values of the further methods *)

(** What the property [bounds] or [transformed_bounds] of a dimension
    returns: a tuple [(low, high)], the tuple of the categories, or a list
    of tuples. *)
Inductive bounds_value : Type :=
| bounds_pair (lo hi : R)
| bounds_categories (cats : list pyval)
| bounds_pairs (l : list (R * R)).

(** What a frozen distribution returns from [rvs(size=n_samples)]: a
    discrete one draws whole numbers, a continuous one floats; one number
    when [n_samples] is [None], an array otherwise. *)
Inductive draw : Type :=
| draw_int (z : Z)
| draw_float (r : R)
| draw_ints (l : list Z)
| draw_floats (l : list R).

(** What [Categorical.rvs] returns: one category, a list of categories, or
    the array of [inverse_transform]. *)
Inductive sampled : Type :=
| one (v : pyval)
| many (l : list pyval)
| array (a : ndarray).

(** [t[z]] for a tuple [t] and a whole number [z]: a negative index counts
    from the end, an index outside the tuple raises [IndexError]. *)
Definition tuple_item (t : list pyval) (z : Z) : result pyval :=
  let n := Z.of_nat (length t) in
  let i := if (z <? 0)%Z then (z + n)%Z else z in
  if ((0 <=? i) && (i <? n))%Z
  then match nth_error t (Z.to_nat i) with
       | Some v => Ok v
       | None => Raise IndexError
       end
  else Raise IndexError.

(** ** [class Real] *)

Module Real.

Record t : Type := mk {
  low : R;
  high : R;
  prior : string;
  base : R;
  log_base : R;
  name : option string;
  dtype : Dtype;
  _rvs : option Dist;
  transformer : option Transformer;
  transform_ : string
}.

Definition with_transform_ (self : t) (transform : string) : t :=
  mk (low self) (high self) (prior self) (base self) (log_base self)
     (name self) (dtype self) (_rvs self) (transformer self) transform.

Definition with_pipeline (self : t) (rvs : Dist) (tr : Transformer) : t :=
  mk (low self) (high self) (prior self) (base self) (log_base self)
     (name self) (dtype self) (Some rvs) (Some tr) (transform_ self).

(** [set_transformer]: the mode is stored first, so a call that raises
    leaves the new mode with the old pipeline. *)
Definition set_transformer (self : t) (transform : string) : t * result unit :=
  let self := with_transform_ self transform in
  if negb (str_among (transform_ self)
             ["normalize"; "identity"; "normalize_unbounded"]%string)
  then (self, Raise ValueError)
  else if str_in "normalize" (transform_ self) then
    let is_unbounded := String.eqb (transform_ self) "normalize_unbounded" in
    let rvs := _uniform_inclusive 0 1 in
    if String.eqb (prior self) "uniform" then
      (with_pipeline self rvs
         (Pipeline [Identity;
                    Normalize (low self) (high self) false is_unbounded None]),
       Ok tt)
    else
      (with_pipeline self rvs
         (Pipeline [LogN (base self);
                    Normalize (log10 (low self) / log_base self)
                              (log10 (high self) / log_base self)
                              false is_unbounded None]),
       Ok tt)
  else if String.eqb (prior self) "uniform" then
    (with_pipeline self (_uniform_inclusive (low self) (high self - low self))
       Identity,
     Ok tt)
  else
    (with_pipeline self
       (_uniform_inclusive
          (log10 (low self) / log_base self)
          (log10 (high self) / log_base self - log10 (low self) / log_base self))
       (LogN (base self)),
     Ok tt).

(** The check of [dtype] in [__init__]: a name among the float names, or a
    type that is a subtype of [np.floating]. *)
Definition dtype_ok (d : Dtype) : bool :=
  match d with
  | dtype_name s => str_among s ["float"; "float16"; "float32"; "float64"]%string
  | py_float | np_floating _ => true
  | py_int | np_signed _ | np_unsigned _ => false
  end.

Definition __init__ (low high : R) (prior : string) (base : R)
    (transform : option string) (name : pyval) (dtype : Dtype) : result t :=
  if Rleb high low then Raise ValueError
  else if negb (str_among prior ["uniform"; "log-uniform"]%string)
  then Raise ValueError
  else
    nm <- set_name name ;;
    if negb (dtype_ok dtype) then Raise ValueError
    else
      let transform :=
        match transform with Some s => s | None => "identity"%string end in
      let self :=
        mk low high prior base (log10 base) nm dtype None None transform in
      let (self, outcome) := set_transformer self transform in
      _ <- outcome ;; Ok self.

Definition transform `{PyRuntime} (self : t) (X : list pyval) : result ndarray :=
  Dimension_transform (transformer self) X.

(** [inverse_transform]: the inverse of the pipeline, clipped into
    [[low, high]] and converted to the float [dtype].  [np.clip] works on an
    array of floats, or makes one of an array of integers and of the bounds
    before [astype] does: the elements and the bounds are binary64 numbers
    when they are clipped.  An element that is not a number makes [np.clip]
    raise.  Whether the result is a list or an array is not represented. *)
Definition inverse_transform `{PyRuntime} (self : t) (Xt : ndarray)
    : result ndarray :=
  inv_transform <- Dimension_inverse_transform (transformer self) Xt ;;
  elementwise
    (fun v =>
       x <- as_float v ;;
       Ok (PFloat (astype_float (dtype self)
                     (np_clip (to_float x) (to_float (low self))
                              (to_float (high self))))))
    inv_transform.

Definition bounds (self : t) : R * R := (low self, high self).

Definition is_constant (self : t) : bool := Reqb (low self) (high self).

(** [low <= point <= high]. *)
Definition __contains__ (self : t) (point : pyval) : result bool :=
  x <- as_float point ;; Ok (Rleb (low self) x && Rleb x (high self)).

Definition transformed_size (self : t) : nat := 1.

(** [distance]: [a in self and b in self] tests [b] only when [a] is a
    member. *)
Definition distance (self : t) (a b : pyval) : result R :=
  a_in <- __contains__ self a ;;
  both <- (if a_in then __contains__ self b else Ok false) ;;
  if negb both then Raise RuntimeError
  else x <- as_float a ;; y <- as_float b ;; Ok (Rabs (x - y)).

(** [__eq__] against another [Real]. *)
Definition __eq__ (self other : t) : bool :=
  allclose1 (low self) (low other) && allclose1 (high self) (high other)
  && String.eqb (prior self) (prior other)
  && String.eqb (transform_ self) (transform_ other).

(** [transformed_bounds]. *)
Definition transformed_bounds (self : t) : R * R :=
  if str_in "normalize" (transform_ self) then (0, 1)
  else if String.eqb (prior self) "uniform" then (low self, high self)
  else (log10 (low self), log10 (high self)).

End Real.

(** ** [class Integer] *)

Module Integer.

Record t : Type := mk {
  low : R;
  high : R;
  prior : string;
  base : R;
  log_base : R;
  name : option string;
  dtype : Dtype;
  _rvs : option Dist;
  transformer : option Transformer;
  transform_ : string
}.

Definition with_transform_ (self : t) (transform : string) : t :=
  mk (low self) (high self) (prior self) (base self) (log_base self)
     (name self) (dtype self) (_rvs self) (transformer self) transform.

Definition with_pipeline (self : t) (rvs : Dist) (tr : Transformer) : t :=
  mk (low self) (high self) (prior self) (base self) (log_base self)
     (name self) (dtype self) (Some rvs) (Some tr) (transform_ self).

Definition set_transformer (self : t) (transform : string) : t * result unit :=
  let self := with_transform_ self transform in
  if negb (str_among transform ["normalize"; "identity"]%string)
  then (self, Raise ValueError)
  else if String.eqb (transform_ self) "normalize" then
    let rvs := _uniform_inclusive 0 1 in
    if String.eqb (prior self) "uniform" then
      (with_pipeline self rvs
         (Pipeline [Identity;
                    Normalize (low self) (high self) true false None]),
       Ok tt)
    else
      (with_pipeline self rvs
         (Pipeline [LogN (base self);
                    Normalize (log10 (low self) / log_base self)
                              (log10 (high self) / log_base self)
                              false false None]),
       Ok tt)
  else if String.eqb (prior self) "uniform" then
    (with_pipeline self (randint (low self) (high self + 1)) Identity, Ok tt)
  else
    (with_pipeline self
       (_uniform_inclusive
          (log10 (low self) / log_base self)
          (log10 (high self) / log_base self - log10 (low self) / log_base self))
       (LogN (base self)),
     Ok tt).

Definition int_width_ok (bits : Z) : bool :=
  (bits =? 8)%Z || (bits =? 16)%Z || (bits =? 32)%Z || (bits =? 64)%Z.

(** The check of [dtype] in [__init__]: a name among the integer names, or
    one of the listed integer types. *)
Definition dtype_ok (d : Dtype) : bool :=
  match d with
  | dtype_name s =>
      str_among s ["int"; "int8"; "int16"; "int32"; "int64";
                   "uint8"; "uint16"; "uint32"; "uint64"]%string
  | py_int => true
  | np_signed bits | np_unsigned bits => int_width_ok bits
  | py_float | np_floating _ => false
  end.

Definition __init__ (low high : R) (prior : string) (base : R)
    (transform : option string) (name : pyval) (dtype : Dtype) : result t :=
  if Rleb high low then Raise ValueError
  else if negb (str_among prior ["uniform"; "log-uniform"]%string)
  then Raise ValueError
  else
    nm <- set_name name ;;
    if negb (dtype_ok dtype) then Raise ValueError
    else
      let transform :=
        match transform with Some s => s | None => "identity"%string end in
      let self :=
        mk low high prior base (log10 base) nm dtype None None transform in
      let (self, outcome) := set_transformer self transform in
      _ <- outcome ;; Ok self.

Definition transform `{PyRuntime} (self : t) (X : list pyval) : result ndarray :=
  Dimension_transform (transformer self) X.

(** [np.clip] on the array of [inverse_transform]: an array of integers
    clipped between whole bounds stays an array of integers, and nothing is
    rounded; in every other case the elements and the bounds are clipped as
    binary64 numbers.  The record does not tell an [int] bound from a float
    one: a bound that is a whole number is taken to be an [int]. *)
Definition clips_integers (self : t) (inv_transform : ndarray) : bool :=
  forallb is_Integral (flatten inv_transform)
  && is_whole (low self) && is_whole (high self).

(** [inverse_transform]: the inverse of the pipeline, clipped into
    [[low, high]], rounded, then converted to the integer [dtype]. *)
Definition inverse_transform `{PyRuntime} (self : t) (Xt : ndarray)
    : result ndarray :=
  inv_transform <- Dimension_inverse_transform (transformer self) Xt ;;
  let as_element :=
    if clips_integers self inv_transform then (fun x : R => x) else to_float in
  elementwise
    (fun v =>
       x <- as_float v ;;
       Ok (PInt (astype_int (dtype self)
                   (np_round (np_clip (as_element x) (as_element (low self))
                                      (as_element (high self)))))))
    inv_transform.

Definition bounds (self : t) : R * R := (low self, high self).

Definition is_constant (self : t) : bool := Reqb (low self) (high self).

Definition __contains__ (self : t) (point : pyval) : result bool :=
  x <- as_float point ;; Ok (Rleb (low self) x && Rleb x (high self)).

Definition transformed_size (self : t) : nat := 1.

Definition distance (self : t) (a b : pyval) : result R :=
  a_in <- __contains__ self a ;;
  both <- (if a_in then __contains__ self b else Ok false) ;;
  if negb both then Raise RuntimeError
  else x <- as_float a ;; y <- as_float b ;; Ok (Rabs (x - y)).

(** [__eq__] against another [Integer]. *)
Definition __eq__ (self other : t) : bool :=
  allclose1 (low self) (low other) && allclose1 (high self) (high other).

(** [transformed_bounds]. *)
Definition transformed_bounds (self : t) : R * R :=
  if String.eqb (transform_ self) "normalize" then (0, 1)
  else (low self, high self).

End Integer.

(** ** [class Categorical] *)

(** [np.allclose] on two one-dimensional arrays: element by element when
    the lengths agree, an array of length one is broadcast, any other
    mismatch of shapes raises [ValueError]. *)
Fixpoint forallb2 {A : Type} (p : A -> A -> bool) (l1 l2 : list A) : bool :=
  match l1, l2 with
  | a :: r1, b :: r2 => p a b && forallb2 p r1 r2
  | _, _ => true
  end.

Definition allclose (a b : list R) : result bool :=
  if Nat.eqb (length a) (length b) then Ok (forallb2 allclose1 a b)
  else match a, b with
       | [x], _ => Ok (forallb (fun y => allclose1 x y) b)
       | _, [y] => Ok (forallb (fun x => allclose1 x y) a)
       | _, _ => Raise ValueError
       end.

Module Categorical.

Record t : Type := mk {
  categories : list pyval;
  name : option string;
  transform_ : string;
  transformer : option Transformer;
  _rvs : option Dist;
  prior : option (list R);
  prior_ : list R
}.

Definition with_transform_ (self : t) (transform : string) : t :=
  mk (categories self) (name self) transform (transformer self) (_rvs self)
     (prior self) (prior_ self).

Definition with_transformer (self : t) (tr : Transformer) : t :=
  mk (categories self) (name self) (transform_ self) (Some tr) (_rvs self)
     (prior self) (prior_ self).

Definition with__rvs (self : t) (rvs : Dist) : t :=
  mk (categories self) (name self) (transform_ self) (transformer self)
     (Some rvs) (prior self) (prior_ self).

(** [range(len(self.categories))]. *)
Definition positions (self : t) : list Z :=
  map Z.of_nat (seq 0 (length (categories self))).

(** [set_transformer].  The arguments that scipy itself may refuse when it
    builds [rv_discrete] are not checked here. *)
Definition set_transformer (self : t) (transform : string) : t * result unit :=
  let self := with_transform_ self transform in
  if negb (str_among transform
             ["identity"; "onehot"; "string"; "normalize";
              "normalize_unbounded"; "label"]%string)
  then (self, Raise ValueError)
  else
    let self :=
      if String.eqb transform "onehot" then
        with_transformer self (fit (CategoricalEncoder []) (categories self))
      else if String.eqb transform "string" then
        with_transformer self (fit (StringEncoder []) (categories self))
      else if String.eqb transform "label" then
        with_transformer self (fit (LabelEncoder []) (categories self))
      else if str_in "normalize" transform then
        with_transformer self
          (fit (Pipeline
                  [LabelEncoder (categories self);
                   Normalize 0 (INR (length (categories self)) - 1) true false
                             (Some (length (categories self)))])
               (categories self))
      else
        with_transformer self (fit Identity (categories self)) in
    if str_in "normalize" transform
    then (with__rvs self (_uniform_inclusive 0 1), Ok tt)
    else (with__rvs self (rv_discrete (positions self) (prior_ self)), Ok tt).

(** [np.tile(1. / n, n)]; the division raises when [n] is zero. *)
Definition uniform_weights (n : nat) : result (list R) :=
  if Nat.eqb n 0 then Raise ZeroDivisionError
  else Ok (repeat (1 / INR n) n).

Definition __init__ (categories : list pyval) (prior : option (list R))
    (transform : option string) (name : pyval) : result t :=
  nm <- set_name name ;;
  let transform :=
    match transform with Some s => s | None => "onehot"%string end in
  prior_ <- match prior with
            | None => uniform_weights (length categories)
            | Some p => Ok p
            end ;;
  let self := mk categories nm transform None None prior prior_ in
  let (self, outcome) := set_transformer self transform in
  _ <- outcome ;; Ok self.

Definition transform `{PyRuntime} (self : t) (X : list pyval) : result ndarray :=
  Dimension_transform (transformer self) X.

(** [inverse_transform]: the inverse of the pipeline, made an array by
    [np.array] when it is a list, which brings the categories to one
    type. *)
Definition inverse_transform `{PyRuntime} (self : t) (Xt : ndarray)
    : result ndarray :=
  inv_transform <- Dimension_inverse_transform (transformer self) Xt ;;
  Ok (np_array inv_transform).

Definition transformed_size (self : t) : nat :=
  if String.eqb (transform_ self) "onehot" then
    let size := length (categories self) in
    if negb (Nat.eqb size 2) then size else 1%nat
  else 1%nat.

Definition bounds (self : t) : list pyval := categories self.

Definition is_constant (self : t) : bool :=
  Nat.leb (length (categories self)) 1.

Definition __contains__ (self : t) (point : pyval) : bool :=
  py_in point (categories self).

Definition distance (self : t) (a b : pyval) : result Z :=
  if negb (__contains__ self a && __contains__ self b) then Raise RuntimeError
  else Ok (if negb (py_eqb a b) then 1%Z else 0%Z).

(** [__eq__] against another [Categorical]; [and] evaluates [np.allclose]
    only when the category tuples are equal. *)
Definition __eq__ (self other : t) : result bool :=
  if tuple_eqb (categories self) (categories other)
  then allclose (prior_ self) (prior_ other)
  else Ok false.

(** [transformed_bounds]: one tuple when the transformed size is one, a
    list of as many tuples as the transformed size otherwise. *)
Definition transformed_bounds (self : t) : bounds_value :=
  if Nat.eqb (transformed_size self) 1 then
    if String.eqb (transform_ self) "label"
    then bounds_pair 0 (INR (length (categories self)) - 1)
    else bounds_pair 0 1
  else bounds_pairs (map (fun _ => (0, 1)) (seq 0 (transformed_size self))).

(** [rvs], as a function of what [self._rvs.rvs(...)] has drawn.  A whole
    number selects its category; in mode [normalize] floats go through
    [inverse_transform]; in every other case the draw is iterated and each
    element indexes the tuple of categories, which a float cannot do and a
    single float cannot even be iterated. *)
Definition rvs `{PyRuntime} (self : t) (choices : draw) : result sampled :=
  match choices with
  | draw_int z => c <- tuple_item (categories self) z ;; Ok (one c)
  | draw_float r =>
      if String.eqb (transform_ self) "normalize"
      then a <- inverse_transform self (Arr1 [PFloat r]) ;; Ok (array a)
      else Raise TypeError
  | draw_ints l =>
      if String.eqb (transform_ self) "normalize"
      then a <- inverse_transform self (Arr1 (map PInt l)) ;; Ok (array a)
      else cs <- mapM (tuple_item (categories self)) l ;; Ok (many cs)
  | draw_floats l =>
      if String.eqb (transform_ self) "normalize"
      then a <- inverse_transform self (Arr1 (map PFloat l)) ;; Ok (array a)
      else cs <- mapM (fun _ : R => @Raise pyval TypeError) l ;; Ok (many cs)
  end.

End Categorical.

(** ** Dimensions as a closed variant, with the dispatch of their methods *)

Inductive Dimension : Type :=
| DReal (d : Real.t)
| DInteger (d : Integer.t)
| DCategorical (d : Categorical.t).

Definition dim_name (dim : Dimension) : option string :=
  match dim with
  | DReal d => Real.name d
  | DInteger d => Integer.name d
  | DCategorical d => Categorical.name d
  end.

Definition dim_transform `{PyRuntime} (dim : Dimension) (X : list pyval)
    : result ndarray :=
  match dim with
  | DReal d => Real.transform d X
  | DInteger d => Integer.transform d X
  | DCategorical d => Categorical.transform d X
  end.

Definition dim_inverse_transform `{PyRuntime} (dim : Dimension) (Xt : ndarray)
    : result ndarray :=
  match dim with
  | DReal d => Real.inverse_transform d Xt
  | DInteger d => Integer.inverse_transform d Xt
  | DCategorical d => Categorical.inverse_transform d Xt
  end.

Definition dim_transformed_size (dim : Dimension) : nat :=
  match dim with
  | DReal d => Real.transformed_size d
  | DInteger d => Integer.transformed_size d
  | DCategorical d => Categorical.transformed_size d
  end.

(** [point in dim]. *)
Definition dim_contains (dim : Dimension) (point : pyval) : result bool :=
  match dim with
  | DReal d => Real.__contains__ d point
  | DInteger d => Integer.__contains__ d point
  | DCategorical d => Ok (Categorical.__contains__ d point)
  end.

Definition dim_distance (dim : Dimension) (a b : pyval) : result R :=
  match dim with
  | DReal d => Real.distance d a b
  | DInteger d => Integer.distance d a b
  | DCategorical d => z <- Categorical.distance d a b ;; Ok (IZR z)
  end.

(** [a == b]: [type(self) is type(other)] first. *)
Definition dim_eq (a b : Dimension) : result bool :=
  match a, b with
  | DReal x, DReal y => Ok (Real.__eq__ x y)
  | DInteger x, DInteger y => Ok (Integer.__eq__ x y)
  | DCategorical x, DCategorical y => Categorical.__eq__ x y
  | _, _ => Ok false
  end.

Definition dim_set_transformer (dim : Dimension) (transform : string)
    : Dimension * result unit :=
  match dim with
  | DReal d =>
      let (d', outcome) := Real.set_transformer d transform in (DReal d', outcome)
  | DInteger d =>
      let (d', outcome) := Integer.set_transformer d transform in
      (DInteger d', outcome)
  | DCategorical d =>
      let (d', outcome) := Categorical.set_transformer d transform in
      (DCategorical d', outcome)
  end.

(** The attribute [transform_]. *)
Definition dim_transform_ (dim : Dimension) : string :=
  match dim with
  | DReal d => Real.transform_ d
  | DInteger d => Integer.transform_ d
  | DCategorical d => Categorical.transform_ d
  end.

(** The property [size], which no class overrides. *)
Definition dim_size (dim : Dimension) : nat := 1.

Definition dim_is_constant (dim : Dimension) : bool :=
  match dim with
  | DReal d => Real.is_constant d
  | DInteger d => Integer.is_constant d
  | DCategorical d => Categorical.is_constant d
  end.

Definition dim_bounds (dim : Dimension) : bounds_value :=
  match dim with
  | DReal d => bounds_pair (fst (Real.bounds d)) (snd (Real.bounds d))
  | DInteger d => bounds_pair (fst (Integer.bounds d)) (snd (Integer.bounds d))
  | DCategorical d => bounds_categories (Categorical.bounds d)
  end.

Definition dim_transformed_bounds (dim : Dimension) : bounds_value :=
  match dim with
  | DReal d =>
      bounds_pair (fst (Real.transformed_bounds d)) (snd (Real.transformed_bounds d))
  | DInteger d =>
      bounds_pair (fst (Integer.transformed_bounds d))
                  (snd (Integer.transformed_bounds d))
  | DCategorical d => Categorical.transformed_bounds d
  end.

(** The classes that [isinstance(dim, dim_type)] is asked about: the three
    variants and their base class. *)
Inductive dim_class : Set :=
| class_Real
| class_Integer
| class_Categorical
| class_Dimension.

Definition isinstance (dim : Dimension) (dim_type : dim_class) : bool :=
  match dim_type, dim with
  | class_Dimension, _ => true
  | class_Real, DReal _ => true
  | class_Integer, DInteger _ => true
  | class_Categorical, DCategorical _ => true
  | _, _ => false
  end.

(** ** [_transpose_list_array] *)

(** What a function that also asserts may end in. *)
Inductive raised : Set :=
| Builtin (e : exn)
| AssertionError.

Inductive attempt (A : Type) : Type :=
| Done (a : A)
| Failed (r : raised).
Arguments Done {A} a.
Arguments Failed {A} r.

Definition attempt_of {A : Type} (c : result A) : attempt A :=
  match c with
  | Ok a => Done a
  | Raise e => Failed (Builtin e)
  end.

(** [l[i]] for a list. *)
Definition list_item {A : Type} (l : list A) (i : nat) : result A :=
  match nth_error l i with
  | Some v => Ok v
  | None => Raise IndexError
  end.

(** [_transpose_list_array(x)]: row [i] collects [x[j][i]] over the columns
    [j]; there are as many rows as the first column is long. *)
Definition _transpose_list_array {A : Type} (x : list (list A))
    : attempt (list (list A)) :=
  match x with
  | [] => Failed AssertionError
  | x0 :: _ =>
      attempt_of
        (mapM (fun i => mapM (fun column => list_item column i) x)
              (seq 0 (length x0)))
  end.

(** What indexing an array once gives: an element of a one-dimensional
    array, a row of a two-dimensional one. *)
Inductive cell : Type :=
| element (v : pyval)
| row_of (r : list pyval).

Definition cells (a : ndarray) : list cell :=
  match a with
  | Arr1 l => map element l
  | Arr2 rows _ => map row_of rows
  end.

(** [Xt[:, start]]: a one-dimensional array has no second axis, a column
    past the last one does not exist. *)
Definition take_column (Xt : ndarray) (start : nat) : result ndarray :=
  match Xt with
  | Arr1 _ => Raise IndexError
  | Arr2 rows k =>
      if Nat.ltb start k then Ok (Arr1 (map (fun r => nth start r PNone) rows))
      else Raise IndexError
  end.

(** [Xt[:, start:start + offset]]: a slice is cut to the columns that
    exist. *)
Definition take_columns (Xt : ndarray) (start offset : nat) : result ndarray :=
  match Xt with
  | Arr1 _ => Raise IndexError
  | Arr2 rows k =>
      Ok (Arr2 (map (fun r => firstn offset (skipn start r)) rows)
               (Nat.min offset (k - start)))
  end.

(** ** [check_dimension] *)

(** What a caller may pass as a dimension: an instance, a list or tuple, or
    anything else. *)
Inductive description : Type :=
| Instance (d : Dimension)
| Sequence (l : list pyval)
| Scalar (v : pyval).

(** The positional arguments [low, high, prior, base] that [Integer] and
    [Real] receive from the unpacked description, with the defaults of the
    missing ones.  [high <= low] on a
    bound that is not a number raises [TypeError]. *)
Definition unpack_bounds (args : list pyval) : result (R * R * string * R) :=
  match args with
  | lo :: hi :: rest =>
      match as_num lo, as_num hi with
      | Some l, Some h =>
          match rest with
          | [] => Ok (l, h, "uniform"%string, 10)
          | [PStr p] => Ok (l, h, p, 10)
          | [PStr p; b] =>
              match as_num b with
              | Some v => Ok (l, h, p, v)
              | None => Raise TypeError
              end
          | _ => Raise TypeError
          end
      | _, _ => Raise TypeError
      end
  | _ => Raise TypeError
  end.

Definition call_Integer (args : list pyval) (transform : option string)
    : result Dimension :=
  a <- unpack_bounds args ;;
  let '(l, h, p, b) := a in
  d <- Integer.__init__ l h p b transform PNone (np_signed 64) ;;
  Ok (DInteger d).

Definition call_Real (args : list pyval) (transform : option string)
    : result Dimension :=
  a <- unpack_bounds args ;;
  let '(l, h, p, b) := a in
  d <- Real.__init__ l h p b transform PNone py_float ;;
  Ok (DReal d).

Definition call_Categorical (categories : list pyval) (transform : option string)
    : result Dimension :=
  d <- Categorical.__init__ categories None transform PNone ;;
  Ok (DCategorical d).

Definition prior_names : list pyval := [PStr "uniform"; PStr "log-uniform"].

Definition check_dimension (dimension : description) (transform : option string)
    : result Dimension :=
  match dimension with
  | Instance d => Ok d
  | Scalar _ => Raise ValueError
  | Sequence l =>
      if Nat.eqb (length l) 1 then call_Categorical l transform
      else if Nat.eqb (length l) 2 then
        if existsb is_str_or_bool l then call_Categorical l transform
        else if forallb is_Integral l then call_Integer l transform
        else if existsb is_Real l then call_Real l transform
        else Raise ValueError
      else if Nat.eqb (length l) 3 then
        if existsb is_int (firstn 2 l) && py_in (nth 2 l PNone) prior_names
        then call_Integer l transform
        else if existsb is_float_or_int (firstn 2 l)
                && py_in (nth 2 l PNone) prior_names
        then call_Real l transform
        else call_Categorical l transform
      else if Nat.eqb (length l) 4
              && existsb is_int (firstn 2 l)
              && py_eqb (nth 2 l PNone) (PStr "log-uniform")
              && is_int (nth 3 l PNone)
      then call_Integer l transform
      else if Nat.eqb (length l) 4
              && existsb is_float_or_int (firstn 2 l)
              && py_eqb (nth 2 l PNone) (PStr "log-uniform")
              && is_int (nth 3 l PNone)
      then call_Real l transform
      else if Nat.ltb 3 (length l) then call_Categorical l transform
      else Raise ValueError
  end.

(** ** numpy's [reshape] and [hstack] *)

(** [n] consecutive rows of [k] elements. *)
Fixpoint chunks (k n : nat) (l : list pyval) : list (list pyval) :=
  match n with
  | O => []
  | S n' => firstn k l :: chunks k n' (skipn k l)
  end.

(** [np.asarray(c).reshape((n, -1))]: the number of columns is inferred
    from the size, which fails when the size is not a multiple of [n] and
    when [n] is zero. *)
Definition reshape_rows (n : nat) (a : ndarray) : result ndarray :=
  let flat := flatten a in
  if Nat.eqb n 0 then Raise ValueError
  else if Nat.eqb (length flat mod n) 0
  then Ok (Arr2 (chunks (length flat / n) n flat) (length flat / n))
  else Raise ValueError.

Fixpoint zip_app (r1 r2 : list (list pyval)) : list (list pyval) :=
  match r1, r2 with
  | x :: r1', y :: r2' => (x ++ y) :: zip_app r1' r2'
  | _, _ => []
  end.

(** Concatenation of two arrays side by side. *)
Definition join (a b : ndarray) : result ndarray :=
  match a, b with
  | Arr1 l1, Arr1 l2 => Ok (Arr1 (l1 ++ l2))
  | Arr2 r1 k1, Arr2 r2 k2 =>
      if Nat.eqb (length r1) (length r2)
      then Ok (Arr2 (zip_app r1 r2) (k1 + k2))
      else Raise ValueError
  | _, _ => Raise ValueError
  end.

(** [np.hstack]: at least one array is needed. *)
Fixpoint hstack (arrays : list ndarray) : result ndarray :=
  match arrays with
  | [] => Raise ValueError
  | a :: rest =>
      match rest with
      | [] => Ok a
      | _ :: _ => b <- hstack rest ;; join a b
      end
  end.

(** ** [class Space] *)

Module Space.

Record t : Type := mk { dimensions : list Dimension }.

Definition __init__ (dimensions : list description) : result t :=
  dims <- mapM (fun dim => check_dimension dim None) dimensions ;;
  Ok (mk dims).

(** [all([a == b for a, b in zip(self.dimensions, other.dimensions)])]. *)
Definition __eq__ (self other : t) : result bool :=
  bs <- mapM (fun ab => dim_eq (fst ab) (snd ab))
             (combine (dimensions self) (dimensions other)) ;;
  Ok (forallb (fun b => b) bs).

Definition n_dims (self : t) : nat := length (dimensions self).

Definition transformed_n_dims (self : t) : nat :=
  list_sum (map dim_transformed_size (dimensions self)).

(** [X[i][j]]. *)
Definition item (row : list pyval) (j : nat) : result pyval :=
  match nth_error row j with
  | Some v => Ok v
  | None => Raise IndexError
  end.

(** The packing by dimension: column [j] collects [X[i][j]] over the rows. *)
Definition pack (self : t) (X : list (list pyval)) : result (list (list pyval)) :=
  mapM (fun j => mapM (fun row => item row j) X) (seq 0 (n_dims self)).

Definition transform `{PyRuntime} (self : t) (X : list (list pyval))
    : result ndarray :=
  columns <- pack self X ;;
  columns <- mapM (fun dc => dim_transform (fst dc) (snd dc))
                  (combine (dimensions self) columns) ;;
  blocks <- mapM (reshape_rows (length X)) columns ;;
  hstack blocks.

(** [point in self]: the components are tested in order against their
    dimensions, up to the shorter of the two. *)
Fixpoint contains_from (dims : list Dimension) (point : list pyval) : result bool :=
  match point, dims with
  | component :: point', dim :: dims' =>
      b <- dim_contains dim component ;;
      if negb b then Ok false else contains_from dims' point'
  | _, _ => Ok true
  end.

Definition __contains__ (self : t) (point : list pyval) : result bool :=
  contains_from (dimensions self) point.

(** The name of a dimension as the value [dimension_name == dim.name]
    compares with. *)
Definition name_value (dim : Dimension) : pyval :=
  match dim_name dim with
  | Some s => PStr s
  | None => PNone
  end.

(** The helper [_get] of [__getitem__], from position [index] on. *)
Fixpoint _get (dims : list Dimension) (index : nat) (dimension_name : pyval)
    : option nat * option Dimension :=
  match dims with
  | [] => (None, None)
  | dim :: rest =>
      if py_eqb dimension_name (name_value dim) then (Some index, Some dim)
      else if py_eqb dimension_name (PInt (Z.of_nat index))
      then (Some index, Some dim)
      else _get rest (S index) dimension_name
  end.

(** The argument of [__getitem__]: one value, or a list or tuple of them. *)
Inductive key : Type :=
| Single (k : pyval)
| Many (ks : list pyval).

Inductive found : Type :=
| One (r : option nat * option Dimension)
| Several (rs : list (option nat * option Dimension)).

Definition is_str_or_int (k : pyval) : bool :=
  match k with PStr _ | PInt _ | PBool _ => true | _ => false end.

Definition __getitem__ (self : t) (dimension_names : key) : result found :=
  match dimension_names with
  | Single k =>
      if is_str_or_int k then Ok (One (_get (dimensions self) 0 k))
      else Raise ValueError
  | Many ks => Ok (Several (map (_get (dimensions self) 0) ks))
  end.

(** ["X_%d" % index]. *)
Definition default_name (index : nat) : string :=
  ("X_" ++ NilZero.string_of_uint (Nat.to_uint index))%string.

(** [dimension_names], from position [index] on. *)
Fixpoint names_from (dims : list Dimension) (index : nat) : list string :=
  match dims with
  | [] => []
  | dim :: rest =>
      match dim_name dim with
      | None => default_name index
      | Some name => name
      end :: names_from rest (S index)
  end.

Definition dimension_names (self : t) : list string :=
  names_from (dimensions self) 0.

Definition is_real (self : t) : bool :=
  forallb (fun dim => isinstance dim class_Real) (dimensions self).

Definition is_categorical (self : t) : bool :=
  forallb (fun dim => isinstance dim class_Categorical) (dimensions self).

Definition is_partly_categorical (self : t) : bool :=
  existsb (fun dim => isinstance dim class_Categorical) (dimensions self).

(** The argument of [set_transformer]: one mode, or a list of modes. *)
Inductive modes : Type :=
| same_mode (transform : string)
| each_mode (transform : list string).

(** The loop of [set_transformer] from dimension [j] on: the dimensions are
    reconfigured in order, and the loop ends at the first call that
    raises, leaving the dimensions before it reconfigured.  The dimensions
    are separate objects here; [set_shared_from] below is the loop for a
    space in which one object stands at several positions. *)
Fixpoint set_from (dims : list Dimension) (j : nat) (transform : modes)
    : list Dimension * result unit :=
  match dims with
  | [] => ([], Ok tt)
  | dim :: rest =>
      match (match transform with
             | same_mode mode => Ok mode
             | each_mode l => list_item l j
             end) with
      | Raise e => (dim :: rest, Raise e)
      | Ok mode =>
          let (dim', outcome) := dim_set_transformer dim mode in
          match outcome with
          | Raise e => (dim' :: rest, Raise e)
          | Ok _ =>
              let (rest', outcome') := set_from rest (S j) transform in
              (dim' :: rest', outcome')
          end
      end
  end.

Definition set_transformer (self : t) (transform : modes) : t * result unit :=
  let (dims, outcome) := set_from (dimensions self) 0 transform in
  (mk dims, outcome).

(** The loop of [set_transformer_by_type]. *)
Fixpoint set_by_type_from (dims : list Dimension) (transform : string)
    (dim_type : dim_class) : list Dimension * result unit :=
  match dims with
  | [] => ([], Ok tt)
  | dim :: rest =>
      if isinstance dim dim_type then
        let (dim', outcome) := dim_set_transformer dim transform in
        match outcome with
        | Raise e => (dim' :: rest, Raise e)
        | Ok _ =>
            let (rest', outcome') := set_by_type_from rest transform dim_type in
            (dim' :: rest', outcome')
        end
      else
        let (rest', outcome') := set_by_type_from rest transform dim_type in
        (dim :: rest', outcome')
  end.

Definition set_transformer_by_type (self : t) (transform : string)
    (dim_type : dim_class) : t * result unit :=
  let (dims, outcome) := set_by_type_from (dimensions self) transform dim_type in
  (mk dims, outcome).

Definition get_transformer (self : t) : list string :=
  map dim_transform_ (dimensions self).

(** The loop of [inverse_transform] from column [start] on. *)
Fixpoint inverse_from `{PyRuntime} (dims : list Dimension) (Xt : ndarray)
    (start : nat) : result (list (list cell)) :=
  match dims with
  | [] => Ok []
  | dim :: rest =>
      let offset := dim_transformed_size dim in
      block <- (if Nat.eqb offset 1 then take_column Xt start
                else take_columns Xt start offset) ;;
      column <- dim_inverse_transform dim block ;;
      columns <- inverse_from rest Xt (start + offset) ;;
      Ok (cells column :: columns)
  end.

Definition inverse_transform `{PyRuntime} (self : t) (Xt : ndarray)
    : attempt (list (list cell)) :=
  match inverse_from (dimensions self) Xt 0 with
  | Ok columns => _transpose_list_array columns
  | Raise e => Failed (Builtin e)
  end.

(** What [b.append(v)] and [b.extend(v)] add to the list of bounds: the
    value itself, or its elements. *)
Inductive bounds_entry : Type :=
| whole (b : bounds_value)
| number (r : R)
| category (v : pyval).

Definition extend (b : bounds_value) : list bounds_entry :=
  match b with
  | bounds_pair lo hi => [number lo; number hi]
  | bounds_categories cats => map category cats
  | bounds_pairs l => map (fun p => whole (bounds_pair (fst p) (snd p))) l
  end.

Definition bounds (self : t) : list bounds_entry :=
  flat_map (fun dim =>
              if Nat.eqb (dim_size dim) 1 then [whole (dim_bounds dim)]
              else extend (dim_bounds dim))
           (dimensions self).

Definition transformed_bounds (self : t) : list bounds_entry :=
  flat_map (fun dim =>
              if Nat.eqb (dim_transformed_size dim) 1
              then [whole (dim_transformed_bounds dim)]
              else extend (dim_transformed_bounds dim))
           (dimensions self).

Definition n_constant_dimensions (self : t) : nat :=
  fold_left (fun n dim => if dim_is_constant dim then S n else n)
            (dimensions self) O.

End Space.

(** ** Spaces that share dimension objects

    [check_dimension] returns a [Dimension] instance that it is given as it
    is, and [Space.__init__] keeps it: one object may stand at several
    positions of a space.  [set_transformer] mutates the object, which every
    position that refers to it then shows.  A heap holds the objects, a
    reference is the position of its object in the heap, and the dimensions
    of a space are a list of references. *)
Definition heap : Type := list Dimension.

(** The object that a reference stands for. *)
Definition deref (h : heap) (r : nat) : option Dimension := nth_error h r.

(** The heap after the object at [r] has become [dim]. *)
Fixpoint store (h : heap) (r : nat) (dim : Dimension) : heap :=
  match h, r with
  | [], _ => []
  | _ :: t, O => dim :: t
  | x :: t, S r' => x :: store t r' dim
  end.

(** The dimensions of the space, object by object. *)
Definition dimensions_of (h : heap) (refs : list nat) : list Dimension :=
  flat_map (fun r => match deref h r with
                     | Some dim => [dim]
                     | None => []
                     end) refs.

(** The loop of [Space.set_transformer] from position [j] on, for the space
    whose dimensions are the references [refs]: each call mutates its
    object in place, so that a later position that refers to the same
    object reconfigures it once more.  A reference has its object; for one
    that had none there would be nothing to do. *)
Fixpoint set_shared_from (h : heap) (refs : list nat) (j : nat)
    (transform : Space.modes) : heap * result unit :=
  match refs with
  | [] => (h, Ok tt)
  | r :: rest =>
      match (match transform with
             | Space.same_mode mode => Ok mode
             | Space.each_mode l => list_item l j
             end) with
      | Raise e => (h, Raise e)
      | Ok mode =>
          match deref h r with
          | None => set_shared_from h rest (S j) transform
          | Some dim =>
              let (dim', outcome) := dim_set_transformer dim mode in
              match outcome with
              | Raise e => (store h r dim', Raise e)
              | Ok _ => set_shared_from (store h r dim') rest (S j) transform
              end
          end
      end
  end.

(** ** The sampling width in binary64 arithmetic *)

Module Float64.

Local Open Scope float_scope.

(** [np.nextafter(x, y)]: the next float after [x] towards [y]. *)
Definition nextafter (x y : float) : float :=
  if PrimFloat.ltb x y then next_up x
  else if PrimFloat.ltb y x then next_down x
  else y.

(** The frozen [uniform(loc=loc, scale=scale)]. *)
Record uniform : Set := mk_uniform { loc : float; scale : float }.

Definition _uniform_inclusive (loc scale : float) : uniform :=
  mk_uniform loc (nextafter scale (scale + 1)).

(** The distribution that [Real.set_transformer] installs for a uniform
    prior and the identity transform. *)
Definition Real_rvs_identity (low high : float) : uniform :=
  _uniform_inclusive low (high - low).

(** The distribution that every normalize mode installs. *)
Definition rvs_normalize : uniform := _uniform_inclusive 0 1.

(** Modelled from the spec: the rescaling of [Normalize], absent from the
    sources, "transform(x) = (x - low) / (high - low)" and
    "inverse_transform(y) = low + y*(high-low)", each operation rounding as
    binary64 does. *)
Definition Normalize_transform (low high x : float) : float :=
  (x - low) / (high - low).

Definition Normalize_inverse_transform (low high y : float) : float :=
  low + y * (high - low).

(** [np.allclose([a], [b])] on two floats, with the floats nearest to the
    default tolerances [1e-08] and [1e-05]. *)
Definition allclose1 (a b : float) : bool :=
  PrimFloat.leb (abs (a - b))
                (0x1.5798ee2308c3ap-27 + 0x1.4f8b588e368f1p-17 * abs b).

End Float64.

(** * Notions for the statements

    ** Objects in a configured state

    An object is configured when it is in the state that a call of
    [set_transformer] which returned leaves behind: its mode, pipeline and
    distribution belong together.  Every object that [__init__] returns is
    configured; an object on which [set_transformer] raised is not. *)

Definition Real_configured (d : Real.t) : Prop :=
  exists mode : string, Real.set_transformer d mode = (d, Ok tt).

Definition Integer_configured (d : Integer.t) : Prop :=
  exists mode : string, Integer.set_transformer d mode = (d, Ok tt).

Definition Categorical_configured (d : Categorical.t) : Prop :=
  exists mode : string, Categorical.set_transformer d mode = (d, Ok tt).

Definition dim_configured (dim : Dimension) : Prop :=
  match dim with
  | DReal d => Real_configured d
  | DInteger d => Integer_configured d
  | DCategorical d => Categorical_configured d
  end.

(** ** Columns, rows and blocks *)

(** The number a value denotes, 0 for a value that denotes none. *)
Definition num_of (v : pyval) : R :=
  match as_num v with
  | Some x => x
  | None => 0
  end.

(** The position of a value among the categories, 0 when it is absent. *)
Definition position_of (cats : list pyval) (v : pyval) : nat :=
  match index_of cats v with
  | Some i => i
  | None => O
  end.

(** The rows of an array; an element of a one-dimensional array is a row of
    its own. *)
Definition rows_of (a : ndarray) : list (list pyval) :=
  match a with
  | Arr1 l => map (fun v => [v]) l
  | Arr2 rows _ => rows
  end.

(** Column [j] of a list of rows. *)
Definition column (X : list (list pyval)) (j : nat) : list pyval :=
  map (fun row => nth j row PNone) X.

(** A value that denotes a number. *)
Definition numeric (v : pyval) : Prop := as_num v <> None.

(** [v in cats] holds. *)
Definition member (cats : list pyval) (v : pyval) : Prop := py_in v cats = true.

(** [point in dim] evaluates to [True]. *)
Definition dim_member (dim : Dimension) (point : pyval) : Prop :=
  dim_contains dim point = Ok true.

(** A runtime for the examples, none of which renders a float. *)
Definition example_runtime : PyRuntime := {| float_repr := fun _ => "float"%string |}.

(** The rows of blocks with equally many rows, set side by side. *)
Fixpoint glue (blocks : list (list (list pyval))) : list (list pyval) :=
  match blocks with
  | [] => []
  | b :: rest =>
      match rest with
      | [] => b
      | _ :: _ => zip_app b (glue rest)
      end
  end.

(** The shape of an array: [n] rows of [k] elements. *)
Definition shaped (n k : nat) (a : ndarray) : Prop :=
  length (rows_of a) = n /\ Forall (fun r => length r = k) (rows_of a).

(** ** The domain of a dimension and the round trip

    What [__init__] establishes besides the configuration, and
    [set_transformer] keeps: the bounds are ordered and [log_base] is the
    logarithm of [base]. *)
Definition dim_valid (dim : Dimension) : Prop :=
  dim_configured dim
  /\ match dim with
     | DReal d =>
         Real.low d < Real.high d /\ Real.log_base d = log10 (Real.base d)
     | DInteger d =>
         Integer.low d < Integer.high d
         /\ Integer.log_base d = log10 (Integer.base d)
     | DCategorical _ => True
     end.

(** The integer that a whole number denotes. *)
Definition int_value (v : pyval) : Z :=
  match v with
  | PInt z => z
  | PBool true => 1%Z
  | _ => 0%Z
  end.

(** The values of a dimension: the members for [Real] and [Categorical],
    the members that are whole numbers for [Integer]. *)
Definition in_domain (dim : Dimension) (v : pyval) : Prop :=
  match dim with
  | DReal _ | DCategorical _ => dim_member dim v
  | DInteger _ => dim_member dim v /\ is_Integral v = true
  end.

(** The string form identifies the values of [l]: two of them have the same
    string form exactly when they are equal. *)
Definition str_faithful `{PyRuntime} (l : list pyval) : Prop :=
  forall a b, In a l -> In b l -> (py_str a = py_str b <-> py_eqb a b = true).

(** A number that binary64 holds: a float, or an [int] that conversion to
    float leaves as it is. *)
Definition binary64 (x : R) : Prop := to_float x = x.

(** A magnitude of at most 2 ** 20.  The transforms compute here on exact
    numbers, as the specification writes them; in binary64 each operation
    rounds, which for large bounds adds up to more than the tolerance of
    [np.allclose] and than the half that [np.round] absorbs
    ([normalize_binary64_beyond_tolerance],
    [normalize_binary64_off_the_grid]), and for bounds of this size to
    less. *)
Definition modest (x : R) : Prop := Rabs x <= 1048576.

(** The logarithm is defined where it is taken: of a base that is positive
    and not one, of positive values, and, in the modes that rescale the
    logarithms of the bounds, of a positive lower bound.  Outside of these
    numpy computes with infinities and NaN, which are not represented. *)
Definition log_ready (prior transform : string) (low base : R) (X : list pyval)
    : Prop :=
  prior <> "uniform"%string ->
  0 < base /\ base <> 1
  /\ Forall (fun v => 0 < num_of v) X
  /\ (str_in "normalize" transform = true -> 0 < low).

(** The conditions under which the round trip of a column [X] returns it.
    [Real]: the dtype holds a binary64 number as it is; the bounds and the
    values are binary64 numbers; the logarithm is defined; under the uniform
    prior the rescaled bounds are modest.  [Integer]: the dtype holds the
    values; the bounds and the values are binary64 numbers; the logarithm is
    defined; in the modes that compute, the bounds are modest.
    [Categorical]: in mode [string] the string form identifies the values
    among the categories; the normalize modes rescale at least two
    categories (with one, zero is divided by zero); [np.array] does not make
    strings of values that are none; the numbers are binary64 numbers. *)
Definition roundtrip_ready `{PyRuntime} (dim : Dimension) (X : list pyval) : Prop :=
  match dim with
  | DReal d =>
      float_format (Real.dtype d) = None
      /\ binary64 (Real.low d) /\ binary64 (Real.high d)
      /\ Forall (fun v => binary64 (num_of v)) X
      /\ log_ready (Real.prior d) (Real.transform_ d) (Real.low d) (Real.base d) X
      /\ (Real.prior d = "uniform"%string ->
          str_in "normalize" (Real.transform_ d) = true ->
          modest (Real.low d) /\ modest (Real.high d))
  | DInteger d =>
      Forall (fun v => astype_int (Integer.dtype d) (int_value v) = int_value v) X
      /\ binary64 (Integer.low d) /\ binary64 (Integer.high d)
      /\ Forall (fun v => binary64 (num_of v)) X
      /\ log_ready (Integer.prior d) (Integer.transform_ d) (Integer.low d)
                   (Integer.base d) X
      /\ (~ (Integer.prior d = "uniform"%string
             /\ Integer.transform_ d = "identity"%string) ->
          modest (Integer.low d) /\ modest (Integer.high d))
  | DCategorical d =>
      (Categorical.transform_ d = "string"%string ->
       str_faithful (Categorical.categories d ++ X))
      /\ (str_in "normalize" (Categorical.transform_ d) = true ->
          (2 <= length (Categorical.categories d))%nat)
      /\ (common_type X = of_strings -> Forall (fun v => is_str v = true) X)
      /\ Forall (fun v => binary64 (num_of v)) X
  end.

(** [x' == x] for the elements of two columns. *)
Definition columns_equal (X' X : list pyval) : Prop :=
  Forall2 (fun x' x => py_eqb x' x = true) X' X.

(** [x'] and [x] are numbers that [np.allclose] accepts, with its default
    tolerances. *)
Definition close (x' x : pyval) : Prop :=
  match as_num x', as_num x with
  | Some a, Some b => allclose1 a b = true
  | _, _ => False
  end.

Definition columns_close (X' X : list pyval) : Prop := Forall2 close X' X.

(** What the round trip of [X] returns: for [Real] values within the
    tolerance of the given ones, and equal to them in mode [identity] under
    the uniform prior, where nothing is computed; for [Integer] and
    [Categorical] values equal to the given ones. *)
Definition returned (dim : Dimension) (X' X : list pyval) : Prop :=
  match dim with
  | DReal d =>
      columns_close X' X
      /\ (Real.prior d = "uniform"%string ->
          Real.transform_ d = "identity"%string -> columns_equal X' X)
  | DInteger _ | DCategorical _ => columns_equal X' X
  end.

(** The category that stands at the position of [v]. *)
Definition category_of (cats : list pyval) (v : pyval) : pyval :=
  nth (position_of cats v) cats PNone.

(** The first category with the string form of [v]. *)
Definition string_match `{PyRuntime} (cats : list pyval) (v : pyval) : pyval :=
  match find (fun c => String.eqb (py_str c) (py_str v)) cats with
  | Some c => c
  | None => PNone
  end.

(** ** Modes

    The modes that the test at the head of [set_transformer] lets through,
    class by class. *)
Definition accepted_modes (dim : Dimension) : list string :=
  match dim with
  | DReal _ => ["normalize"; "identity"; "normalize_unbounded"]%string
  | DInteger _ => ["normalize"; "identity"]%string
  | DCategorical _ =>
      ["identity"; "onehot"; "string"; "normalize"; "normalize_unbounded";
       "label"]%string
  end.

(** The mode that [Space.set_transformer] hands to dimension [j], if the
    argument has one for it. *)
Definition mode_for (transform : Space.modes) (j : nat) : option string :=
  match transform with
  | Space.same_mode mode => Some mode
  | Space.each_mode l => nth_error l j
  end.

(** The mode that the last of the positions [j, j + 1, ...] at which the
    object [r] stands is given, if [r] stands at one of them and the
    argument has a mode for it. *)
Fixpoint last_mode (refs : list nat) (j : nat) (transform : Space.modes) (r : nat)
    : option string :=
  match refs with
  | [] => None
  | r' :: rest =>
      match last_mode rest (S j) transform r with
      | Some mode => Some mode
      | None => if Nat.eqb r' r then mode_for transform j else None
      end
  end.

(** What a call of [set_transformer] keeps of a dimension: its class, its
    bounds, its name and its members. *)
Definition kept (dim dim' : Dimension) : Prop :=
  dim_bounds dim' = dim_bounds dim /\ dim_name dim' = dim_name dim
  /\ (forall dim_type, isinstance dim' dim_type = isinstance dim dim_type)
  /\ (forall point, dim_contains dim' point = dim_contains dim point).

(** ** Numbers that Python and numpy treat alike

    A number of magnitude at most 2 ** 53 is the same number as a Python
    [int], as a binary64 float and as a numpy integer; beyond the range of
    binary64 or of [int64], numpy and Python raise [OverflowError] or
    [TypeError] on an [int], which the constructors above, computing on
    exact numbers, do not.  The statements about what a constructor raises
    are made within this range. *)
Definition moderate (x : R) : Prop := Rabs x <= 9007199254740992.

Definition moderate_value (v : pyval) : Prop :=
  match as_num v with
  | Some x => moderate x
  | None => True
  end.

Definition moderate_description (dimension : description) : Prop :=
  match dimension with
  | Sequence l => Forall moderate_value l
  | Instance _ | Scalar _ => True
  end.

(** ** Example objects *)

(** [Categorical(["a", "b"])], [Categorical(["a", "b", "c"])] and
    [Categorical(["a", "b", "c"], transform="label")] as [__init__] builds
    them. *)
Definition cat_ab : Categorical.t :=
  Categorical.mk [PStr "a"; PStr "b"] None "onehot"
    (Some (CategoricalEncoder [PStr "a"; PStr "b"]))
    (Some (rv_discrete [0%Z; 1%Z] (repeat (1 / INR 2) 2)))
    None (repeat (1 / INR 2) 2).

Definition cat_abc : Categorical.t :=
  Categorical.mk [PStr "a"; PStr "b"; PStr "c"] None "onehot"
    (Some (CategoricalEncoder [PStr "a"; PStr "b"; PStr "c"]))
    (Some (rv_discrete [0%Z; 1%Z; 2%Z] (repeat (1 / INR 3) 3)))
    None (repeat (1 / INR 3) 3).

Definition cat_abc_label : Categorical.t :=
  Categorical.mk [PStr "a"; PStr "b"; PStr "c"] None "label"
    (Some (LabelEncoder [PStr "a"; PStr "b"; PStr "c"]))
    (Some (rv_discrete [0%Z; 1%Z; 2%Z] (repeat (1 / INR 3) 3)))
    None (repeat (1 / INR 3) 3).

(** [Real(0, 1)] and [Integer(0, 10)] as [__init__] builds them. *)
Definition real_01 : Real.t :=
  Real.mk 0 1 "uniform" 10 (log10 10) None py_float
    (Some (_uniform_inclusive 0 (1 - 0))) (Some Identity) "identity".

Definition integer_0_10 : Integer.t :=
  Integer.mk 0 10 "uniform" 10 (log10 10) None (np_signed 64)
    (Some (randint 0 (10 + 1))) (Some Identity) "identity".

(** [Real(0, 1, name="x")]. *)
Definition real_x : Real.t :=
  Real.mk 0 1 "uniform" 10 (log10 10) (Some "x"%string) py_float
    (Some (_uniform_inclusive 0 (1 - 0))) (Some Identity) "identity".

(** 2 ** 53, the first float whose successor is two units away. *)
Definition two53 : float := 9007199254740992%float.

(** [Space([Real(0, 1, name="x"), Categorical(["a", "b"]),
    Real(0, 1, name="x")])]: two dimensions share a name. *)
Definition space_x_ab_x : Space.t :=
  Space.mk [DReal real_x; DCategorical cat_ab; DReal real_x].

(** [Categorical(["x", "y", "z"])], the space
    [Space([Real(0, 1), Categorical(["x", "y", "z"])])] and two of its
    points. *)
Definition cat_xyz : Categorical.t :=
  Categorical.mk [PStr "x"; PStr "y"; PStr "z"] None "onehot"
    (Some (CategoricalEncoder [PStr "x"; PStr "y"; PStr "z"]))
    (Some (rv_discrete [0%Z; 1%Z; 2%Z] (repeat (1 / INR 3) 3)))
    None (repeat (1 / INR 3) 3).

Definition space_real_cat : Space.t :=
  Space.mk [DReal real_01; DCategorical cat_xyz].

Definition two_points : list (list pyval) :=
  [[PFloat (1 / 2); PStr "x"]; [PFloat 1; PStr "z"]].

(** [Categorical(["a", "b", "c"])] after [set_transformer("bogus")] has
    raised: the mode is the new one, the pipeline the old one. *)
Definition cat_abc_bogus : Categorical.t :=
  fst (Categorical.set_transformer cat_abc "bogus").

(** [Integer(0, 1000, dtype=np.int8)]. *)
Definition integer_int8 : Integer.t :=
  Integer.mk 0 1000 "uniform" 10 (log10 10) None (np_signed 8)
    (Some (randint 0 (1000 + 1))) (Some Identity) "identity".

(** [Integer(0, 10, transform="normalize")]. *)
Definition integer_0_10_normalize : Integer.t :=
  Integer.mk 0 10 "uniform" 10 (log10 10) None (np_signed 64)
    (Some (_uniform_inclusive 0 1))
    (Some (Pipeline [Identity; Normalize 0 10 true false None])) "normalize".

(** [Categorical([1, "1"], transform="string")]: two categories with one
    string form. *)
Definition cat_1_str1 : Categorical.t :=
  Categorical.mk [PInt 1; PStr "1"] None "string"
    (Some (StringEncoder [PInt 1; PStr "1"]))
    (Some (rv_discrete [0%Z; 1%Z] (repeat (1 / INR 2) 2)))
    None (repeat (1 / INR 2) 2).

(** [Real(1, 100, prior="log-uniform", transform="normalize_unbounded")]. *)
Definition real_log_unbounded : Real.t :=
  Real.mk 1 100 "log-uniform" 10 (log10 10) None py_float
    (Some (_uniform_inclusive 0 1))
    (Some (Pipeline [LogN 10;
                     Normalize (log10 1 / log10 10) (log10 100 / log10 10)
                               false true None]))
    "normalize_unbounded".

(** [Categorical(["a", "b", "c"], transform="string")]. *)
Definition cat_abc_string : Categorical.t :=
  Categorical.mk [PStr "a"; PStr "b"; PStr "c"] None "string"
    (Some (StringEncoder [PStr "a"; PStr "b"; PStr "c"]))
    (Some (rv_discrete [0%Z; 1%Z; 2%Z] (repeat (1 / INR 3) 3)))
    None (repeat (1 / INR 3) 3).

(** [Real(0, 1.000010010005)]: an upper bound that [np.allclose] accepts
    for 1 as its first argument and not as its second. *)
Definition real_01_wider : Real.t :=
  Real.mk 0 (1 + 10010005 / 1000000000000) "uniform" 10 (log10 10) None py_float
    (Some (_uniform_inclusive 0 (1 + 10010005 / 1000000000000 - 0)))
    (Some Identity) "identity".

(** [Real(0, 2051, dtype=np.float16)]. *)
Definition real_float16 : Real.t :=
  Real.mk 0 2051 "uniform" 10 (log10 10) None (np_floating 16)
    (Some (_uniform_inclusive 0 (2051 - 0))) (Some Identity) "identity".

(** [Real(0, 2 ** 54)] and [Real(2 ** 53 + 1, 2 ** 54)]. *)
Definition real_0_2_54 : Real.t :=
  Real.mk 0 18014398509481984 "uniform" 10 (log10 10) None py_float
    (Some (_uniform_inclusive 0 (18014398509481984 - 0))) (Some Identity)
    "identity".

Definition real_beyond_2_53 : Real.t :=
  Real.mk 9007199254740993 18014398509481984 "uniform" 10 (log10 10) None py_float
    (Some (_uniform_inclusive 9007199254740993
             (18014398509481984 - 9007199254740993)))
    (Some Identity) "identity".

(** [Integer(0.5, 2 ** 54)]. *)
Definition integer_half_2_54 : Integer.t :=
  Integer.mk (1 / 2) 18014398509481984 "uniform" 10 (log10 10) None (np_signed 64)
    (Some (randint (1 / 2) (18014398509481984 + 1))) (Some Identity) "identity".

(** [Real(1, 100, prior="log-uniform", base=1)]. *)
Definition real_base_one : Real.t :=
  Real.mk 1 100 "log-uniform" 1 (log10 1) None py_float
    (Some (_uniform_inclusive
             (log10 1 / log10 1) (log10 100 / log10 1 - log10 1 / log10 1)))
    (Some (LogN 1)) "identity".

(** [Categorical(["a", 1], transform="string")]: a string and a number. *)
Definition cat_a_1_string : Categorical.t :=
  Categorical.mk [PStr "a"; PInt 1] None "string"
    (Some (StringEncoder [PStr "a"; PInt 1]))
    (Some (rv_discrete [0%Z; 1%Z] (repeat (1 / INR 2) 2)))
    None (repeat (1 / INR 2) 2).

(** [Categorical([2 ** 53 + 1, 0.5], transform="identity")]: an [int] that
    binary64 does not hold, and a float. *)
Definition cat_int_float : Categorical.t :=
  Categorical.mk [PInt 9007199254740993; PFloat (1 / 2)] None "identity"
    (Some Identity)
    (Some (rv_discrete [0%Z; 1%Z] (repeat (1 / INR 2) 2)))
    None (repeat (1 / INR 2) 2).

(** * Properties *)

(** ** Comparisons of real numbers as booleans *)

Lemma Rleb_true (x y : R) : x <= y -> Rleb x y = true.
Proof. intros Hxy. unfold Rleb. destruct (Rle_dec x y); [reflexivity | contradiction]. Qed.

Lemma Rleb_false (x y : R) : y < x -> Rleb x y = false.
Proof. intros Hxy. unfold Rleb. destruct (Rle_dec x y); [lra | reflexivity]. Qed.

Lemma Rleb_true_inv (x y : R) : Rleb x y = true -> x <= y.
Proof. unfold Rleb. destruct (Rle_dec x y); [trivial | discriminate]. Qed.

Lemma Rleb_false_inv (x y : R) : Rleb x y = false -> y < x.
Proof. unfold Rleb. destruct (Rle_dec x y); [discriminate | lra]. Qed.

Lemma Rltb_true (x y : R) : x < y -> Rltb x y = true.
Proof. intros Hxy. unfold Rltb. destruct (Rlt_dec x y); [reflexivity | contradiction]. Qed.

Lemma Rltb_false (x y : R) : y <= x -> Rltb x y = false.
Proof. intros Hxy. unfold Rltb. destruct (Rlt_dec x y); [lra | reflexivity]. Qed.

Lemma Reqb_refl (x : R) : Reqb x x = true.
Proof. unfold Reqb. destruct (Req_dec_T x x); [reflexivity | contradiction]. Qed.

Lemma Reqb_true_inv (x y : R) : Reqb x y = true -> x = y.
Proof. unfold Reqb. destruct (Req_dec_T x y); [trivial | discriminate]. Qed.

Lemma Reqb_false (x y : R) : x <> y -> Reqb x y = false.
Proof. intros Hxy. unfold Reqb. destruct (Req_dec_T x y); [contradiction | reflexivity]. Qed.

Lemma py_eqb_refl (v : pyval) : py_eqb v v = true.
Proof.
  destruct v as [ | b | z | r | s]; unfold py_eqb; simpl;
    try apply Reqb_refl; try reflexivity.
  apply String.eqb_refl.
Qed.

(** ** The one-hot width of a categorical dimension *)

(** C6: a [Categorical] in mode [onehot] has [transformed_size] equal to the
    number of its categories, except that exactly two categories give 1;
    in each of the modes [identity], [string], [label], [normalize] and
    [normalize_unbounded] the size is 1. *)
Theorem transformed_size_onehot_collapse :
  forall d : Categorical.t,
    (Categorical.transform_ d = "onehot"%string ->
       (length (Categorical.categories d) = 2%nat ->
          Categorical.transformed_size d = 1%nat)
       /\ (length (Categorical.categories d) <> 2%nat ->
             Categorical.transformed_size d = length (Categorical.categories d)))
    /\ (In (Categorical.transform_ d)
           ["identity"; "string"; "label"; "normalize";
            "normalize_unbounded"]%string ->
          Categorical.transformed_size d = 1%nat).
Proof.
  intros d. unfold Categorical.transformed_size. split.
  - intros Hmode. rewrite Hmode. simpl. split; intros Hlen.
    + rewrite Hlen. reflexivity.
    + destruct (Nat.eqb_spec (length (Categorical.categories d)) 2) as [E | E];
        [contradiction | reflexivity].
  - intros Hmode. simpl in Hmode.
    destruct Hmode as [E | [E | [E | [E | [E | []]]]]]; rewrite <- E; reflexivity.
Qed.

Lemma cat_ab_built :
  Categorical.__init__ [PStr "a"; PStr "b"] None None PNone = Ok cat_ab.
Proof. reflexivity. Qed.

Lemma cat_abc_built :
  Categorical.__init__ [PStr "a"; PStr "b"; PStr "c"] None None PNone = Ok cat_abc.
Proof. reflexivity. Qed.

Lemma cat_abc_label_built :
  Categorical.__init__ [PStr "a"; PStr "b"; PStr "c"] None (Some "label"%string) PNone
  = Ok cat_abc_label.
Proof. reflexivity. Qed.

Lemma transformed_size_onehot_collapse_witness :
  Categorical.transformed_size cat_ab = 1%nat
  /\ Categorical.transformed_size cat_abc = 3%nat
  /\ Categorical.transformed_size cat_abc_label = 1%nat.
Proof.
  split; [ | split].
  - apply (proj1 (transformed_size_onehot_collapse cat_ab)); reflexivity.
  - apply (proj1 (transformed_size_onehot_collapse cat_abc)).
    + reflexivity.
    + simpl. discriminate.
  - apply (proj2 (transformed_size_onehot_collapse cat_abc_label)).
    simpl. tauto.
Defined.

(** ** The frame of [set_transformer] *)

Ltac split_conditionals :=
  repeat match goal with
         | |- context [if ?c then _ else _] => destruct c
         end.

Lemma Real_set_transformer_frame (d : Real.t) (mode : string) :
  let d' := fst (Real.set_transformer d mode) in
  Real.low d' = Real.low d /\ Real.high d' = Real.high d
  /\ Real.prior d' = Real.prior d /\ Real.base d' = Real.base d
  /\ Real.log_base d' = Real.log_base d /\ Real.name d' = Real.name d
  /\ Real.dtype d' = Real.dtype d.
Proof.
  unfold Real.set_transformer. split_conditionals; simpl; repeat split; reflexivity.
Qed.

Lemma Integer_set_transformer_frame (d : Integer.t) (mode : string) :
  let d' := fst (Integer.set_transformer d mode) in
  Integer.low d' = Integer.low d /\ Integer.high d' = Integer.high d
  /\ Integer.prior d' = Integer.prior d /\ Integer.base d' = Integer.base d
  /\ Integer.log_base d' = Integer.log_base d
  /\ Integer.name d' = Integer.name d /\ Integer.dtype d' = Integer.dtype d.
Proof.
  unfold Integer.set_transformer. split_conditionals; simpl; repeat split; reflexivity.
Qed.

Lemma Categorical_set_transformer_frame (d : Categorical.t) (mode : string) :
  let d' := fst (Categorical.set_transformer d mode) in
  Categorical.categories d' = Categorical.categories d
  /\ Categorical.name d' = Categorical.name d
  /\ Categorical.prior d' = Categorical.prior d
  /\ Categorical.prior_ d' = Categorical.prior_ d.
Proof.
  unfold Categorical.set_transformer.
  split_conditionals; simpl; repeat split; reflexivity.
Qed.

(** A call that raises has stored the new mode and nothing else. *)
Lemma Real_set_transformer_raises (d : Real.t) (mode : string) (e : exn) :
  snd (Real.set_transformer d mode) = Raise e ->
  e = ValueError
  /\ str_among mode ["normalize"; "identity"; "normalize_unbounded"]%string = false
  /\ fst (Real.set_transformer d mode) = Real.with_transform_ d mode.
Proof.
  unfold Real.set_transformer. cbv zeta.
  change (Real.transform_ (Real.with_transform_ d mode)) with mode.
  destruct (str_among mode ["normalize"; "identity"; "normalize_unbounded"]%string);
    cbn [negb].
  - split_conditionals; simpl; discriminate.
  - simpl. intros H. injection H as <-. repeat split; reflexivity.
Qed.

(** C7: a call of [set_transformer], whether it returns or raises, leaves
    [low] and [high] (for [Real] and [Integer]) and [categories] (for
    [Categorical]) as they were, together with every other attribute except
    the mode [transform_], the pipeline [transformer] and the distribution
    [_rvs]. *)
Theorem set_transformer_frame :
  (forall (d : Real.t) (mode : string),
     let d' := fst (Real.set_transformer d mode) in
     Real.low d' = Real.low d /\ Real.high d' = Real.high d
     /\ Real.prior d' = Real.prior d /\ Real.base d' = Real.base d
     /\ Real.log_base d' = Real.log_base d /\ Real.name d' = Real.name d
     /\ Real.dtype d' = Real.dtype d)
  /\ (forall (d : Integer.t) (mode : string),
        let d' := fst (Integer.set_transformer d mode) in
        Integer.low d' = Integer.low d /\ Integer.high d' = Integer.high d
        /\ Integer.prior d' = Integer.prior d /\ Integer.base d' = Integer.base d
        /\ Integer.log_base d' = Integer.log_base d
        /\ Integer.name d' = Integer.name d /\ Integer.dtype d' = Integer.dtype d)
  /\ (forall (d : Categorical.t) (mode : string),
        let d' := fst (Categorical.set_transformer d mode) in
        Categorical.categories d' = Categorical.categories d
        /\ Categorical.name d' = Categorical.name d
        /\ Categorical.prior d' = Categorical.prior d
        /\ Categorical.prior_ d' = Categorical.prior_ d).
Proof.
  split; [ | split].
  - exact Real_set_transformer_frame.
  - exact Integer_set_transformer_frame.
  - exact Categorical_set_transformer_frame.
Qed.

(** ** Construction of an empty categorical dimension *)

(** C10: [Categorical(categories)] with no category and no prior raises
    [ZeroDivisionError] (from the default weights [1 / len(categories)]),
    whatever the transform and the name, so no call with these arguments
    returns an object. *)
Theorem Categorical_empty_default_prior :
  (forall (transform : option string) (name : option string),
     Categorical.__init__ [] None transform
       (match name with Some s => PStr s | None => PNone end)
     = Raise ZeroDivisionError)
  /\ (forall (transform : option string) (name : pyval) (d : Categorical.t),
        Categorical.__init__ [] None transform name <> Ok d).
Proof.
  split.
  - intros transform [s | ]; reflexivity.
  - intros transform name d. destruct name; simpl; discriminate.
Qed.

(** ** Inference of a dimension from a description of length 3 *)

(** The rule of the code for length 3: one [int] among the two bounds makes
    an [Integer], whatever the other bound is. *)
Lemma check_dimension_triple_rule (a b p : pyval) (transform : option string) :
  py_in p prior_names = true ->
  is_int a || is_int b = true ->
  check_dimension (Sequence [a; b; p]) transform
  = call_Integer [a; b; p] transform.
Proof.
  intros Hp Hint. unfold check_dimension. simpl.
  rewrite orb_false_r, Hint. simpl in Hp. simpl. rewrite Hp. reflexivity.
Qed.

(** The rule of the code for length 2: an [Integer] needs two whole
    numbers. *)
Lemma check_dimension_pair_rule (a b : pyval) (transform : option string) :
  is_str_or_bool a || is_str_or_bool b = false ->
  check_dimension (Sequence [a; b]) transform
  = if is_Integral a && is_Integral b then call_Integer [a; b] transform
    else if is_Real a || is_Real b then call_Real [a; b] transform
    else Raise ValueError.
Proof.
  intros Hsb. unfold check_dimension. simpl.
  rewrite !orb_false_r, !andb_true_r, Hsb. reflexivity.
Qed.

(** C2: on the description [(1, 5.5, "uniform")] the code returns an
    [Integer] with the upper bound 5.5, because one whole number among the
    two bounds is enough for its first test; on [(1, 5.5)] the rule for
    length 2 returns a [Real]. *)
Theorem check_dimension_triple_one_int_suffices :
  (exists d : Integer.t,
      check_dimension (Sequence [PInt 1; PFloat (11 / 2); PStr "uniform"]) None
      = Ok (DInteger d)
      /\ Integer.low d = 1 /\ Integer.high d = 11 / 2)
  /\ (exists d : Real.t,
         check_dimension (Sequence [PInt 1; PFloat (11 / 2)]) None = Ok (DReal d)
         /\ Real.low d = 1 /\ Real.high d = 11 / 2).
Proof.
  split; eexists; split.
  - unfold check_dimension. simpl. unfold call_Integer. simpl.
    unfold Integer.__init__. rewrite Rleb_false by lra. simpl. reflexivity.
  - simpl. split; reflexivity.
  - unfold check_dimension. simpl. unfold call_Real. simpl.
    unfold Real.__init__. rewrite Rleb_false by lra. simpl. reflexivity.
  - simpl. split; reflexivity.
Qed.

(** ** The width handed to the uniform generator *)

Lemma uniform_inclusive_widens_unit :
  Float64.scale Float64.rvs_normalize = next_up 1%float.
Proof. vm_compute. reflexivity. Qed.

(** Every branch of [Real.set_transformer] draws through
    [_uniform_inclusive]. *)
Lemma Real_rvs_uniform_inclusive (d d' : Real.t) (mode : string) :
  Real.set_transformer d mode = (d', Ok tt) ->
  exists loc scale : R, Real._rvs d' = Some (_uniform_inclusive loc scale).
Proof.
  unfold Real.set_transformer. cbv zeta.
  repeat match goal with
         | |- context [if ?c then _ else _] => destruct c
         end; intros E; injection E as <-; try discriminate;
    simpl; eexists; eexists; reflexivity.
Qed.

(** Where [scale + 1.] is above [scale], the width is the next float. *)
Lemma uniform_inclusive_widens (loc scale : float) :
  PrimFloat.ltb scale (scale + 1)%float = true ->
  Float64.scale (Float64._uniform_inclusive loc scale) = next_up scale.
Proof.
  intros Hlt. unfold Float64._uniform_inclusive, Float64.nextafter. simpl.
  rewrite Hlt. reflexivity.
Qed.

Lemma two53_absorbs_one : (two53 + 1)%float = two53.
Proof. vm_compute. reflexivity. Qed.

(** C5: for [Real(0, 2 ** 53)] with a uniform prior and the identity
    transform, the width handed to the generator is the nominal width
    [2 ** 53] itself, although a larger float exists: [scale + 1.] rounds
    back to [scale], so [nextafter] has nowhere to go. *)
Theorem uniform_inclusive_not_widened_at_two53 :
  Float64.scale (Float64.Real_rvs_identity 0%float two53) = two53
  /\ PrimFloat.ltb two53 (next_up two53) = true.
Proof. split; vm_compute; reflexivity. Qed.

(** ** Distances *)

Lemma real_01_built :
  Real.__init__ 0 1 "uniform" 10 None PNone py_float = Ok real_01.
Proof.
  unfold Real.__init__. rewrite Rleb_false by lra. reflexivity.
Qed.

Lemma integer_0_10_built :
  Integer.__init__ 0 10 "uniform" 10 None PNone (np_signed 64) = Ok integer_0_10.
Proof.
  unfold Integer.__init__. rewrite Rleb_false by lra. reflexivity.
Qed.

Lemma real_01_contains_2 : Real.__contains__ real_01 (PFloat 2) = Ok false.
Proof.
  unfold Real.__contains__. simpl.
  rewrite Rleb_true by lra. rewrite Rleb_false by lra. reflexivity.
Qed.

Lemma real_01_contains_half : Real.__contains__ real_01 (PFloat (1 / 2)) = Ok true.
Proof.
  unfold Real.__contains__. simpl.
  rewrite !Rleb_true by lra. reflexivity.
Qed.

(** C3, as stated, fails: [Real(0, 1).distance(2, 0.5)] and
    [Categorical(["a", "b"]).distance("c", "a")] have an operand outside the
    domain and raise [RuntimeError], which is not a [ValueError]. *)
Lemma distance_error_class_counterexample :
  (Real.__contains__ real_01 (PFloat 2) = Ok false
   /\ dim_distance (DReal real_01) (PFloat 2) (PFloat (1 / 2)) = Raise RuntimeError)
  /\ (Categorical.__contains__ cat_ab (PStr "c") = false
      /\ dim_distance (DCategorical cat_ab) (PStr "c") (PStr "a") = Raise RuntimeError)
  /\ is_ValueError RuntimeError = false.
Proof.
  split; [ | split].
  - split; [apply real_01_contains_2 | ].
    unfold dim_distance, Real.distance. rewrite real_01_contains_2. reflexivity.
  - split; reflexivity.
  - reflexivity.
Qed.

Lemma bind_as_float_Ok {A : Type} (v : pyval) (k : R -> result A) (r : A) :
  (x <- as_float v ;; k x) = Ok r -> exists x : R, as_num v = Some x.
Proof.
  unfold as_float. destruct (as_num v) as [x | ]; simpl.
  - intros _. exists x. reflexivity.
  - discriminate.
Qed.

(** C3, amended: when the membership tests of both operands evaluate, an
    operand outside the domain makes [distance] raise [RuntimeError]; with
    both operands inside, a numeric dimension returns [|a - b|] and a
    categorical one returns 0 for equal operands and 1 otherwise. *)
Theorem distance_outside_raises_RuntimeError :
  forall (dim : Dimension) (a b : pyval) (a_in b_in : bool),
    dim_contains dim a = Ok a_in ->
    dim_contains dim b = Ok b_in ->
    (a_in && b_in = false -> dim_distance dim a b = Raise RuntimeError)
    /\ (a_in && b_in = true ->
        match dim with
        | DCategorical _ =>
            dim_distance dim a b = Ok (if py_eqb a b then 0 else 1)
        | DReal _ | DInteger _ =>
            exists x y : R,
              as_num a = Some x /\ as_num b = Some y
              /\ dim_distance dim a b = Ok (Rabs (x - y))
        end).
Proof.
  intros dim a b a_in b_in Ha Hb.
  destruct dim as [d | d | d]; simpl in Ha, Hb |- *.
  - unfold Real.distance. rewrite Ha. simpl.
    destruct (bind_as_float_Ok _ _ _ Ha) as [x Ea].
    destruct (bind_as_float_Ok _ _ _ Hb) as [y Eb].
    split; intros Hin.
    + destruct a_in; simpl in Hin |- *.
      * rewrite Hb. simpl. rewrite Hin. reflexivity.
      * reflexivity.
    + apply andb_true_iff in Hin. destruct Hin as [-> ->].
      rewrite Hb. simpl. exists x, y. unfold as_float. rewrite Ea, Eb.
      repeat split; reflexivity.
  - unfold Integer.distance. rewrite Ha. simpl.
    destruct (bind_as_float_Ok _ _ _ Ha) as [x Ea].
    destruct (bind_as_float_Ok _ _ _ Hb) as [y Eb].
    split; intros Hin.
    + destruct a_in; simpl in Hin |- *.
      * rewrite Hb. simpl. rewrite Hin. reflexivity.
      * reflexivity.
    + apply andb_true_iff in Hin. destruct Hin as [-> ->].
      rewrite Hb. simpl. exists x, y. unfold as_float. rewrite Ea, Eb.
      repeat split; reflexivity.
  - unfold Categorical.distance.
    injection Ha as Ha. injection Hb as Hb. rewrite Ha, Hb.
    split; intros Hin; rewrite Hin; simpl.
    + reflexivity.
    + destruct (py_eqb a b); reflexivity.
Qed.

Lemma distance_outside_raises_RuntimeError_witness :
  dim_distance (DReal real_01) (PFloat 2) (PFloat (1 / 2)) = Raise RuntimeError
  /\ (exists x y : R,
         as_num (PFloat (1 / 2)) = Some x /\ as_num (PFloat (1 / 2)) = Some y
         /\ dim_distance (DReal real_01) (PFloat (1 / 2)) (PFloat (1 / 2))
            = Ok (Rabs (x - y))).
Proof.
  split.
  - apply (proj1 (distance_outside_raises_RuntimeError
                    (DReal real_01) (PFloat 2) (PFloat (1 / 2)) false true
                    real_01_contains_2 real_01_contains_half)).
    reflexivity.
  - apply (proj2 (distance_outside_raises_RuntimeError
                    (DReal real_01) (PFloat (1 / 2)) (PFloat (1 / 2)) true true
                    real_01_contains_half real_01_contains_half)).
    reflexivity.
Defined.

(** ** Lookup of a dimension in a space *)

Lemma py_eqb_PInt (z1 z2 : Z) : py_eqb (PInt z1) (PInt z2) = Z.eqb z1 z2.
Proof.
  unfold py_eqb. simpl. destruct (Z.eqb_spec z1 z2) as [E | E].
  - subst. apply Reqb_refl.
  - apply Reqb_false. intros H. apply eq_IZR in H. contradiction.
Qed.

Lemma py_eqb_PStr_name (s : string) (dim : Dimension) :
  py_eqb (PStr s) (Space.name_value dim) = true <-> dim_name dim = Some s.
Proof.
  unfold Space.name_value. destruct (dim_name dim) as [n | ]; simpl.
  - unfold py_eqb. simpl. rewrite String.eqb_eq. split; congruence.
  - split; discriminate.
Qed.

Lemma py_eqb_PInt_name (z : Z) (dim : Dimension) :
  py_eqb (PInt z) (Space.name_value dim) = false.
Proof.
  unfold Space.name_value. destruct (dim_name dim); reflexivity.
Qed.

(** A name that no dimension from position [i0] on carries is not found. *)
Lemma _get_name_absent (dims : list Dimension) (i0 : nat) (s : string) :
  (forall dim, In dim dims -> dim_name dim <> Some s) ->
  Space._get dims i0 (PStr s) = (None, None).
Proof.
  revert i0. induction dims as [ | dim rest IH]; intros i0 Habs; simpl.
  - reflexivity.
  - destruct (py_eqb (PStr s) (Space.name_value dim)) eqn:E.
    + apply py_eqb_PStr_name in E. exfalso. apply (Habs dim); [left; reflexivity | exact E].
    + change (py_eqb (PStr s) (PInt (Z.of_nat i0))) with false. cbv iota.
      apply IH. intros d Hd. apply Habs. right. exact Hd.
Qed.

(** The first dimension carrying a name is the one found. *)
Lemma _get_name_first (dims : list Dimension) (i0 i : nat) (s : string)
    (dim : Dimension) :
  nth_error dims i = Some dim ->
  dim_name dim = Some s ->
  (forall j dj, (j < i)%nat -> nth_error dims j = Some dj -> dim_name dj <> Some s) ->
  Space._get dims i0 (PStr s) = (Some (i0 + i)%nat, Some dim).
Proof.
  revert i0 i. induction dims as [ | d rest IH]; intros i0 i Hnth Hname Hfirst.
  - destruct i; discriminate.
  - simpl. destruct i as [ | i].
    + simpl in Hnth. injection Hnth as ->.
      apply py_eqb_PStr_name in Hname. rewrite Hname.
      rewrite Nat.add_0_r. reflexivity.
    + simpl in Hnth.
      destruct (py_eqb (PStr s) (Space.name_value d)) eqn:E.
      * apply py_eqb_PStr_name in E. exfalso.
        apply (Hfirst O d); [lia | reflexivity | exact E].
      * change (py_eqb (PStr s) (PInt (Z.of_nat i0))) with false. cbv iota.
        rewrite (IH (S i0) i Hnth Hname).
        -- f_equal. f_equal. lia.
        -- intros j dj Hj Hdj. apply (Hfirst (S j) dj); [lia | exact Hdj].
Qed.

(** An integer key finds the dimension at that position, if there is one. *)
Lemma _get_index (dims : list Dimension) (i0 : nat) (z : Z) :
  Space._get dims i0 (PInt z)
  = if ((Z.of_nat i0 <=? z) && (z <? Z.of_nat (i0 + length dims)))%Z
    then (Some (Z.to_nat z), nth_error dims (Z.to_nat z - i0))
    else (None, None).
Proof.
  revert i0. induction dims as [ | d rest IH]; intros i0; simpl.
  - rewrite Nat.add_0_r.
    destruct (Z.leb_spec (Z.of_nat i0) z), (Z.ltb_spec z (Z.of_nat i0));
      simpl; try reflexivity; lia.
  - rewrite py_eqb_PInt_name, py_eqb_PInt.
    destruct (Z.eqb_spec z (Z.of_nat i0)) as [E | E].
    + subst z. rewrite Nat2Z.id, Nat.sub_diag. simpl.
      destruct (Z.leb_spec (Z.of_nat i0) (Z.of_nat i0)),
               (Z.ltb_spec (Z.of_nat i0) (Z.of_nat (i0 + S (length rest))));
        simpl; try reflexivity; lia.
    + rewrite IH.
      destruct (Z.leb_spec (Z.of_nat (S i0)) z),
               (Z.ltb_spec z (Z.of_nat (S i0 + length rest)));
        destruct (Z.leb_spec (Z.of_nat i0) z),
                 (Z.ltb_spec z (Z.of_nat (i0 + S (length rest))));
        simpl; try reflexivity; try lia.
      replace (Z.to_nat z - i0)%nat with (S (Z.to_nat z - S i0)) by lia.
      reflexivity.
Qed.

(** C8: [Space.__getitem__] on a single key returns without raising.  A
    name that no dimension carries, and an integer that is the position of
    none, give [(None, None)]; a name gives the first dimension that carries
    it, with its position, however many carry it; an integer gives the
    dimension at that position. *)
Theorem getitem_miss_and_first_match :
  forall s : Space.t,
    (forall name : string,
        (forall dim, In dim (Space.dimensions s) -> dim_name dim <> Some name) ->
        Space.__getitem__ s (Space.Single (PStr name))
        = Ok (Space.One (None, None)))
    /\ (forall z : Z,
           (z < 0 \/ Z.of_nat (Space.n_dims s) <= z)%Z ->
           Space.__getitem__ s (Space.Single (PInt z))
           = Ok (Space.One (None, None)))
    /\ (forall (name : string) (i : nat) (dim : Dimension),
           nth_error (Space.dimensions s) i = Some dim ->
           dim_name dim = Some name ->
           (forall j dj, (j < i)%nat ->
                         nth_error (Space.dimensions s) j = Some dj ->
                         dim_name dj <> Some name) ->
           Space.__getitem__ s (Space.Single (PStr name))
           = Ok (Space.One (Some i, Some dim)))
    /\ (forall (i : nat) (dim : Dimension),
           nth_error (Space.dimensions s) i = Some dim ->
           Space.__getitem__ s (Space.Single (PInt (Z.of_nat i)))
           = Ok (Space.One (Some i, Some dim))).
Proof.
  intros s. unfold Space.__getitem__, Space.n_dims. simpl.
  split; [ | split; [ | split]].
  - intros name Habs. rewrite _get_name_absent by exact Habs. reflexivity.
  - intros z Hz. rewrite _get_index. simpl.
    destruct (Z.leb_spec 0 z), (Z.ltb_spec z (Z.of_nat (length (Space.dimensions s))));
      simpl; try reflexivity; lia.
  - intros name i dim Hnth Hname Hfirst.
    rewrite (_get_name_first _ 0 i name dim Hnth Hname Hfirst). reflexivity.
  - intros i dim Hnth. rewrite _get_index. simpl.
    assert (Hlt : (i < length (Space.dimensions s))%nat)
      by (apply nth_error_Some; congruence).
    destruct (Z.leb_spec 0 (Z.of_nat i)),
             (Z.ltb_spec (Z.of_nat i) (Z.of_nat (length (Space.dimensions s))));
      simpl; try lia.
    rewrite Nat2Z.id, Nat.sub_0_r, Hnth. reflexivity.
Qed.

Lemma getitem_miss_and_first_match_witness :
  Space.__getitem__ space_x_ab_x (Space.Single (PStr "y"))
  = Ok (Space.One (None, None))
  /\ Space.__getitem__ space_x_ab_x (Space.Single (PInt 3))
     = Ok (Space.One (None, None))
  /\ Space.__getitem__ space_x_ab_x (Space.Single (PStr "x"))
     = Ok (Space.One (Some 0%nat, Some (DReal real_x)))
  /\ Space.__getitem__ space_x_ab_x (Space.Single (PInt 1))
     = Ok (Space.One (Some 1%nat, Some (DCategorical cat_ab))).
Proof.
  destruct (getitem_miss_and_first_match space_x_ab_x) as [Hname [Hidx [Hfirst Hpos]]].
  split; [ | split; [ | split]].
  - apply Hname. intros dim [E | [E | [E | []]]]; subst dim; simpl; discriminate.
  - apply Hidx. right. simpl. lia.
  - apply (Hfirst "x"%string 0%nat (DReal real_x)).
    + reflexivity.
    + reflexivity.
    + intros j dj Hj. lia.
  - apply (Hpos 1%nat (DCategorical cat_ab)). reflexivity.
Defined.

(** ** Equality of spaces *)

Lemma allclose1_refl (a : R) : allclose1 a a = true.
Proof.
  unfold allclose1. apply Rleb_true.
  replace (a - a) with 0 by lra. rewrite Rabs_R0.
  pose proof (Rabs_pos a). lra.
Qed.

Lemma tuple_eqb_refl (l : list pyval) : tuple_eqb l l = true.
Proof.
  induction l as [ | v r IH]; simpl; [reflexivity | ].
  rewrite py_eqb_refl, IH. reflexivity.
Qed.

Lemma forallb2_allclose1_refl (l : list R) : forallb2 allclose1 l l = true.
Proof.
  induction l as [ | v r IH]; simpl; [reflexivity | ].
  rewrite allclose1_refl, IH. reflexivity.
Qed.

(** A dimension is equal to itself. *)
Lemma dim_eq_refl (d : Dimension) : dim_eq d d = Ok true.
Proof.
  destruct d as [d | d | d]; simpl.
  - unfold Real.__eq__. rewrite !allclose1_refl, !String.eqb_refl. reflexivity.
  - unfold Integer.__eq__. rewrite !allclose1_refl. reflexivity.
  - unfold Categorical.__eq__, allclose.
    rewrite tuple_eqb_refl, Nat.eqb_refl, forallb2_allclose1_refl. reflexivity.
Qed.

(** [all([a == b for a, b in zip(...)])] is [True] exactly when every pair
    compares equal; a comparison that raises makes the whole one raise. *)
Lemma eq_zip_true (a b : list Dimension) :
  (bs <- mapM (fun ab => dim_eq (fst ab) (snd ab)) (combine a b) ;;
   Ok (forallb (fun b => b) bs)) = Ok true
  <-> Forall (fun ab => dim_eq (fst ab) (snd ab) = Ok true) (combine a b).
Proof.
  induction (combine a b) as [ | ab l IH]; cbn [mapM bind forallb].
  - split; [constructor | reflexivity].
  - destruct (dim_eq (fst ab) (snd ab)) as [[ | ] | e] eqn:Hab; cbn [bind].
    + destruct (mapM (fun ab => dim_eq (fst ab) (snd ab)) l) as [bs | e];
        cbn [bind forallb andb] in *.
      * rewrite IH. split; [intros H; constructor; assumption | ].
        intros H. inversion H. assumption.
      * split; [discriminate | ]. intros H. inversion H as [ | ? ? _ Hl].
        apply IH in Hl. discriminate Hl.
    + destruct (mapM (fun ab => dim_eq (fst ab) (snd ab)) l) as [bs | e];
        cbn [bind forallb andb].
      * split; [discriminate | ]. intros H. inversion H. congruence.
      * split; [discriminate | ]. intros H. inversion H. congruence.
    + split; [discriminate | ]. intros H. inversion H. congruence.
Qed.

Lemma combine_prefix_l {A B : Type} (a : list A) (b extra : list B) :
  length a = length b -> combine a (b ++ extra) = combine a b.
Proof.
  revert b. induction a as [ | x a IH]; intros [ | y b] Hlen;
    cbn [length] in Hlen; try discriminate.
  - destruct extra; reflexivity.
  - cbn [app combine]. rewrite IH by lia. reflexivity.
Qed.

Lemma combine_prefix_r {A B : Type} (a extra : list A) (b : list B) :
  length a = length b -> combine (a ++ extra) b = combine a b.
Proof.
  revert b. induction a as [ | x a IH]; intros [ | y b] Hlen;
    cbn [length] in Hlen; try discriminate.
  - destruct extra; reflexivity.
  - cbn [app combine]. rewrite IH by lia. reflexivity.
Qed.

Lemma Forall2_combine {A B : Type} (P : A -> B -> Prop) (a : list A) (b : list B) :
  Forall2 P a b -> Forall (fun ab => P (fst ab) (snd ab)) (combine a b).
Proof. induction 1; cbn [combine]; constructor; assumption. Qed.

(** C9, amended: [Space.__eq__] compares the dimensions pairwise over the
    zip of the two lists and never their lengths: [s == t] is [True]
    exactly when every pair [s.dimensions[i] == t.dimensions[i]] is.  So
    when the dimensions of the shorter space compare equal, pair by pair,
    to the first dimensions of the other, the spaces are equal in the
    direction in which the pairs were compared, whatever dimensions
    [extra] the longer one has besides; and a space without dimensions
    equals every space in both directions. *)
Theorem Space_eq_pairwise :
  forall a b : list Dimension,
    (Space.__eq__ (Space.mk a) (Space.mk b) = Ok true
     <-> Forall (fun ab => dim_eq (fst ab) (snd ab) = Ok true) (combine a b))
    /\ (forall extra : list Dimension,
          Forall2 (fun x y => dim_eq x y = Ok true) a b ->
          Space.__eq__ (Space.mk a) (Space.mk (b ++ extra)) = Ok true)
    /\ (forall extra : list Dimension,
          Forall2 (fun x y => dim_eq y x = Ok true) a b ->
          Space.__eq__ (Space.mk (b ++ extra)) (Space.mk a) = Ok true)
    /\ Space.__eq__ (Space.mk []) (Space.mk b) = Ok true
    /\ Space.__eq__ (Space.mk b) (Space.mk []) = Ok true.
Proof.
  intros a b. unfold Space.__eq__. cbn [Space.dimensions].
  split; [apply eq_zip_true | ]. split; [ | split; [ | split]].
  - intros extra Hpairs. apply eq_zip_true.
    rewrite combine_prefix_l by exact (Forall2_length Hpairs).
    exact (Forall2_combine (fun x y => dim_eq x y = Ok true) a b Hpairs).
  - intros extra Hpairs. apply eq_zip_true.
    rewrite combine_prefix_r by (symmetry; exact (Forall2_length Hpairs)).
    apply (Forall2_combine (fun y x => dim_eq y x = Ok true) b a).
    apply Forall2_flip. exact Hpairs.
  - reflexivity.
  - destruct b; reflexivity.
Qed.

Lemma real_01_wider_built :
  Real.__init__ 0 (1 + 10010005 / 1000000000000) "uniform" 10 None PNone py_float
  = Ok real_01_wider.
Proof. unfold Real.__init__. rewrite Rleb_false by lra. reflexivity. Qed.

(** [np.allclose] measures the distance against its second argument. *)
Lemma real_01_wider_eq :
  dim_eq (DReal real_01) (DReal real_01_wider) = Ok true
  /\ dim_eq (DReal real_01_wider) (DReal real_01) = Ok false.
Proof.
  unfold dim_eq, Real.__eq__.
  cbn [Real.low Real.high Real.prior Real.transform_ real_01 real_01_wider].
  rewrite allclose1_refl. cbn [String.eqb Ascii.eqb Bool.eqb andb].
  rewrite !andb_true_r. unfold allclose1. split; f_equal.
  - apply Rleb_true. rewrite Rabs_left by lra. rewrite Rabs_pos_eq by lra. lra.
  - apply Rleb_false. rewrite Rabs_pos_eq by lra. rewrite Rabs_pos_eq by lra. lra.
Qed.

(** C9, as stated, fails: the one dimension of [Space([Real(0, 1)])] equals
    the first of [Space([Real(0, 1.000010010005), Categorical(["a", "b"])])],
    and the first space equals the second, but the second does not equal
    the first. *)
Lemma Space_eq_reverse_counterexample :
  Real.__init__ 0 1 "uniform" 10 None PNone py_float = Ok real_01
  /\ Real.__init__ 0 (1 + 10010005 / 1000000000000) "uniform" 10 None PNone py_float
     = Ok real_01_wider
  /\ dim_eq (DReal real_01) (DReal real_01_wider) = Ok true
  /\ Space.__eq__ (Space.mk [DReal real_01])
                  (Space.mk [DReal real_01_wider; DCategorical cat_ab]) = Ok true
  /\ Space.__eq__ (Space.mk [DReal real_01_wider; DCategorical cat_ab])
                  (Space.mk [DReal real_01]) = Ok false.
Proof.
  destruct real_01_wider_eq as [H1 H2].
  split; [ | split; [exact real_01_wider_built | split; [exact H1 | ]]].
  - unfold Real.__init__. rewrite Rleb_false by lra. reflexivity.
  - unfold Space.__eq__. cbn [Space.dimensions combine mapM fst snd].
    rewrite H1, H2. split; reflexivity.
Qed.

Lemma Space_eq_pairwise_witness :
  Space.__eq__ (Space.mk [DReal real_01])
               (Space.mk ([DReal real_01_wider] ++ [DCategorical cat_ab])) = Ok true.
Proof.
  apply (proj1 (proj2 (Space_eq_pairwise [DReal real_01] [DReal real_01_wider]))
           [DCategorical cat_ab]).
  constructor; [exact (proj1 real_01_wider_eq) | constructor].
Defined.

(** ** Element-wise computations *)

Lemma mapM_map {A B : Type} (f : A -> result B) (g : A -> B) (l : list A) :
  (forall x, In x l -> f x = Ok (g x)) -> mapM f l = Ok (map g l).
Proof.
  induction l as [ | x r IH]; intros Hfg; simpl.
  - reflexivity.
  - rewrite (Hfg x) by (left; reflexivity). simpl.
    rewrite IH by (intros y Hy; apply Hfg; right; exact Hy). reflexivity.
Qed.

Lemma elementwise_Arr1 (f : pyval -> result pyval) (g : pyval -> pyval)
    (l : list pyval) :
  (forall v, In v l -> f v = Ok (g v)) ->
  elementwise f (Arr1 l) = Ok (Arr1 (map g l)).
Proof.
  intros Hfg. simpl. rewrite (mapM_map f g l Hfg). reflexivity.
Qed.

Lemma as_float_num (v : pyval) :
  as_num v <> None -> as_float v = Ok (num_of v).
Proof.
  unfold as_float, num_of. destruct (as_num v); [reflexivity | congruence].
Qed.

Lemma Real_contains_num (d : Real.t) (v : pyval) (b : bool) :
  Real.__contains__ d v = Ok b -> as_num v <> None.
Proof.
  intros Hc. destruct (bind_as_float_Ok _ _ _ Hc) as [x Hx]. congruence.
Qed.

Lemma Integer_contains_num (d : Integer.t) (v : pyval) (b : bool) :
  Integer.__contains__ d v = Ok b -> as_num v <> None.
Proof.
  intros Hc. destruct (bind_as_float_Ok _ _ _ Hc) as [x Hx]. congruence.
Qed.

(** ** The pipelines of configured objects *)

Lemma str_among_cases (t : string) (l : list string) :
  str_among t l = true -> In t l.
Proof.
  unfold str_among. rewrite existsb_exists. intros [x [Hin Heq]].
  apply String.eqb_eq in Heq. subst. exact Hin.
Qed.

(** The four pipelines of a configured [Real]. *)
Lemma Real_configured_inv (d : Real.t) :
  Real_configured d ->
  (Real.transform_ d = "identity"%string
   /\ ((Real.prior d = "uniform"%string /\ Real.transformer d = Some Identity)
       \/ (Real.prior d <> "uniform"%string
           /\ Real.transformer d = Some (LogN (Real.base d)))))
  \/ (exists unbounded : bool,
         (Real.transform_ d = "normalize"%string
          \/ Real.transform_ d = "normalize_unbounded"%string)
         /\ ((Real.prior d = "uniform"%string
              /\ Real.transformer d
                 = Some (Pipeline [Identity;
                                   Normalize (Real.low d) (Real.high d)
                                             false unbounded None]))
             \/ (Real.prior d <> "uniform"%string
                 /\ Real.transformer d
                    = Some (Pipeline
                              [LogN (Real.base d);
                               Normalize (log10 (Real.low d) / Real.log_base d)
                                         (log10 (Real.high d) / Real.log_base d)
                                         false unbounded None])))).
Proof.
  intros [mode Hset]. unfold Real.set_transformer in Hset. cbv zeta in Hset.
  change (Real.transform_ (Real.with_transform_ d mode)) with mode in Hset.
  change (Real.prior (Real.with_transform_ d mode)) with (Real.prior d) in Hset.
  destruct (str_among mode ["normalize"; "identity"; "normalize_unbounded"]%string)
    eqn:Hmode; cbn [negb] in Hset; [ | discriminate].
  apply str_among_cases in Hmode.
  destruct (String.eqb (Real.prior d) "uniform") eqn:Hprior;
    [apply String.eqb_eq in Hprior | apply String.eqb_neq in Hprior];
    destruct Hmode as [E | [E | [E | []]]]; subst mode; simpl in Hset;
    injection Hset as Hd;
    pose proof (f_equal Real.transformer Hd) as Htr;
    pose proof (f_equal Real.transform_ Hd) as Hm;
    simpl in Htr, Hm; symmetry in Htr, Hm.
  - right. exists false. split; [left; exact Hm | left; split; assumption].
  - left. split; [exact Hm | left; split; assumption].
  - right. exists true. split; [right; exact Hm | left; split; assumption].
  - right. exists false. split; [left; exact Hm | right; split; assumption].
  - left. split; [exact Hm | right; split; assumption].
  - right. exists true. split; [right; exact Hm | right; split; assumption].
Qed.

(** The four pipelines of a configured [Integer]. *)
Lemma Integer_configured_inv (d : Integer.t) :
  Integer_configured d ->
  (Integer.transform_ d = "identity"%string
   /\ ((Integer.prior d = "uniform"%string /\ Integer.transformer d = Some Identity)
       \/ (Integer.prior d <> "uniform"%string
           /\ Integer.transformer d = Some (LogN (Integer.base d)))))
  \/ (Integer.transform_ d = "normalize"%string
      /\ ((Integer.prior d = "uniform"%string
           /\ Integer.transformer d
              = Some (Pipeline [Identity;
                                Normalize (Integer.low d) (Integer.high d)
                                          true false None]))
          \/ (Integer.prior d <> "uniform"%string
              /\ Integer.transformer d
                 = Some (Pipeline
                           [LogN (Integer.base d);
                            Normalize (log10 (Integer.low d) / Integer.log_base d)
                                      (log10 (Integer.high d) / Integer.log_base d)
                                      false false None])))).
Proof.
  intros [mode Hset]. unfold Integer.set_transformer in Hset. cbv zeta in Hset.
  change (Integer.transform_ (Integer.with_transform_ d mode)) with mode in Hset.
  change (Integer.prior (Integer.with_transform_ d mode))
    with (Integer.prior d) in Hset.
  destruct (str_among mode ["normalize"; "identity"]%string)
    eqn:Hmode; cbn [negb] in Hset; [ | discriminate].
  apply str_among_cases in Hmode.
  destruct (String.eqb (Integer.prior d) "uniform") eqn:Hprior;
    [apply String.eqb_eq in Hprior | apply String.eqb_neq in Hprior];
    destruct Hmode as [E | [E | []]]; subst mode; simpl in Hset;
    injection Hset as Hd;
    pose proof (f_equal Integer.transformer Hd) as Htr;
    pose proof (f_equal Integer.transform_ Hd) as Hm;
    simpl in Htr, Hm; symmetry in Htr, Hm.
  - right. split; [exact Hm | left; split; assumption].
  - left. split; [exact Hm | left; split; assumption].
  - right. split; [exact Hm | right; split; assumption].
  - left. split; [exact Hm | right; split; assumption].
Qed.

(** The five pipelines of a configured [Categorical]. *)
Lemma Categorical_configured_inv (d : Categorical.t) :
  Categorical_configured d ->
  let cats := Categorical.categories d in
  (Categorical.transform_ d = "onehot"%string
   /\ Categorical.transformer d = Some (CategoricalEncoder cats))
  \/ (Categorical.transform_ d = "string"%string
      /\ Categorical.transformer d = Some (StringEncoder cats))
  \/ (Categorical.transform_ d = "label"%string
      /\ Categorical.transformer d = Some (LabelEncoder cats))
  \/ ((Categorical.transform_ d = "normalize"%string
       \/ Categorical.transform_ d = "normalize_unbounded"%string)
      /\ Categorical.transformer d
         = Some (Pipeline [LabelEncoder cats;
                           Normalize 0 (INR (length cats) - 1) true false
                                     (Some (length cats))]))
  \/ (Categorical.transform_ d = "identity"%string
      /\ Categorical.transformer d = Some Identity).
Proof.
  intros [mode Hset] cats. subst cats.
  unfold Categorical.set_transformer in Hset. cbv zeta in Hset.
  destruct (str_among mode
              ["identity"; "onehot"; "string"; "normalize";
               "normalize_unbounded"; "label"]%string)
    eqn:Hmode; cbn [negb] in Hset; [ | discriminate].
  apply str_among_cases in Hmode.
  destruct Hmode as [E | [E | [E | [E | [E | [E | []]]]]]]; subst mode;
    simpl in Hset; injection Hset as Hd;
    pose proof (f_equal Categorical.transformer Hd) as Htr;
    pose proof (f_equal Categorical.transform_ Hd) as Hm;
    simpl in Htr, Hm; symmetry in Htr, Hm.
  - right. right. right. right. split; assumption.
  - left. split; assumption.
  - right. left. split; assumption.
  - right. right. right. left. split; [left; exact Hm | exact Htr].
  - right. right. right. left. split; [right; exact Hm | exact Htr].
  - right. right. left. split; assumption.
Qed.

Ltac real_fields :=
  cbn [Real.prior Real.low Real.high Real.base Real.log_base Real.name
       Real.dtype Real.transform_ Real._rvs Real.transformer
       Real.with_transform_ Real.with_pipeline] in *.

Ltac integer_fields :=
  cbn [Integer.prior Integer.low Integer.high Integer.base Integer.log_base
       Integer.name Integer.dtype Integer.transform_ Integer._rvs
       Integer.transformer Integer.with_transform_ Integer.with_pipeline] in *.

(** A call of [set_transformer] that returns leaves a configured object. *)
Lemma Real_set_transformer_configured (d d' : Real.t) (mode : string) :
  Real.set_transformer d mode = (d', Ok tt) -> Real_configured d'.
Proof.
  intros Hset. exists mode. unfold Real.set_transformer in *. cbv zeta in *.
  real_fields.
  destruct (str_among mode ["normalize"; "identity"; "normalize_unbounded"]%string);
    cbn [negb] in *; [ | discriminate].
  destruct (str_in "normalize" mode);
    destruct (String.eqb (Real.prior d) "uniform") eqn:Hprior;
    injection Hset as <-; real_fields; rewrite Hprior; reflexivity.
Qed.

Lemma Integer_set_transformer_configured (d d' : Integer.t) (mode : string) :
  Integer.set_transformer d mode = (d', Ok tt) -> Integer_configured d'.
Proof.
  intros Hset. exists mode. unfold Integer.set_transformer in *. cbv zeta in *.
  integer_fields.
  destruct (str_among mode ["normalize"; "identity"]%string);
    cbn [negb] in *; [ | discriminate].
  destruct (String.eqb mode "normalize");
    destruct (String.eqb (Integer.prior d) "uniform") eqn:Hprior;
    injection Hset as <-; integer_fields; rewrite Hprior; reflexivity.
Qed.

Lemma Categorical_set_transformer_configured (d d' : Categorical.t)
    (mode : string) :
  Categorical.set_transformer d mode = (d', Ok tt) -> Categorical_configured d'.
Proof.
  intros Hset. exists mode. unfold Categorical.set_transformer in *.
  cbv zeta in *.
  destruct (str_among mode
              ["identity"; "onehot"; "string"; "normalize";
               "normalize_unbounded"; "label"]%string);
    cbn [negb] in *; [ | discriminate].
  destruct (String.eqb mode "onehot"); destruct (String.eqb mode "string");
    destruct (String.eqb mode "label"); destruct (str_in "normalize" mode);
    injection Hset as <-; reflexivity.
Qed.

(** What [__init__] returns is configured, with the bounds it was given. *)
Lemma Real_init_configured (low high : R) (prior : string) (base : R)
    (transform : option string) (name : pyval) (dtype : Dtype) (d : Real.t) :
  Real.__init__ low high prior base transform name dtype = Ok d ->
  Real_configured d /\ Real.low d = low /\ Real.high d = high /\ low < high
  /\ Real.base d = base /\ Real.log_base d = log10 base
  /\ Real.prior d = prior /\ Real.dtype d = dtype
  /\ In prior ["uniform"; "log-uniform"]%string.
Proof.
  unfold Real.__init__. intros Hinit.
  destruct (Rleb high low) eqn:Hlh; [discriminate | ].
  apply Rleb_false_inv in Hlh.
  destruct (str_among prior ["uniform"; "log-uniform"]%string) eqn:Hprior;
    cbn [negb] in Hinit; [ | discriminate].
  apply str_among_cases in Hprior.
  destruct (set_name name) as [nm | e]; simpl in Hinit; [ | discriminate].
  destruct (Real.dtype_ok dtype); cbn [negb] in Hinit; [ | discriminate].
  set (mode := match transform with Some s => s | None => "identity"%string end)
    in Hinit.
  set (self := Real.mk low high prior base (log10 base) nm dtype None None mode)
    in Hinit.
  destruct (Real.set_transformer self mode) as [self' outcome] eqn:Hset.
  destruct outcome as [[] | e]; simpl in Hinit; [ | discriminate].
  injection Hinit as <-.
  pose proof (Real_set_transformer_frame self mode) as F.
  rewrite Hset in F. simpl in F.
  split; [exact (Real_set_transformer_configured _ _ _ Hset) | tauto].
Qed.

Lemma Integer_init_configured (low high : R) (prior : string) (base : R)
    (transform : option string) (name : pyval) (dtype : Dtype) (d : Integer.t) :
  Integer.__init__ low high prior base transform name dtype = Ok d ->
  Integer_configured d /\ Integer.low d = low /\ Integer.high d = high
  /\ low < high
  /\ Integer.base d = base /\ Integer.log_base d = log10 base
  /\ Integer.prior d = prior /\ Integer.dtype d = dtype
  /\ In prior ["uniform"; "log-uniform"]%string.
Proof.
  unfold Integer.__init__. intros Hinit.
  destruct (Rleb high low) eqn:Hlh; [discriminate | ].
  apply Rleb_false_inv in Hlh.
  destruct (str_among prior ["uniform"; "log-uniform"]%string) eqn:Hprior;
    cbn [negb] in Hinit; [ | discriminate].
  apply str_among_cases in Hprior.
  destruct (set_name name) as [nm | e]; simpl in Hinit; [ | discriminate].
  destruct (Integer.dtype_ok dtype); cbn [negb] in Hinit; [ | discriminate].
  set (mode := match transform with Some s => s | None => "identity"%string end)
    in Hinit.
  set (self := Integer.mk low high prior base (log10 base) nm dtype None None mode)
    in Hinit.
  destruct (Integer.set_transformer self mode) as [self' outcome] eqn:Hset.
  destruct outcome as [[] | e]; simpl in Hinit; [ | discriminate].
  injection Hinit as <-.
  pose proof (Integer_set_transformer_frame self mode) as F.
  rewrite Hset in F. simpl in F.
  split; [exact (Integer_set_transformer_configured _ _ _ Hset) | tauto].
Qed.

Lemma Categorical_init_configured (categories : list pyval)
    (prior : option (list R)) (transform : option string) (name : pyval)
    (d : Categorical.t) :
  Categorical.__init__ categories prior transform name = Ok d ->
  Categorical_configured d /\ Categorical.categories d = categories.
Proof.
  unfold Categorical.__init__. intros Hinit.
  destruct (set_name name) as [nm | e]; simpl in Hinit; [ | discriminate].
  destruct (match prior with
            | Some p => Ok p
            | None => Categorical.uniform_weights (length categories)
            end) as [w | e]; simpl in Hinit; [ | discriminate].
  set (mode := match transform with Some s => s | None => "onehot"%string end)
    in Hinit.
  set (self := Categorical.mk categories nm mode None None prior w) in Hinit.
  destruct (Categorical.set_transformer self mode) as [self' outcome] eqn:Hset.
  destruct outcome as [[] | e]; simpl in Hinit; [ | discriminate].
  injection Hinit as <-.
  pose proof (Categorical_set_transformer_frame self mode) as F.
  rewrite Hset in F. simpl in F.
  split; [exact (Categorical_set_transformer_configured _ _ _ Hset) | tauto].
Qed.

(** ** What the pipelines compute on a column *)

Section Columns.

Context `{PyRuntime}.

Lemma transform_LogN (base : R) (X : list pyval) :
  Forall numeric X ->
  Dimension_transform (Some (LogN base)) X
  = Ok (Arr1 (map (fun v => PFloat (log10 (num_of v) / log10 base)) X)).
Proof.
  intros HX. unfold Dimension_transform. cbn [transformer_transform].
  apply elementwise_Arr1. intros v Hv. unfold LogN_transform.
  rewrite Forall_forall in HX. rewrite as_float_num by (apply HX; exact Hv).
  reflexivity.
Qed.

Lemma transform_Normalize (low high : R) (is_int unbounded : bool)
    (n_categories : option nat) (X : list pyval) :
  Forall numeric X ->
  Dimension_transform
    (Some (Pipeline [Identity; Normalize low high is_int unbounded n_categories])) X
  = Ok (Arr1 (map (fun v => PFloat ((num_of v - low) / (high - low))) X)).
Proof.
  intros HX. unfold Dimension_transform. cbn [transformer_transform bind].
  rewrite (elementwise_Arr1 _ (fun v => PFloat ((num_of v - low) / (high - low)))).
  - reflexivity.
  - intros v Hv. unfold Normalize_transform.
    rewrite Forall_forall in HX. rewrite as_float_num by (apply HX; exact Hv).
    reflexivity.
Qed.

Lemma transform_LogN_Normalize (base low high : R) (is_int unbounded : bool)
    (n_categories : option nat) (X : list pyval) :
  Forall numeric X ->
  Dimension_transform
    (Some (Pipeline [LogN base; Normalize low high is_int unbounded n_categories])) X
  = Ok (Arr1 (map (fun v => PFloat ((log10 (num_of v) / log10 base - low)
                                    / (high - low))) X)).
Proof.
  intros HX. unfold Dimension_transform. cbn [transformer_transform].
  rewrite (elementwise_Arr1 _ (fun v => PFloat (log10 (num_of v) / log10 base))).
  - cbn [bind].
    rewrite (elementwise_Arr1 _
               (fun v => PFloat ((num_of v - low) / (high - low)))).
    + cbn [bind]. rewrite map_map. reflexivity.
    + intros v Hv. apply in_map_iff in Hv. destruct Hv as [u [<- Hu]].
      reflexivity.
  - intros v Hv. unfold LogN_transform.
    rewrite Forall_forall in HX. rewrite as_float_num by (apply HX; exact Hv).
    reflexivity.
Qed.

(** A member of the categories has a position among them, at which a
    category equal to it stands. *)
Lemma index_of_member (cats : list pyval) (v : pyval) :
  py_in v cats = true ->
  index_of cats v = Some (position_of cats v)
  /\ (position_of cats v < length cats)%nat
  /\ exists c, nth_error cats (position_of cats v) = Some c /\ py_eqb v c = true.
Proof.
  unfold position_of. induction cats as [ | c r IH]; simpl.
  - discriminate.
  - destruct (py_eqb v c) eqn:E; simpl.
    + intros _. split; [reflexivity | split; [lia | ]].
      exists c. split; [reflexivity | exact E].
    + intros Hin. destruct (IH Hin) as [Hidx [Hlt [c' [Hnth Heq]]]].
      rewrite Hidx in *. split; [reflexivity | split; [lia | ]].
      exists c'. split; assumption.
Qed.

Lemma transform_LabelEncoder (cats X : list pyval) :
  Forall (member cats) X ->
  Dimension_transform (Some (LabelEncoder cats)) X
  = Ok (Arr1 (map (fun v => PInt (Z.of_nat (position_of cats v))) X)).
Proof.
  intros HX. unfold Dimension_transform. cbn [transformer_transform].
  apply elementwise_Arr1. intros v Hv. unfold LabelEncoder_transform.
  rewrite Forall_forall in HX.
  destruct (index_of_member cats v (HX v Hv)) as [-> _]. reflexivity.
Qed.

Lemma transform_StringEncoder (cats X : list pyval) :
  Dimension_transform (Some (StringEncoder cats)) X
  = Ok (Arr1 (map (fun v => PStr (py_str v)) X)).
Proof.
  unfold Dimension_transform. cbn [transformer_transform].
  apply elementwise_Arr1. intros v Hv. reflexivity.
Qed.

Lemma transform_CategoricalEncoder (cats X : list pyval) :
  Forall (member cats) X ->
  Dimension_transform (Some (CategoricalEncoder cats)) X
  = Ok (Arr2 (map (fun v => onehot_row cats (position_of cats v)) X)
             (onehot_width cats)).
Proof.
  intros HX. unfold Dimension_transform. cbn [transformer_transform].
  rewrite (mapM_map _ (fun v => onehot_row cats (position_of cats v))).
  - reflexivity.
  - intros v Hv. unfold CategoricalEncoder_transform.
    rewrite Forall_forall in HX.
    destruct (index_of_member cats v (HX v Hv)) as [-> _]. reflexivity.
Qed.

Lemma transform_Label_Normalize (cats X : list pyval) (low high : R)
    (is_int unbounded : bool) (n_categories : option nat) :
  Forall (member cats) X ->
  Dimension_transform
    (Some (Pipeline [LabelEncoder cats;
                     Normalize low high is_int unbounded n_categories])) X
  = Ok (Arr1 (map (fun v => PFloat ((IZR (Z.of_nat (position_of cats v)) - low)
                                    / (high - low))) X)).
Proof.
  intros HX. unfold Dimension_transform. cbn [transformer_transform].
  rewrite (elementwise_Arr1 _ (fun v => PInt (Z.of_nat (position_of cats v)))).
  - cbn [bind].
    rewrite (elementwise_Arr1 _
               (fun v => PFloat ((num_of v - low) / (high - low)))).
    + cbn [bind]. rewrite map_map. reflexivity.
    + intros v Hv. apply in_map_iff in Hv. destruct Hv as [u [<- Hu]].
      reflexivity.
  - intros v Hv. unfold LabelEncoder_transform.
    rewrite Forall_forall in HX.
    destruct (index_of_member cats v (HX v Hv)) as [-> _]. reflexivity.
Qed.

Lemma onehot_row_length (cats : list pyval) (i : nat) :
  length (onehot_row cats i) = onehot_width cats.
Proof.
  unfold onehot_row, onehot_width.
  destruct (Nat.eqb (length cats) 2); [reflexivity | ].
  rewrite length_map, length_seq. reflexivity.
Qed.

End Columns.

(** ** Lists, rows and blocks *)

Lemma mapM_Forall2 {A B : Type} (f : A -> result B) (l : list A) (ys : list B) :
  Forall2 (fun x y => f x = Ok y) l ys -> mapM f l = Ok ys.
Proof.
  induction 1 as [ | x y l ys Hxy _ IH]; simpl.
  - reflexivity.
  - rewrite Hxy. simpl. rewrite IH. reflexivity.
Qed.

Lemma mapM_compose {A B C : Type} (f : B -> result C) (g : A -> B) (l : list A) :
  mapM f (map g l) = mapM (fun x => f (g x)) l.
Proof.
  induction l as [ | x r IH]; simpl; [reflexivity | ]. rewrite IH. reflexivity.
Qed.

Lemma Forall_exists_Forall2 {A B : Type} (R : A -> B -> Prop) (l : list A) :
  Forall (fun x => exists y, R x y) l -> exists ys, Forall2 R l ys.
Proof.
  induction 1 as [ | x l [y Hy] _ [ys IH]].
  - exists []. constructor.
  - exists (y :: ys). constructor; assumption.
Qed.

Lemma combine_seq_map {A B : Type} (f : nat -> B) (l : list A) (s : nat) :
  combine l (map f (seq s (length l)))
  = map (fun jd => (snd jd, f (fst jd))) (combine (seq s (length l)) l).
Proof.
  revert s. induction l as [ | x r IH]; intros s; simpl.
  - reflexivity.
  - rewrite IH. reflexivity.
Qed.

Lemma combine_seq_nth_error {A : Type} (l : list A) (s j : nat) (x : A) :
  In (j, x) (combine (seq s (length l)) l) ->
  (s <= j)%nat /\ nth_error l (j - s) = Some x.
Proof.
  revert s. induction l as [ | y r IH]; intros s; simpl.
  - intros [].
  - intros [E | Hin].
    + injection E as <- <-. rewrite Nat.sub_diag. split; [lia | reflexivity].
    + destruct (IH (S s) Hin) as [Hle Hnth]. split; [lia | ].
      replace (j - s)%nat with (S (j - S s)) by lia. exact Hnth.
Qed.

Lemma Forall2_nth_error {A B : Type} (R : A -> B -> Prop) (l1 : list A)
    (l2 : list B) (j : nat) (a : A) (d : B) :
  Forall2 R l1 l2 -> nth_error l1 j = Some a -> R a (nth j l2 d).
Proof.
  intros HF. revert j. induction HF as [ | x y l1 l2 Hxy _ IH]; intros j Hj.
  - destruct j; discriminate.
  - destruct j as [ | j]; simpl in *.
    + injection Hj as <-. exact Hxy.
    + apply IH. exact Hj.
Qed.

Lemma concat_singletons (l : list pyval) : concat (map (fun v => [v]) l) = l.
Proof.
  induction l as [ | v r IH]; simpl; [reflexivity | ]. rewrite IH. reflexivity.
Qed.

Lemma flatten_rows_of (a : ndarray) : flatten a = concat (rows_of a).
Proof.
  destruct a as [l | rows k]; simpl; [ | reflexivity].
  symmetry. apply concat_singletons.
Qed.

Lemma length_concat_uniform (k : nat) (rows : list (list pyval)) :
  Forall (fun r => length r = k) rows ->
  length (concat rows) = (length rows * k)%nat.
Proof.
  induction 1 as [ | r rows Hr _ IH]; simpl; [reflexivity | ].
  rewrite length_app, Hr, IH. reflexivity.
Qed.

Lemma chunks_concat (k : nat) (rows : list (list pyval)) :
  Forall (fun r => length r = k) rows ->
  chunks k (length rows) (concat rows) = rows.
Proof.
  induction 1 as [ | r rows Hr _ IH]; simpl; [reflexivity | ].
  assert (Hf : firstn k r = r) by (rewrite <- Hr; apply firstn_all).
  assert (Hs : skipn k r = []) by (rewrite <- Hr; apply skipn_all).
  rewrite firstn_app, skipn_app, Hf, Hs, Hr, Nat.sub_diag. simpl.
  rewrite app_nil_r, IH. reflexivity.
Qed.

(** Reshaping to [n] rows an array that has [n] rows of [k] elements gives
    these rows. *)
Lemma reshape_rows_shaped (n k : nat) (a : ndarray) :
  n <> O ->
  length (rows_of a) = n ->
  Forall (fun r => length r = k) (rows_of a) ->
  reshape_rows n a = Ok (Arr2 (rows_of a) k).
Proof.
  intros Hn Hlen Hrows. unfold reshape_rows.
  rewrite flatten_rows_of, (length_concat_uniform k) by exact Hrows.
  rewrite Hlen, (Nat.mul_comm n k).
  destruct (Nat.eqb_spec n 0) as [E | _]; [contradiction | ].
  rewrite Nat.Div0.mod_mul, Nat.div_mul by exact Hn. simpl.
  rewrite <- Hlen at 1. rewrite chunks_concat by exact Hrows. reflexivity.
Qed.

Lemma zip_app_length (a b : list (list pyval)) :
  length a = length b -> length (zip_app a b) = length a.
Proof.
  revert b. induction a as [ | x a IH]; intros [ | y b]; simpl; try discriminate.
  - reflexivity.
  - intros E. rewrite IH by lia. reflexivity.
Qed.

Lemma zip_app_nth (a b : list (list pyval)) (i : nat) :
  length a = length b ->
  nth i (zip_app a b) [] = nth i a [] ++ nth i b [].
Proof.
  revert b i. induction a as [ | x a IH]; intros [ | y b] i; simpl; try discriminate.
  - destruct i; reflexivity.
  - intros E. destruct i as [ | i]; [reflexivity | ]. apply IH. lia.
Qed.

(** Blocks of [n] rows glued side by side: [n] rows, each the concatenation
    of the rows of the blocks, in the order of the blocks. *)
Lemma glue_rows (n : nat) (blocks : list (list (list pyval))) :
  blocks <> [] ->
  Forall (fun b => length b = n) blocks ->
  length (glue blocks) = n
  /\ forall i, nth i (glue blocks) [] = concat (map (fun b => nth i b []) blocks).
Proof.
  intros Hne Hall. induction Hall as [ | b rest Hb Hrest IH]; [contradiction | ].
  destruct rest as [ | b' rest'].
  - simpl. split; [exact Hb | ]. intros i. rewrite app_nil_r. reflexivity.
  - destruct IH as [IHlen IHnth]; [discriminate | ].
    change (glue (b :: b' :: rest')) with (zip_app b (glue (b' :: rest'))).
    split.
    + rewrite zip_app_length by lia. exact Hb.
    + intros i. rewrite zip_app_nth by lia. rewrite IHnth. reflexivity.
Qed.

(** [hstack] of two-dimensional blocks with [n] rows each. *)
Lemma hstack_blocks (n : nat) (blocks : list (list (list pyval) * nat)) :
  blocks <> [] ->
  Forall (fun b => length (fst b) = n) blocks ->
  hstack (map (fun b => Arr2 (fst b) (snd b)) blocks)
  = Ok (Arr2 (glue (map fst blocks)) (list_sum (map snd blocks))).
Proof.
  intros Hne Hall. induction Hall as [ | [rows k] rest Hb Hrest IH]; [contradiction | ].
  destruct rest as [ | b' rest'].
  - simpl. rewrite Nat.add_0_r. reflexivity.
  - change (hstack (map (fun b => Arr2 (fst b) (snd b)) ((rows, k) :: b' :: rest')))
      with (b <- hstack (map (fun b => Arr2 (fst b) (snd b)) (b' :: rest')) ;;
            join (Arr2 rows k) b).
    rewrite IH by discriminate. cbn [bind join].
    assert (Hlen : length (glue (map fst (b' :: rest'))) = n).
    { apply glue_rows; [discriminate | ].
      apply Forall_map. exact Hrest. }
    simpl in Hb. rewrite Hlen, Hb, Nat.eqb_refl. reflexivity.
Qed.

(** ** The shape of [Space.transform] *)

Section SpaceTransform.

Context `{PyRuntime}.

Lemma rows_of_Arr1_shape (l : list pyval) :
  length (rows_of (Arr1 l)) = length l
  /\ Forall (fun r => length r = 1%nat) (rows_of (Arr1 l)).
Proof.
  simpl. rewrite length_map. split; [reflexivity | ].
  apply Forall_map. apply Forall_forall. intros v _. reflexivity.
Qed.

Lemma Categorical_onehot_size (d : Categorical.t) :
  Categorical.transform_ d = "onehot"%string ->
  Categorical.transformed_size d = onehot_width (Categorical.categories d).
Proof.
  intros Hmode. unfold Categorical.transformed_size, onehot_width.
  rewrite Hmode. simpl.
  destruct (Nat.eqb (length (Categorical.categories d)) 2); reflexivity.
Qed.

Lemma Categorical_other_size (d : Categorical.t) :
  Categorical.transform_ d <> "onehot"%string ->
  Categorical.transformed_size d = 1%nat.
Proof.
  intros Hmode. unfold Categorical.transformed_size.
  apply String.eqb_neq in Hmode. rewrite Hmode. reflexivity.
Qed.

(** A configured dimension maps a column of members to an array with as
    many rows as the column and [transformed_size] elements per row. *)
Lemma dim_transform_shape (dim : Dimension) (col : list pyval) :
  dim_configured dim ->
  Forall (dim_member dim) col ->
  exists a : ndarray,
    dim_transform dim col = Ok a
    /\ length (rows_of a) = length col
    /\ Forall (fun r => length r = dim_transformed_size dim) (rows_of a).
Proof.
  intros Hconf Hcol. destruct dim as [d | d | d]; simpl in *.
  - assert (Hnum : Forall numeric col).
    { eapply Forall_impl; [ | exact Hcol].
      intros v Hv. exact (Real_contains_num d v true Hv). }
    unfold Real.transform, Real.transformed_size.
    destruct (Real_configured_inv d Hconf)
      as [[_ [[_ Htr] | [_ Htr]]] | [unb [_ [[_ Htr] | [_ Htr]]]]];
      rewrite Htr.
    + exists (Arr1 col). split; [reflexivity | apply rows_of_Arr1_shape].
    + rewrite transform_LogN by exact Hnum. eexists. split; [reflexivity | ].
      destruct (rows_of_Arr1_shape
                  (map (fun v => PFloat (log10 (num_of v) / log10 (Real.base d))) col))
        as [Hl Hr].
      rewrite length_map in Hl. split; assumption.
    + rewrite transform_Normalize by exact Hnum. eexists. split; [reflexivity | ].
      match goal with
      | |- context [rows_of (Arr1 ?l)] =>
          destruct (rows_of_Arr1_shape l) as [Hl Hr]
      end.
      rewrite length_map in Hl. split; assumption.
    + rewrite transform_LogN_Normalize by exact Hnum.
      eexists. split; [reflexivity | ].
      match goal with
      | |- context [rows_of (Arr1 ?l)] =>
          destruct (rows_of_Arr1_shape l) as [Hl Hr]
      end.
      rewrite length_map in Hl. split; assumption.
  - assert (Hnum : Forall numeric col).
    { eapply Forall_impl; [ | exact Hcol].
      intros v Hv. exact (Integer_contains_num d v true Hv). }
    unfold Integer.transform, Integer.transformed_size.
    destruct (Integer_configured_inv d Hconf)
      as [[_ [[_ Htr] | [_ Htr]]] | [_ [[_ Htr] | [_ Htr]]]];
      rewrite Htr.
    + exists (Arr1 col). split; [reflexivity | apply rows_of_Arr1_shape].
    + rewrite transform_LogN by exact Hnum. eexists. split; [reflexivity | ].
      match goal with
      | |- context [rows_of (Arr1 ?l)] =>
          destruct (rows_of_Arr1_shape l) as [Hl Hr]
      end.
      rewrite length_map in Hl. split; assumption.
    + rewrite transform_Normalize by exact Hnum. eexists. split; [reflexivity | ].
      match goal with
      | |- context [rows_of (Arr1 ?l)] =>
          destruct (rows_of_Arr1_shape l) as [Hl Hr]
      end.
      rewrite length_map in Hl. split; assumption.
    + rewrite transform_LogN_Normalize by exact Hnum.
      eexists. split; [reflexivity | ].
      match goal with
      | |- context [rows_of (Arr1 ?l)] =>
          destruct (rows_of_Arr1_shape l) as [Hl Hr]
      end.
      rewrite length_map in Hl. split; assumption.
  - assert (Hmem : Forall (member (Categorical.categories d)) col).
    { eapply Forall_impl; [ | exact Hcol].
      intros v Hv. unfold dim_member in Hv. simpl in Hv.
      injection Hv as Hv. exact Hv. }
    unfold Categorical.transform.
    destruct (Categorical_configured_inv d Hconf)
      as [[Hm Htr] | [[Hm Htr] | [[Hm Htr] | [[Hm Htr] | [Hm Htr]]]]];
      rewrite Htr.
    + rewrite transform_CategoricalEncoder by exact Hmem.
      eexists. split; [reflexivity | ]. simpl. rewrite length_map.
      split; [reflexivity | ].
      apply Forall_map. apply Forall_forall. intros v _.
      rewrite onehot_row_length. symmetry. apply Categorical_onehot_size. exact Hm.
    + rewrite transform_StringEncoder. eexists. split; [reflexivity | ].
      rewrite Categorical_other_size by (rewrite Hm; discriminate).
      match goal with
      | |- context [rows_of (Arr1 ?l)] =>
          destruct (rows_of_Arr1_shape l) as [Hl Hr]
      end.
      rewrite length_map in Hl. split; assumption.
    + rewrite transform_LabelEncoder by exact Hmem.
      eexists. split; [reflexivity | ].
      rewrite Categorical_other_size by (rewrite Hm; discriminate).
      match goal with
      | |- context [rows_of (Arr1 ?l)] =>
          destruct (rows_of_Arr1_shape l) as [Hl Hr]
      end.
      rewrite length_map in Hl. split; assumption.
    + rewrite transform_Label_Normalize by exact Hmem.
      eexists. split; [reflexivity | ].
      rewrite Categorical_other_size
        by (destruct Hm as [Hm | Hm]; rewrite Hm; discriminate).
      match goal with
      | |- context [rows_of (Arr1 ?l)] =>
          destruct (rows_of_Arr1_shape l) as [Hl Hr]
      end.
      rewrite length_map in Hl. split; assumption.
    + exists (Arr1 col). split; [reflexivity | ].
      rewrite Categorical_other_size by (rewrite Hm; discriminate).
      apply rows_of_Arr1_shape.
Qed.

Lemma contains_from_members (dims : list Dimension) (row : list pyval) :
  length row = length dims ->
  Space.contains_from dims row = Ok true ->
  Forall2 dim_member dims row.
Proof.
  revert row. induction dims as [ | dim dims IH]; intros [ | c row] Hlen Hin;
    simpl in Hlen; try discriminate.
  - constructor.
  - simpl in Hin. destruct (dim_contains dim c) as [[ | ] | e] eqn:Hc;
      simpl in Hin; try discriminate.
    constructor; [exact Hc | ]. apply IH; [lia | exact Hin].
Qed.

Lemma map_snd_combine_seq {A B : Type} (f : A -> B) (l : list A) (s : nat) :
  map (fun jd => f (snd jd)) (combine (seq s (length l)) l) = map f l.
Proof.
  revert s. induction l as [ | x r IH]; intros s; simpl; [reflexivity | ].
  rewrite IH. reflexivity.
Qed.

Lemma Forall2_map_left {A B C : Type} (R : B -> C -> Prop) (f : A -> B)
    (l : list A) (ys : list C) :
  Forall2 (fun x y => R (f x) y) l ys -> Forall2 R (map f l) ys.
Proof.
  induction 1; simpl; constructor; assumption.
Qed.

Lemma reshape_all (n : nat) (sizes : list nat) (arrays : list ndarray) :
  n <> O ->
  Forall2 (fun k a => shaped n k a) sizes arrays ->
  mapM (reshape_rows n) arrays
  = Ok (map (fun b => Arr2 (fst b) (snd b)) (combine (map rows_of arrays) sizes))
  /\ map fst (combine (map rows_of arrays) sizes) = map rows_of arrays
  /\ map snd (combine (map rows_of arrays) sizes) = sizes.
Proof.
  intros Hn. induction 1 as [ | k a sizes arrays [Hlen Hrows] _ [IH1 [IH2 IH3]]];
    simpl.
  - repeat split; reflexivity.
  - rewrite (reshape_rows_shaped n k a Hn Hlen Hrows). simpl.
    rewrite IH1, IH2, IH3. simpl. repeat split; reflexivity.
Qed.

Lemma glued_row_length (n i : nat) (sizes : list nat) (arrays : list ndarray) :
  (i < n)%nat ->
  Forall2 (fun k a => shaped n k a) sizes arrays ->
  length (concat (map (fun a => nth i (rows_of a) []) arrays)) = list_sum sizes.
Proof.
  intros Hi. induction 1 as [ | k a sizes arrays [Hlen Hrows] _ IH]; simpl.
  - reflexivity.
  - rewrite length_app, IH. f_equal.
    rewrite Forall_forall in Hrows. apply Hrows. apply nth_In. lia.
Qed.

(** C4, amended: for a space with at least one dimension, all of them
    configured, and at least one row, every row a member of the space with
    one component per dimension, [Space.transform] returns a matrix with one
    row per sample and [transformed_n_dims] columns, the sum of the
    dimensions' [transformed_size]; each row is the concatenation, in the
    order of the dimensions, of the rows that the dimensions' own transforms
    produce for the columns of [X], a dimension contributing
    [transformed_size] adjacent elements. *)
Theorem Space_transform_shape :
  forall (s : Space.t) (X : list (list pyval)),
    Space.dimensions s <> [] ->
    X <> [] ->
    Forall dim_configured (Space.dimensions s) ->
    Forall (fun row => length row = Space.n_dims s
                       /\ Space.__contains__ s row = Ok true) X ->
    exists (arrays : list ndarray) (rows : list (list pyval)),
      Forall2 (fun jd a =>
                 dim_transform (snd jd) (column X (fst jd)) = Ok a
                 /\ length (rows_of a) = length X
                 /\ Forall (fun r => length r = dim_transformed_size (snd jd))
                           (rows_of a))
              (combine (seq 0 (Space.n_dims s)) (Space.dimensions s)) arrays
      /\ Space.transform s X = Ok (Arr2 rows (Space.transformed_n_dims s))
      /\ length rows = length X
      /\ Forall (fun row => length row = Space.transformed_n_dims s) rows
      /\ (forall i, (i < length X)%nat ->
                    nth i rows []
                    = concat (map (fun a => nth i (rows_of a) []) arrays)).
Proof.
  intros [dims] X Hdims HX Hconf Hrows.
  unfold Space.n_dims, Space.transformed_n_dims, Space.__contains__ in *.
  cbn [Space.dimensions] in *.
  set (n := length dims) in *.
  set (pairs := combine (seq 0 n) dims).
  assert (Hn : length X <> O) by (destruct X; [contradiction | discriminate]).
  (* the columns *)
  assert (Hpack : Space.pack (Space.mk dims) X = Ok (map (column X) (seq 0 n))).
  { unfold Space.pack, Space.n_dims. cbn [Space.dimensions]. fold n.
    apply mapM_map. intros j Hj. apply in_seq in Hj.
    apply mapM_map. intros row Hrow. unfold Space.item.
    rewrite Forall_forall in Hrows. destruct (Hrows row Hrow) as [Hlen _].
    rewrite (nth_error_nth' row PNone) by lia. reflexivity. }
  (* the transformed columns *)
  assert (Harrays :
            Forall (fun jd => exists a,
                        dim_transform (snd jd) (column X (fst jd)) = Ok a
                        /\ length (rows_of a) = length X
                        /\ Forall (fun r => length r = dim_transformed_size (snd jd))
                                  (rows_of a)) pairs).
  { apply Forall_forall. intros [j dim] Hjd. cbn [fst snd].
    destruct (combine_seq_nth_error dims 0 j dim Hjd) as [_ Hnth].
    rewrite Nat.sub_0_r in Hnth.
    destruct (dim_transform_shape dim (column X j)) as [a [Ha [Hl Hr]]].
    - rewrite Forall_forall in Hconf. apply Hconf.
      eapply nth_error_In. exact Hnth.
    - unfold column. apply Forall_map. apply Forall_forall. intros row Hrow.
      rewrite Forall_forall in Hrows. destruct (Hrows row Hrow) as [Hlen Hin].
      apply (Forall2_nth_error dim_member dims row j dim PNone);
        [apply contains_from_members; assumption | exact Hnth].
    - exists a. unfold column in Hl. rewrite length_map in Hl.
      repeat split; assumption. }
  destruct (Forall_exists_Forall2 _ _ Harrays) as [arrays Hall].
  assert (Htrans :
            mapM (fun dc => dim_transform (fst dc) (snd dc))
                 (combine dims (map (column X) (seq 0 n))) = Ok arrays).
  { unfold n. rewrite combine_seq_map, mapM_compose. cbn [fst snd].
    apply mapM_Forall2. fold n. fold pairs.
    eapply Forall2_impl; [ | exact Hall]. intros jd a [Ha _]. exact Ha. }
  (* the blocks *)
  set (sizes := map dim_transformed_size dims).
  assert (Hshaped : Forall2 (fun k a => shaped (length X) k a) sizes arrays).
  { unfold sizes. rewrite <- (map_snd_combine_seq dim_transformed_size dims 0).
    fold n. fold pairs. apply Forall2_map_left.
    eapply Forall2_impl; [ | exact Hall]. intros jd a [_ Hs]. exact Hs. }
  destruct (reshape_all (length X) sizes arrays Hn Hshaped) as [Hre [Hfst Hsnd]].
  assert (Hne : combine (map rows_of arrays) sizes <> []).
  { intros E. apply (f_equal (map snd)) in E. rewrite Hsnd in E.
    unfold sizes in E. destruct dims; [contradiction | discriminate]. }
  assert (Hcount : Forall (fun b => length b = length X) (map rows_of arrays)).
  { apply Forall_map. clear - Hshaped.
    induction Hshaped as [ | k a sizes arrays [Hl _] _ IH]; constructor; assumption. }
  assert (Hstack :
            hstack (map (fun b => Arr2 (fst b) (snd b))
                        (combine (map rows_of arrays) sizes))
            = Ok (Arr2 (glue (map rows_of arrays)) (list_sum sizes))).
  { rewrite (hstack_blocks (length X)).
    - rewrite Hfst, Hsnd. reflexivity.
    - exact Hne.
    - rewrite <- Hfst in Hcount. rewrite Forall_map in Hcount. exact Hcount. }
  destruct (glue_rows (length X) (map rows_of arrays)) as [Hglen Hgnth].
  { intros E. rewrite <- Hfst in E. apply Hne.
    destruct (combine (map rows_of arrays) sizes); [reflexivity | discriminate]. }
  { exact Hcount. }
  exists arrays, (glue (map rows_of arrays)).
  split; [exact Hall | ]. split; [ | split; [exact Hglen | split]].
  - unfold Space.transform. rewrite Hpack. cbn [bind Space.dimensions].
    rewrite Htrans. cbn [bind]. rewrite Hre. cbn [bind]. exact Hstack.
  - apply Forall_forall. intros row Hrow.
    destruct (In_nth _ _ [] Hrow) as [i [Hi <-]].
    rewrite Hgnth, map_map.
    apply (glued_row_length (length X)); [lia | exact Hshaped].
  - intros i Hi. rewrite Hgnth, map_map. reflexivity.
Qed.

End SpaceTransform.

(** C4, as stated, fails: a space without dimensions is a space, the one
    row [[]] has one component per dimension and is a member, and
    [np.hstack] of no array at all raises [ValueError]. *)
Lemma Space_transform_no_dimension_counterexample :
  Space.n_dims (Space.mk []) = length (@nil pyval)
  /\ Space.__contains__ (Space.mk []) [] = Ok true
  /\ @Space.transform example_runtime (Space.mk []) [[]] = Raise ValueError.
Proof. repeat split; reflexivity. Qed.

(** Without a row, the number of columns of a block cannot be inferred. *)
Lemma Space_transform_no_row :
  @Space.transform example_runtime (Space.mk [DReal real_01]) [] = Raise ValueError.
Proof. reflexivity. Qed.

(** After a call of [set_transformer] that raised, the size that the
    dimension reports and the width of what its pipeline produces differ. *)
Lemma Space_transform_after_failed_reconfiguration :
  snd (Categorical.set_transformer cat_abc "bogus") = Raise ValueError
  /\ Space.transformed_n_dims (Space.mk [DCategorical cat_abc_bogus]) = 1%nat
  /\ @Space.transform example_runtime (Space.mk [DCategorical cat_abc_bogus])
       [[PStr "b"]]
     = Ok (Arr2 [[PFloat 0; PFloat 1; PFloat 0]] 3).
Proof. repeat split; reflexivity. Qed.

Lemma real_01_configured : Real_configured real_01.
Proof. exists "identity"%string. reflexivity. Qed.

Lemma cat_xyz_configured : Categorical_configured cat_xyz.
Proof. exists "onehot"%string. reflexivity. Qed.

Lemma two_points_members :
  Forall (fun row => length row = Space.n_dims space_real_cat
                     /\ Space.__contains__ space_real_cat row = Ok true)
         two_points.
Proof.
  repeat constructor.
  - unfold Space.__contains__. simpl. unfold Real.__contains__. simpl.
    rewrite !Rleb_true by lra. reflexivity.
  - unfold Space.__contains__. simpl. unfold Real.__contains__. simpl.
    rewrite !Rleb_true by lra. reflexivity.
Qed.

Lemma Space_transform_shape_witness :
  exists rows : list (list pyval),
    @Space.transform example_runtime space_real_cat two_points = Ok (Arr2 rows 4)
    /\ length rows = 2%nat
    /\ Forall (fun row => length row = 4%nat) rows.
Proof.
  destruct (@Space_transform_shape example_runtime space_real_cat two_points)
    as [arrays [rows [_ [Ht [Hl [Hw _]]]]]].
  - discriminate.
  - discriminate.
  - repeat constructor; [exact real_01_configured | exact cat_xyz_configured].
  - exact two_points_members.
  - exists rows. repeat split; assumption.
Defined.

(** ** Constructed objects are valid *)

Lemma Real_init_valid (low high : R) (prior : string) (base : R)
    (transform : option string) (name : pyval) (dtype : Dtype) (d : Real.t) :
  Real.__init__ low high prior base transform name dtype = Ok d ->
  dim_valid (DReal d).
Proof.
  intros Hinit. destruct (Real_init_configured _ _ _ _ _ _ _ _ Hinit)
    as [Hc [Hl [Hh [Hlh [Hb [Hlb _]]]]]].
  split; [exact Hc | ]. rewrite Hl, Hh, Hlb, Hb. split; [exact Hlh | reflexivity].
Qed.

Lemma Integer_init_valid (low high : R) (prior : string) (base : R)
    (transform : option string) (name : pyval) (dtype : Dtype) (d : Integer.t) :
  Integer.__init__ low high prior base transform name dtype = Ok d ->
  dim_valid (DInteger d).
Proof.
  intros Hinit. destruct (Integer_init_configured _ _ _ _ _ _ _ _ Hinit)
    as [Hc [Hl [Hh [Hlh [Hb [Hlb _]]]]]].
  split; [exact Hc | ]. rewrite Hl, Hh, Hlb, Hb. split; [exact Hlh | reflexivity].
Qed.

Lemma Categorical_init_valid (categories : list pyval)
    (prior : option (list R)) (transform : option string) (name : pyval)
    (d : Categorical.t) :
  Categorical.__init__ categories prior transform name = Ok d ->
  dim_valid (DCategorical d).
Proof.
  intros Hinit. split; [ | exact I].
  apply (Categorical_init_configured _ _ _ _ _ Hinit).
Qed.

(** [check_dimension] returns valid dimensions when it is given none. *)
Lemma check_dimension_valid (l : list pyval) (transform : option string)
    (dim : Dimension) :
  check_dimension (Sequence l) transform = Ok dim -> dim_valid dim.
Proof.
  assert (HI : forall args, call_Integer args transform = Ok dim -> dim_valid dim).
  { intros args. unfold call_Integer.
    destruct (unpack_bounds args) as [[[[lo hi] p] b] | e]; simpl; [ | discriminate].
    destruct (Integer.__init__ lo hi p b transform PNone (np_signed 64))
      as [d | e] eqn:Hd; simpl; [ | discriminate].
    intros E. injection E as <-. exact (Integer_init_valid _ _ _ _ _ _ _ _ Hd). }
  assert (HR : forall args, call_Real args transform = Ok dim -> dim_valid dim).
  { intros args. unfold call_Real.
    destruct (unpack_bounds args) as [[[[lo hi] p] b] | e]; simpl; [ | discriminate].
    destruct (Real.__init__ lo hi p b transform PNone py_float)
      as [d | e] eqn:Hd; simpl; [ | discriminate].
    intros E. injection E as <-. exact (Real_init_valid _ _ _ _ _ _ _ _ Hd). }
  assert (HC : forall cats, call_Categorical cats transform = Ok dim -> dim_valid dim).
  { intros cats. unfold call_Categorical.
    destruct (Categorical.__init__ cats None transform PNone)
      as [d | e] eqn:Hd; simpl; [ | discriminate].
    intros E. injection E as <-. exact (Categorical_init_valid _ _ _ _ _ Hd). }
  unfold check_dimension.
  repeat match goal with
         | |- context [if ?c then _ else _] => destruct c
         end; intros E; first [discriminate E | eauto].
Qed.

(** A call of [set_transformer] that returns keeps a dimension valid. *)
Lemma Real_set_transformer_valid (d d' : Real.t) (mode : string) :
  dim_valid (DReal d) ->
  Real.set_transformer d mode = (d', Ok tt) ->
  dim_valid (DReal d').
Proof.
  intros [_ [Hlh Hlb]] Hset.
  split; [exact (Real_set_transformer_configured _ _ _ Hset) | ].
  pose proof (Real_set_transformer_frame d mode) as F.
  rewrite Hset in F. simpl in F.
  destruct F as [-> [-> [_ [-> [-> _]]]]]. split; assumption.
Qed.

Lemma Integer_set_transformer_valid (d d' : Integer.t) (mode : string) :
  dim_valid (DInteger d) ->
  Integer.set_transformer d mode = (d', Ok tt) ->
  dim_valid (DInteger d').
Proof.
  intros [_ [Hlh Hlb]] Hset.
  split; [exact (Integer_set_transformer_configured _ _ _ Hset) | ].
  pose proof (Integer_set_transformer_frame d mode) as F.
  rewrite Hset in F. simpl in F.
  destruct F as [-> [-> [_ [-> [-> _]]]]]. split; assumption.
Qed.

(** ** Round trips *)

Lemma np_round_IZR (z : Z) : np_round (IZR z) = z.
Proof.
  unfold np_round. rewrite ZfloorZ.
  replace (IZR z - IZR z) with 0 by lra.
  rewrite Rltb_true by lra. reflexivity.
Qed.

Lemma np_clip_inside (x lo hi : R) : lo <= x <= hi -> np_clip x lo hi = x.
Proof.
  intros [Hlo Hhi]. unfold np_clip.
  rewrite Rmax_left by exact Hlo. apply Rmin_left. exact Hhi.
Qed.

Lemma np_clip_bounds (x lo hi : R) : lo <= hi -> lo <= np_clip x lo hi <= hi.
Proof.
  intros Hlh. unfold np_clip. split.
  - apply Rmin_glb; [apply Rmax_r | exact Hlh].
  - apply Rmin_r.
Qed.

(** ** Binary formats *)

Lemma np_round_half (n : Z) :
  np_round (IZR n + 1 / 2) = if Z.even n then n else (n + 1)%Z.
Proof.
  unfold np_round. cbv zeta.
  assert (Hf : Zfloor (IZR n + 1 / 2) = n) by (apply Zfloor_eq; lra).
  rewrite Hf. replace (IZR n + 1 / 2 - IZR n) with (1 / 2) by lra.
  rewrite !Rltb_false by lra. reflexivity.
Qed.

Lemma ln_2_pos : 0 < ln 2.
Proof. rewrite <- ln_1. apply ln_increasing; lra. Qed.

Lemma pow2_pos (k : Z) : 0 < pow2 k.
Proof. apply powerRZ_lt. lra. Qed.

Lemma pow2_add (a b : Z) : pow2 (a + b) = pow2 a * pow2 b.
Proof. apply powerRZ_add. lra. Qed.

Lemma pow2_IZR (n : Z) : (0 <= n)%Z -> pow2 n = IZR (2 ^ n).
Proof.
  intros Hn. unfold pow2. destruct n as [ | q | q]; [reflexivity | | lia].
  symmetry. apply Zpower_pos_powerRZ.
Qed.

Lemma ln_pow2 (k : Z) : ln (pow2 k) = IZR k * ln 2.
Proof.
  unfold pow2. rewrite powerRZ_Rpower by lra. unfold Rpower. apply ln_exp.
Qed.

(** The exponent of a number between two consecutive powers of two. *)
Lemma exponent_eq (e : Z) (x : R) :
  pow2 e <= Rabs x < pow2 (e + 1) -> exponent x = e.
Proof.
  intros [Hlo Hhi]. pose proof ln_2_pos as H2. pose proof (pow2_pos e) as He.
  unfold exponent. apply Zfloor_eq.
  assert (H1 : IZR e * ln 2 <= ln (Rabs x)).
  { rewrite <- ln_pow2. destruct Hlo as [Hlt | Heq].
    - left. apply ln_increasing; assumption.
    - right. rewrite Heq. reflexivity. }
  assert (H3 : ln (Rabs x) < (IZR e + 1) * ln 2).
  { rewrite <- plus_IZR, <- ln_pow2. apply ln_increasing; lra. }
  split.
  - apply (Rmult_le_reg_r (ln 2)); [exact H2 | ].
    replace (ln (Rabs x) / ln 2 * ln 2) with (ln (Rabs x)) by (field; lra).
    exact H1.
  - apply (Rmult_lt_reg_r (ln 2)); [exact H2 | ].
    replace (ln (Rabs x) / ln 2 * ln 2) with (ln (Rabs x)) by (field; lra).
    exact H3.
Qed.

(** The exponent of [x] is below [k] when [|x|] is below [2 ** k]. *)
Lemma exponent_lt (k : Z) (x : R) :
  x <> 0 -> Rabs x < pow2 k -> (exponent x < k)%Z.
Proof.
  intros Hx Hk. pose proof ln_2_pos as H2.
  assert (Hpos : 0 < Rabs x) by (apply Rabs_pos_lt; exact Hx).
  unfold exponent. apply lt_IZR.
  pose proof (Zfloor_bound (ln (Rabs x) / ln 2)) as [Hf _].
  apply (Rle_lt_trans _ _ _ Hf).
  apply (Rmult_lt_reg_r (ln 2)); [exact H2 | ].
  replace (ln (Rabs x) / ln 2 * ln 2) with (ln (Rabs x)) by (field; lra).
  rewrite <- ln_pow2. apply ln_increasing; assumption.
Qed.

(** A number [m * 2 ** k] with a significand of at most [p] bits and an
    exponent that the format reaches is a number of the format. *)
Lemma round_to_format_exact (p emin m k : Z) (x : R) :
  x = IZR m * pow2 k ->
  (Z.abs m < 2 ^ p)%Z -> (0 <= p)%Z -> (emin - p + 1 <= k)%Z ->
  round_to_format p emin x = x.
Proof.
  intros Hx Hm Hp Hk. unfold round_to_format.
  destruct (Req_dec_T x 0) as [H0 | H0].
  - rewrite H0, Reqb_refl. reflexivity.
  - rewrite Reqb_false by exact H0. cbv zeta.
    assert (Hlt : (exponent x < p + k)%Z).
    { apply exponent_lt; [exact H0 | ].
      rewrite Hx, Rabs_mult, (Rabs_pos_eq (pow2 k)) by (left; apply pow2_pos).
      rewrite pow2_add, (pow2_IZR p Hp), <- abs_IZR.
      apply Rmult_lt_compat_r; [apply pow2_pos | apply IZR_lt; exact Hm]. }
    set (j := (Z.max (exponent x) emin - p + 1)%Z).
    assert (Hj : (0 <= k - j)%Z) by lia.
    assert (Hq : x / pow2 j = IZR (m * 2 ^ (k - j))).
    { rewrite mult_IZR, <- (pow2_IZR _ Hj), Hx.
      replace k with ((k - j) + j)%Z at 1 by lia. rewrite pow2_add.
      field. apply Rgt_not_eq, pow2_pos. }
    rewrite Hq, np_round_IZR, mult_IZR, <- (pow2_IZR _ Hj), Rmult_assoc.
    rewrite <- pow2_add. replace (k - j + j)%Z with k by lia.
    symmetry. exact Hx.
Qed.

(** A whole number of magnitude at most [2 ** 53] is a binary64 number. *)
Lemma to_float_IZR (z : Z) :
  (Z.abs z <= 2 ^ 53)%Z -> to_float (IZR z) = IZR z.
Proof.
  intros Hz. unfold to_float.
  destruct (Z.eq_dec (Z.abs z) (2 ^ 53)) as [Heq | Hne].
  - apply (round_to_format_exact 53 (-1022) (z / 2) 1); [ | | lia | lia].
    + assert (Hz2 : z = (z / 2 * 2)%Z).
      { destruct (Z.abs_spec z) as [[_ Ha] | [_ Ha]]; rewrite Ha in Heq.
        - rewrite Heq. reflexivity.
        - replace z with (- 2 ^ 53)%Z by lia. reflexivity. }
      rewrite Hz2 at 1. rewrite mult_IZR. unfold pow2. simpl. lra.
    + destruct (Z.abs_spec z) as [[_ Ha] | [_ Ha]]; rewrite Ha in Heq.
      * rewrite Heq. reflexivity.
      * replace z with (- 2 ^ 53)%Z by lia. reflexivity.
  - apply (round_to_format_exact 53 (-1022) z 0); [ | lia | lia | lia].
    unfold pow2. simpl. lra.
Qed.

(** Rounding a number whose exponent is known. *)
Lemma round_to_format_eq (p emin e : Z) (x : R) :
  pow2 e <= Rabs x < pow2 (e + 1) ->
  round_to_format p emin x
  = IZR (np_round (x / pow2 (Z.max e emin - p + 1))) * pow2 (Z.max e emin - p + 1).
Proof.
  intros Hx. unfold round_to_format.
  assert (H0 : x <> 0).
  { intros E. rewrite E, Rabs_R0 in Hx. pose proof (pow2_pos e). lra. }
  rewrite Reqb_false by exact H0. cbv zeta.
  rewrite (exponent_eq e x Hx). reflexivity.
Qed.

(** [2 ** 53 + 1] is not a binary64 number: it becomes [2 ** 53]. *)
Lemma to_float_2_53_1 : to_float 9007199254740993 = 9007199254740992.
Proof.
  unfold to_float. rewrite (round_to_format_eq 53 (-1022) 53).
  - replace (Z.max 53 (-1022) - 53 + 1)%Z with 1%Z by reflexivity.
    replace (pow2 1) with 2 by (unfold pow2; simpl; lra).
    replace (9007199254740993 / 2) with (IZR 4503599627370496 + 1 / 2) by lra.
    rewrite np_round_half. simpl. lra.
  - rewrite Rabs_pos_eq by lra. rewrite !pow2_IZR by lia.
    split; [apply IZR_le | apply IZR_lt]; cbn; lia.
Qed.

(** In binary16, 2051 becomes 2052. *)
Lemma binary16_2051 : round_to_format 11 (-14) 2051 = 2052.
Proof.
  rewrite (round_to_format_eq 11 (-14) 11).
  - replace (Z.max 11 (-14) - 11 + 1)%Z with 1%Z by reflexivity.
    replace (pow2 1) with 2 by (unfold pow2; simpl; lra).
    replace (2051 / 2) with (IZR 1025 + 1 / 2) by lra.
    rewrite np_round_half. simpl. lra.
  - rewrite Rabs_pos_eq by lra. rewrite !pow2_IZR by lia.
    split; [apply IZR_le | apply IZR_lt]; cbn; lia.
Qed.

(** A number with one binary digit after the point *)
Lemma to_float_half (z : Z) :
  (Z.abs z < 2 ^ 53)%Z -> to_float (IZR z / 2) = IZR z / 2.
Proof.
  intros Hz. unfold to_float.
  apply (round_to_format_exact 53 (-1022) z (-1)); [ | lia | lia | lia].
  unfold pow2. simpl. lra.
Qed.

Lemma is_whole_IZR (z : Z) : is_whole (IZR z) = true.
Proof. unfold is_whole. rewrite ZfloorZ. apply Reqb_refl. Qed.

Lemma is_whole_half : is_whole (1 / 2) = false.
Proof.
  unfold is_whole. replace (Zfloor (1 / 2)) with 0%Z.
  - apply Reqb_false. lra.
  - symmetry. apply Zfloor_eq. lra.
Qed.

(** ** Logarithms and the linear rescaling *)

Lemma ln_10_pos : 0 < ln 10.
Proof. rewrite <- ln_1. apply ln_increasing; lra. Qed.

Lemma ln_base_nonzero (base : R) : 0 < base -> base <> 1 -> ln base <> 0.
Proof.
  intros Hb Hne E. apply Hne. apply ln_inv; [exact Hb | lra | ].
  rewrite ln_1. exact E.
Qed.

(** [base ^ log_base(x) = x] for a positive [x] and a base that is positive
    and not one. *)
Lemma Rpower_log (base x : R) :
  0 < base -> base <> 1 -> 0 < x -> Rpower base (log10 x / log10 base) = x.
Proof.
  intros Hb Hne Hx. unfold Rpower.
  pose proof ln_10_pos as H10. pose proof (ln_base_nonzero base Hb Hne) as Hln.
  replace (log10 x / log10 base * ln base) with (ln x).
  - apply exp_ln. exact Hx.
  - unfold log10. field. split; lra.
Qed.

(** The logarithm of a number between two positive bounds lies between the
    logarithms of the bounds, in their order when the base is above one and
    in the opposite order when it is below; the logarithms of the bounds
    differ. *)
Lemma log_base_between (base lo hi x : R) :
  0 < base -> base <> 1 -> 0 < lo -> lo < hi -> lo <= x <= hi ->
  log10 lo / log10 base <> log10 hi / log10 base
  /\ (log10 lo / log10 base <= log10 x / log10 base <= log10 hi / log10 base
      \/ log10 hi / log10 base <= log10 x / log10 base <= log10 lo / log10 base).
Proof.
  intros Hb Hne Hlo Hlh [Hx1 Hx2].
  pose proof ln_10_pos as H10. pose proof (ln_base_nonzero base Hb Hne) as Hln.
  assert (Hform : forall t, log10 t / log10 base = ln t * / ln base).
  { intros t. unfold log10. field. split; lra. }
  rewrite !Hform.
  assert (H1 : ln lo < ln hi) by (apply ln_increasing; assumption).
  assert (H2 : ln lo <= ln x).
  { destruct Hx1 as [Hlt | <-]; [left; apply ln_increasing; assumption | right; reflexivity]. }
  assert (H3 : ln x <= ln hi).
  { destruct Hx2 as [Hlt | ->]; [left; apply ln_increasing; lra | right; reflexivity]. }
  assert (Hinv : / ln base <> 0) by (apply Rinv_neq_0_compat; exact Hln).
  destruct (Rlt_le_dec 0 (/ ln base)) as [Hpos | Hneg].
  - split; [ | left; split; apply Rmult_le_compat_r; lra].
    intros E. apply Rmult_eq_reg_r in E; lra.
  - assert (Hneg' : / ln base < 0) by lra.
    split; [intros E; apply Rmult_eq_reg_r in E; lra | ].
    right. split; rewrite !(Rmult_comm _ (/ ln base));
      apply Rmult_le_compat_neg_l; lra.
Qed.

(** The linear rescaling between two bounds that differ lands in [[0, 1]]
    and is undone by its inverse, with or without the clamp. *)
Lemma normalize_unit (lo hi x : R) :
  lo <> hi -> lo <= x <= hi \/ hi <= x <= lo -> 0 <= (x - lo) / (hi - lo) <= 1.
Proof.
  assert (Hratio : forall a b, 0 < b -> 0 <= a <= b -> 0 <= a / b <= 1).
  { intros a b Hb [Ha1 Ha2].
    assert (Hpos : 0 < / b) by (apply Rinv_0_lt_compat; exact Hb).
    split.
    - apply Rmult_le_pos; lra.
    - replace 1 with (b * / b) by (field; lra).
      apply Rmult_le_compat_r; lra. }
  intros Hne [[H1 H2] | [H1 H2]].
  - apply Hratio; lra.
  - replace ((x - lo) / (hi - lo)) with ((lo - x) / (lo - hi)) by (field; lra).
    apply Hratio; lra.
Qed.

Lemma normalize_inverse (lo hi x : R) (unbounded : bool) :
  lo <> hi -> lo <= x <= hi \/ hi <= x <= lo ->
  lo + (if unbounded then (x - lo) / (hi - lo)
        else np_clip ((x - lo) / (hi - lo)) 0 1) * (hi - lo) = x.
Proof.
  intros Hne Hx.
  rewrite (np_clip_inside _ 0 1) by (apply normalize_unit; assumption).
  destruct unbounded; field; lra.
Qed.

Lemma py_eqb_sym (a b : pyval) : py_eqb a b = py_eqb b a.
Proof.
  unfold py_eqb.
  destruct (as_num a) as [x | ] eqn:Ea, (as_num b) as [y | ] eqn:Eb.
  - unfold Reqb. destruct (Req_dec_T x y), (Req_dec_T y x); congruence.
  - destruct a, b; try discriminate; reflexivity.
  - destruct a, b; try discriminate; reflexivity.
  - destruct a, b; try discriminate; try reflexivity. apply String.eqb_sym.
Qed.

Lemma py_eqb_num (v : pyval) :
  numeric v -> py_eqb (PFloat (num_of v)) v = true.
Proof.
  unfold numeric, py_eqb, num_of. simpl.
  destruct (as_num v) as [x | ]; [intros _; apply Reqb_refl | congruence].
Qed.

Lemma columns_equal_map (g : pyval -> pyval) (X : list pyval) :
  (forall v, In v X -> py_eqb (g v) v = true) -> columns_equal (map g X) X.
Proof.
  unfold columns_equal. induction X as [ | v r IH]; intros Hg; simpl; constructor.
  - apply Hg. left. reflexivity.
  - apply IH. intros u Hu. apply Hg. right. exact Hu.
Qed.

Lemma elementwise_Arr1_map (f : pyval -> result pyval) (h g : pyval -> pyval)
    (X : list pyval) :
  (forall v, In v X -> f (h v) = Ok (g v)) ->
  elementwise f (Arr1 (map h X)) = Ok (Arr1 (map g X)).
Proof.
  intros Hfg. simpl. rewrite mapM_compose, (mapM_map _ g X Hfg). reflexivity.
Qed.

Section RoundTrip.

Context `{PyRuntime}.

Lemma inverse_LogN (base : R) (X : list pyval) :
  0 < base -> base <> 1 ->
  (forall v, In v X -> 0 < num_of v) ->
  transformer_inverse_transform (LogN base)
    (Arr1 (map (fun v => PFloat (log10 (num_of v) / log10 base)) X))
  = Ok (Arr1 (map (fun v => PFloat (num_of v)) X)).
Proof.
  intros Hb Hne HX. cbn [transformer_inverse_transform].
  apply elementwise_Arr1_map. intros v Hv.
  unfold LogN_inverse_transform, as_float. simpl.
  rewrite Rpower_log by (try assumption; apply HX; exact Hv). reflexivity.
Qed.

Lemma inverse_Normalize (lo hi : R) (unbounded : bool) (X : list pyval) :
  lo < hi ->
  (forall v, In v X -> lo <= num_of v <= hi) ->
  transformer_inverse_transform
    (Pipeline [Identity; Normalize lo hi false unbounded None])
    (Arr1 (map (fun v => PFloat ((num_of v - lo) / (hi - lo))) X))
  = Ok (Arr1 (map (fun v => PFloat (num_of v)) X)).
Proof.
  intros Hlh HX. cbn [transformer_inverse_transform bind].
  rewrite (elementwise_Arr1_map _ _ (fun v => PFloat (num_of v))).
  - reflexivity.
  - intros v Hv. unfold Normalize_inverse_transform, as_float. simpl.
    rewrite normalize_inverse by (try lra; left; apply HX; exact Hv).
    reflexivity.
Qed.

Lemma inverse_Normalize_int (lo hi : R) (X : list pyval) :
  lo < hi ->
  (forall v, In v X -> num_of v = IZR (int_value v) /\ lo <= num_of v <= hi) ->
  transformer_inverse_transform
    (Pipeline [Identity; Normalize lo hi true false None])
    (Arr1 (map (fun v => PFloat ((num_of v - lo) / (hi - lo))) X))
  = Ok (Arr1 (map (fun v => PInt (int_value v)) X)).
Proof.
  intros Hlh HX. cbn [transformer_inverse_transform bind].
  rewrite (elementwise_Arr1_map _ _ (fun v => PInt (int_value v))).
  - reflexivity.
  - intros v Hv. destruct (HX v Hv) as [Hz Hin].
    unfold Normalize_inverse_transform, as_float. simpl.
    rewrite (normalize_inverse lo hi (num_of v) false) by (try lra; left; exact Hin).
    rewrite Hz, np_round_IZR. reflexivity.
Qed.

Lemma inverse_LogN_Normalize (base lo hi : R) (unbounded : bool)
    (X : list pyval) :
  0 < base -> base <> 1 -> 0 < lo -> lo < hi ->
  (forall v, In v X -> lo <= num_of v <= hi) ->
  transformer_inverse_transform
    (Pipeline [LogN base;
               Normalize (log10 lo / log10 base) (log10 hi / log10 base)
                         false unbounded None])
    (Arr1 (map (fun v => PFloat ((log10 (num_of v) / log10 base
                                  - log10 lo / log10 base)
                                 / (log10 hi / log10 base
                                    - log10 lo / log10 base))) X))
  = Ok (Arr1 (map (fun v => PFloat (num_of v)) X)).
Proof.
  intros Hb Hne Hlo Hlh HX. cbn [transformer_inverse_transform bind].
  rewrite (elementwise_Arr1_map _ _
             (fun v => PFloat (log10 (num_of v) / log10 base))).
  - cbn [bind]. apply elementwise_Arr1_map. intros v Hv.
    unfold LogN_inverse_transform, as_float. simpl.
    rewrite Rpower_log; [reflexivity | exact Hb | exact Hne | ].
    destruct (HX v Hv). lra.
  - intros v Hv.
    destruct (log_base_between base lo hi (num_of v) Hb Hne Hlo Hlh (HX v Hv))
      as [Hdiff Hbetween].
    unfold Normalize_inverse_transform, as_float. simpl.
    rewrite normalize_inverse by assumption. reflexivity.
Qed.

(** The last step of [Real.inverse_transform], on binary64 numbers within
    the bounds and for a dtype that holds them. *)
Lemma Real_finish (dt : Dtype) (lo hi : R) (h : pyval -> pyval) (X : list pyval) :
  float_format dt = None -> binary64 lo -> binary64 hi ->
  (forall v, In v X ->
             as_num (h v) = Some (num_of v) /\ lo <= num_of v <= hi
             /\ binary64 (num_of v)) ->
  elementwise
    (fun v => x <- as_float v ;;
              Ok (PFloat (astype_float dt
                            (np_clip (to_float x) (to_float lo) (to_float hi)))))
    (Arr1 (map h X))
  = Ok (Arr1 (map (fun v => PFloat (num_of v)) X)).
Proof.
  unfold binary64. intros Hdt Hlo Hhi HX. apply elementwise_Arr1_map. intros v Hv.
  destruct (HX v Hv) as [Hn [Hin Hv64]]. unfold as_float. rewrite Hn.
  cbn [bind]. unfold astype_float. rewrite Hdt, Hlo, Hhi, Hv64.
  rewrite np_clip_inside by exact Hin. reflexivity.
Qed.

(** The last step of [Integer.inverse_transform], whichever way the array
    is clipped, on numbers that the conversion leaves as they are. *)
Lemma Integer_finish (dt : Dtype) (conv : R -> R) (lo hi : R)
    (h : pyval -> pyval) (X : list pyval) :
  conv lo = lo -> conv hi = hi ->
  (forall v, In v X ->
             as_num (h v) = Some (IZR (int_value v))
             /\ lo <= IZR (int_value v) <= hi
             /\ astype_int dt (int_value v) = int_value v
             /\ conv (IZR (int_value v)) = IZR (int_value v)) ->
  elementwise
    (fun v => x <- as_float v ;;
              Ok (PInt (astype_int dt
                          (np_round (np_clip (conv x) (conv lo) (conv hi))))))
    (Arr1 (map h X))
  = Ok (Arr1 (map (fun v => PInt (int_value v)) X)).
Proof.
  intros Hlo Hhi HX. apply elementwise_Arr1_map. intros v Hv.
  destruct (HX v Hv) as [Hn [Hin [Hfit Hconv]]]. unfold as_float. rewrite Hn.
  cbn [bind]. rewrite Hlo, Hhi, Hconv.
  rewrite np_clip_inside by exact Hin. rewrite np_round_IZR, Hfit. reflexivity.
Qed.

Lemma Real_member_bounds (d : Real.t) (v : pyval) :
  Real.__contains__ d v = Ok true ->
  numeric v /\ Real.low d <= num_of v <= Real.high d.
Proof.
  intros Hc. pose proof (Real_contains_num d v true Hc) as Hn.
  split; [exact Hn | ].
  unfold Real.__contains__ in Hc. rewrite as_float_num in Hc by exact Hn.
  simpl in Hc. injection Hc as Hc. apply andb_true_iff in Hc.
  destruct Hc as [H1 H2]. split; apply Rleb_true_inv; assumption.
Qed.

Lemma Integer_member_bounds (d : Integer.t) (v : pyval) :
  Integer.__contains__ d v = Ok true ->
  numeric v /\ Integer.low d <= num_of v <= Integer.high d.
Proof.
  intros Hc. pose proof (Integer_contains_num d v true Hc) as Hn.
  split; [exact Hn | ].
  unfold Integer.__contains__ in Hc. rewrite as_float_num in Hc by exact Hn.
  simpl in Hc. injection Hc as Hc. apply andb_true_iff in Hc.
  destruct Hc as [H1 H2]. split; apply Rleb_true_inv; assumption.
Qed.

Lemma Integral_value (v : pyval) :
  is_Integral v = true ->
  as_num v = Some (IZR (int_value v)) /\ num_of v = IZR (int_value v)
  /\ py_eqb (PInt (int_value v)) v = true.
Proof.
  destruct v as [ | [ | ] | z | r | s]; simpl; try discriminate; intros _;
    unfold num_of, py_eqb; simpl; repeat split; try reflexivity;
    apply Reqb_refl.
Qed.

Lemma as_num_num_of (v : pyval) : numeric v -> as_num v = Some (num_of v).
Proof.
  unfold numeric, num_of. destruct (as_num v); [reflexivity | congruence].
Qed.

(** [Real]: the round trip of a column of members returns their values. *)
Lemma Real_roundtrip (d : Real.t) (X : list pyval) :
  Real_configured d ->
  Real.low d < Real.high d ->
  Real.log_base d = log10 (Real.base d) ->
  float_format (Real.dtype d) = None ->
  binary64 (Real.low d) -> binary64 (Real.high d) ->
  Forall (fun v => binary64 (num_of v)) X ->
  log_ready (Real.prior d) (Real.transform_ d) (Real.low d) (Real.base d) X ->
  Forall (fun v => Real.__contains__ d v = Ok true) X ->
  (Xt <- Real.transform d X ;; Real.inverse_transform d Xt)
  = Ok (Arr1 (map (fun v => PFloat (num_of v)) X)).
Proof.
  intros Hconf Hlh Hlb Hdt Hlo64 Hhi64 H64 Hlog HX.
  rewrite Forall_forall in H64.
  assert (Hb : forall v, In v X ->
                         numeric v /\ Real.low d <= num_of v <= Real.high d).
  { rewrite Forall_forall in HX. intros v Hv.
    apply Real_member_bounds. apply HX. exact Hv. }
  assert (Hnum : Forall numeric X).
  { apply Forall_forall. intros v Hv. apply (Hb v Hv). }
  assert (Hlast : forall v, In v X ->
                            as_num (PFloat (num_of v)) = Some (num_of v)
                            /\ Real.low d <= num_of v <= Real.high d
                            /\ binary64 (num_of v)).
  { intros v Hv. split; [reflexivity | ]. split; [apply (Hb v Hv) | apply H64; exact Hv]. }
  unfold Real.transform, Real.inverse_transform.
  destruct (Real_configured_inv d Hconf)
    as [[Hmode [[_ Htr] | [Hp Htr]]] | [unb [Hmode [[_ Htr] | [Hp Htr]]]]];
    try rewrite Hlb in Htr; rewrite Htr.
  - cbn [Dimension_transform transformer_transform bind
         Dimension_inverse_transform transformer_inverse_transform].
    rewrite <- (map_id X) at 1. apply Real_finish; try assumption. intros v Hv.
    destruct (Hb v Hv) as [Hn Hin].
    split; [apply as_num_num_of; exact Hn | ]. split; [exact Hin | apply H64; exact Hv].
  - destruct (Hlog Hp) as [Hbase [Hne [Hpos _]]]. rewrite Forall_forall in Hpos.
    rewrite transform_LogN by exact Hnum. cbn [bind Dimension_inverse_transform].
    rewrite inverse_LogN by assumption.
    cbn [bind]. apply Real_finish; assumption.
  - rewrite transform_Normalize by exact Hnum.
    cbn [bind Dimension_inverse_transform].
    rewrite inverse_Normalize; [ | exact Hlh | intros v Hv; apply (Hb v Hv)].
    cbn [bind]. apply Real_finish; assumption.
  - destruct (Hlog Hp) as [Hbase [Hne [_ Hlow]]].
    assert (Hlow' : 0 < Real.low d).
    { apply Hlow. destruct Hmode as [Hm | Hm]; rewrite Hm; reflexivity. }
    rewrite transform_LogN_Normalize by exact Hnum.
    cbn [bind Dimension_inverse_transform].
    rewrite inverse_LogN_Normalize;
      [ | exact Hbase | exact Hne | exact Hlow' | exact Hlh
        | intros v Hv; apply (Hb v Hv)].
    cbn [bind]. apply Real_finish; assumption.
Qed.

(** [Integer]: the round trip of a column of whole members that the dtype
    can hold returns them. *)
Lemma Integer_roundtrip (d : Integer.t) (X : list pyval) :
  Integer_configured d ->
  Integer.low d < Integer.high d ->
  Integer.log_base d = log10 (Integer.base d) ->
  Forall (fun v => astype_int (Integer.dtype d) (int_value v) = int_value v) X ->
  binary64 (Integer.low d) -> binary64 (Integer.high d) ->
  Forall (fun v => binary64 (num_of v)) X ->
  log_ready (Integer.prior d) (Integer.transform_ d) (Integer.low d)
            (Integer.base d) X ->
  Forall (fun v => Integer.__contains__ d v = Ok true /\ is_Integral v = true) X ->
  (Xt <- Integer.transform d X ;; Integer.inverse_transform d Xt)
  = Ok (Arr1 (map (fun v => PInt (int_value v)) X)).
Proof.
  intros Hconf Hlh Hlb Hfit Hlo64 Hhi64 H64 Hlog HX.
  rewrite Forall_forall in Hfit, HX, H64.
  assert (Hb : forall v, In v X ->
                         numeric v
                         /\ Integer.low d <= num_of v <= Integer.high d
                         /\ num_of v = IZR (int_value v)).
  { intros v Hv. destruct (HX v Hv) as [Hc Hi].
    destruct (Integer_member_bounds d v Hc) as [Hn Hin].
    destruct (Integral_value v Hi) as [_ [Hz _]]. repeat split; tauto. }
  assert (Hnum : Forall numeric X).
  { apply Forall_forall. intros v Hv. apply (Hb v Hv). }
  assert (Hconv : forall (inv : ndarray) (x : R),
             binary64 x ->
             (if Integer.clips_integers d inv then fun x : R => x else to_float) x
             = x).
  { intros inv x Hx. destruct (Integer.clips_integers d inv); [reflexivity | exact Hx]. }
  assert (Hlast : forall (inv : ndarray) v, In v X ->
             as_num (PFloat (num_of v)) = Some (IZR (int_value v))
             /\ Integer.low d <= IZR (int_value v) <= Integer.high d
             /\ astype_int (Integer.dtype d) (int_value v) = int_value v
             /\ (if Integer.clips_integers d inv then fun x : R => x else to_float)
                  (IZR (int_value v)) = IZR (int_value v)).
  { intros inv v Hv. destruct (Hb v Hv) as [_ [Hin Hz]]. simpl. rewrite <- Hz.
    split; [reflexivity | ]. split; [exact Hin | ].
    split; [apply Hfit; exact Hv | apply Hconv; apply H64; exact Hv]. }
  unfold Integer.transform, Integer.inverse_transform.
  destruct (Integer_configured_inv d Hconf)
    as [[Hmode [[_ Htr] | [Hp Htr]]] | [Hmode [[_ Htr] | [Hp Htr]]]];
    try rewrite Hlb in Htr; rewrite Htr.
  - cbn [Dimension_transform transformer_transform bind
         Dimension_inverse_transform transformer_inverse_transform].
    cbv zeta.
    set (conv := if Integer.clips_integers d (Arr1 X)
                 then fun x : R => x else to_float).
    rewrite <- (map_id X) at 1.
    apply Integer_finish; subst conv; try (apply Hconv; assumption).
    intros v Hv.
    destruct (Hlast (Arr1 X) v Hv) as [_ Hrest]. split; [ | exact Hrest].
    destruct (HX v Hv) as [_ Hi]. apply (Integral_value v Hi).
  - destruct (Hlog Hp) as [Hbase [Hne [Hpos _]]]. rewrite Forall_forall in Hpos.
    rewrite transform_LogN by exact Hnum. cbn [bind Dimension_inverse_transform].
    rewrite inverse_LogN by assumption.
    cbn [bind]. cbv zeta.
    apply Integer_finish; try (apply Hconv; assumption). apply Hlast.
  - rewrite transform_Normalize by exact Hnum.
    cbn [bind Dimension_inverse_transform].
    rewrite inverse_Normalize_int;
      [ | exact Hlh | intros v Hv; destruct (Hb v Hv); tauto].
    cbn [bind]. cbv zeta.
    apply Integer_finish; try (apply Hconv; assumption). intros v Hv.
    destruct (Hlast (Arr1 (map (fun v => PInt (int_value v)) X)) v Hv)
      as [_ Hrest].
    split; [reflexivity | exact Hrest].
  - destruct (Hlog Hp) as [Hbase [Hne [_ Hlow]]].
    assert (Hlow' : 0 < Integer.low d).
    { apply Hlow. rewrite Hmode. reflexivity. }
    rewrite transform_LogN_Normalize by exact Hnum.
    cbn [bind Dimension_inverse_transform].
    rewrite inverse_LogN_Normalize;
      [ | exact Hbase | exact Hne | exact Hlow' | exact Hlh
        | intros v Hv; destruct (Hb v Hv); tauto].
    cbn [bind]. cbv zeta.
    apply Integer_finish; try (apply Hconv; assumption). apply Hlast.
Qed.

Lemma category_of_member (cats : list pyval) (v : pyval) :
  member cats v ->
  nth_error cats (position_of cats v) = Some (category_of cats v)
  /\ py_eqb (category_of cats v) v = true
  /\ (position_of cats v < length cats)%nat.
Proof.
  intros Hm. destruct (index_of_member cats v Hm) as [_ [Hlt [c [Hnth Heq]]]].
  unfold category_of. rewrite (nth_error_nth _ _ PNone Hnth).
  rewrite py_eqb_sym. repeat split; assumption.
Qed.

Lemma inverse_LabelEncoder (cats : list pyval) (v : pyval) :
  member cats v ->
  LabelEncoder_inverse_transform cats (PInt (Z.of_nat (position_of cats v)))
  = Ok (category_of cats v).
Proof.
  intros Hm. destruct (category_of_member cats v Hm) as [Hnth _].
  unfold LabelEncoder_inverse_transform.
  destruct (Z.leb_spec 0 (Z.of_nat (position_of cats v))) as [_ | Hneg]; [ | lia].
  rewrite Nat2Z.id, Hnth. reflexivity.
Qed.

Lemma tuple_eqb_map_false (f g : nat -> pyval) (l : list nat) (j : nat) :
  In j l -> py_eqb (f j) (g j) = false ->
  tuple_eqb (map f l) (map g l) = false.
Proof.
  induction l as [ | x r IH]; simpl; [intros [] | ].
  intros [-> | Hin] Hfg.
  - rewrite Hfg. reflexivity.
  - rewrite (IH Hin Hfg). apply andb_false_r.
Qed.

(** Two positions have the same one-hot code only when they are equal. *)
Lemma onehot_row_eqb (cats : list pyval) (i p : nat) :
  (i < length cats)%nat ->
  tuple_eqb (onehot_row cats i) (onehot_row cats p) = Nat.eqb i p.
Proof.
  intros Hi. destruct (Nat.eqb_spec i p) as [-> | Hne];
    [apply tuple_eqb_refl | ].
  unfold onehot_row. destruct (Nat.eqb (length cats) 2).
  - simpl. unfold py_eqb. simpl. rewrite Reqb_false; [reflexivity | ].
    intros E. apply INR_eq in E. contradiction.
  - apply (tuple_eqb_map_false _ _ _ i).
    + apply in_seq. lia.
    + rewrite Nat.eqb_refl.
      destruct (Nat.eqb_spec i p) as [E | _]; [contradiction | ].
      unfold py_eqb. simpl. apply Reqb_false. lra.
Qed.

Lemma find_seq_position (f : nat -> bool) (s n p : nat) :
  (s <= p < s + n)%nat ->
  (forall i, (s <= i < s + n)%nat -> f i = Nat.eqb i p) ->
  find f (seq s n) = Some p.
Proof.
  revert s. induction n as [ | n IH]; intros s Hp Hf; [lia | ].
  simpl. rewrite (Hf s) by lia.
  destruct (Nat.eqb_spec s p) as [-> | Hne]; [reflexivity | ].
  apply IH; [lia | ]. intros i Hi. apply Hf. lia.
Qed.

Lemma inverse_CategoricalEncoder (cats : list pyval) (v : pyval) :
  member cats v ->
  CategoricalEncoder_inverse_transform cats
    (onehot_row cats (position_of cats v))
  = Ok (category_of cats v).
Proof.
  intros Hm. destruct (category_of_member cats v Hm) as [Hnth [_ Hlt]].
  unfold CategoricalEncoder_inverse_transform.
  rewrite (find_seq_position _ 0 (length cats) (position_of cats v)).
  - rewrite Hnth. reflexivity.
  - lia.
  - intros i Hi. apply onehot_row_eqb. lia.
Qed.

Lemma inverse_StringEncoder (cats X : list pyval) (v : pyval) :
  str_faithful (cats ++ X) ->
  member cats v -> In v X ->
  StringEncoder_inverse_transform cats (PStr (py_str v))
  = Ok (string_match cats v)
  /\ py_eqb (string_match cats v) v = true.
Proof.
  intros Hfaith Hm Hv. unfold StringEncoder_inverse_transform, string_match.
  destruct (find (fun c => String.eqb (py_str c) (py_str v)) cats) as [c | ] eqn:Hfind.
  - split; [reflexivity | ].
    apply find_some in Hfind. destruct Hfind as [Hc Hstr].
    apply String.eqb_eq in Hstr.
    apply (Hfaith c v); [apply in_or_app; left; exact Hc
                        | apply in_or_app; right; exact Hv | exact Hstr].
  - exfalso. destruct (category_of_member cats v Hm) as [Hnth [Heq _]].
    apply nth_error_In in Hnth.
    pose proof (find_none _ _ Hfind _ Hnth) as Hno. simpl in Hno.
    apply String.eqb_neq in Hno. apply Hno.
    apply (Hfaith (category_of cats v) v);
      [apply in_or_app; left; exact Hnth
      | apply in_or_app; right; exact Hv | exact Heq].
Qed.

Lemma inverse_Label_Normalize (cats : list pyval) (v : pyval) :
  (2 <= length cats)%nat ->
  member cats v ->
  Normalize_inverse_transform 0 (INR (length cats) - 1) true false
    (Some (length cats))
    (PFloat ((IZR (Z.of_nat (position_of cats v)) - 0)
             / (INR (length cats) - 1 - 0)))
  = Ok (PInt (Z.of_nat (position_of cats v))).
Proof.
  intros Hn Hm. destruct (category_of_member cats v Hm) as [_ [_ Hlt]].
  unfold Normalize_inverse_transform, as_float. simpl.
  assert (Hhi : 0 < INR (length cats) - 1).
  { apply le_INR in Hn. simpl in Hn. lra. }
  assert (Hp : 0 <= IZR (Z.of_nat (position_of cats v)) <= INR (length cats) - 1).
  { rewrite <- INR_IZR_INZ. split; [apply pos_INR | ].
    assert (Hle : (S (position_of cats v) <= length cats)%nat) by lia.
    apply le_INR in Hle. rewrite S_INR in Hle. lra. }
  rewrite (normalize_inverse 0 (INR (length cats) - 1) _ false)
    by (try lra; left; exact Hp).
  rewrite np_round_IZR. f_equal. f_equal. lia.
Qed.

(** The pipeline of a [Categorical]: the inverse of the transform of a
    column of members returns values equal to them. *)
Lemma Categorical_pipeline_roundtrip (d : Categorical.t) (X : list pyval) :
  Categorical_configured d ->
  (Categorical.transform_ d = "string"%string ->
   str_faithful (Categorical.categories d ++ X)) ->
  (str_in "normalize" (Categorical.transform_ d) = true ->
   (2 <= length (Categorical.categories d))%nat) ->
  Forall (member (Categorical.categories d)) X ->
  exists X' : list pyval,
    (Xt <- Categorical.transform d X ;;
     Dimension_inverse_transform (Categorical.transformer d) Xt)
    = Ok (Arr1 X')
    /\ columns_equal X' X.
Proof.
  intros Hconf Hstr Hnorm HX.
  pose proof HX as Hmem. rewrite Forall_forall in Hmem.
  unfold Categorical.transform.
  destruct (Categorical_configured_inv d Hconf)
    as [[Hm Htr] | [[Hm Htr] | [[Hm Htr] | [[Hm Htr] | [Hm Htr]]]]];
    rewrite Htr.
  - exists (map (category_of (Categorical.categories d)) X). split.
    + rewrite transform_CategoricalEncoder by exact HX.
      cbn [bind Dimension_inverse_transform transformer_inverse_transform].
      rewrite mapM_compose.
      rewrite (mapM_map _ (category_of (Categorical.categories d))).
      * reflexivity.
      * intros v Hv. apply inverse_CategoricalEncoder. apply Hmem. exact Hv.
    + apply columns_equal_map. intros v Hv.
      apply category_of_member. apply Hmem. exact Hv.
  - exists (map (string_match (Categorical.categories d)) X). split.
    + rewrite transform_StringEncoder.
      cbn [bind Dimension_inverse_transform transformer_inverse_transform].
      apply elementwise_Arr1_map. intros v Hv.
      apply (inverse_StringEncoder _ X); [apply Hstr; exact Hm | apply Hmem | ];
        exact Hv.
    + apply columns_equal_map. intros v Hv.
      apply (inverse_StringEncoder _ X); [apply Hstr; exact Hm | apply Hmem | ];
        exact Hv.
  - exists (map (category_of (Categorical.categories d)) X). split.
    + rewrite transform_LabelEncoder by exact HX.
      cbn [bind Dimension_inverse_transform transformer_inverse_transform].
      apply elementwise_Arr1_map. intros v Hv.
      apply inverse_LabelEncoder. apply Hmem. exact Hv.
    + apply columns_equal_map. intros v Hv.
      apply category_of_member. apply Hmem. exact Hv.
  - exists (map (category_of (Categorical.categories d)) X). split.
    + rewrite transform_Label_Normalize by exact HX.
      cbn [bind Dimension_inverse_transform transformer_inverse_transform].
      rewrite (elementwise_Arr1_map _ _
                 (fun v => PInt (Z.of_nat
                                   (position_of (Categorical.categories d) v)))).
      * cbn [bind]. apply elementwise_Arr1_map. intros v Hv.
        apply inverse_LabelEncoder. apply Hmem. exact Hv.
      * intros v Hv. apply inverse_Label_Normalize; [ | apply Hmem; exact Hv].
        apply Hnorm. destruct Hm as [Hm | Hm]; rewrite Hm; reflexivity.
    + apply columns_equal_map. intros v Hv.
      apply category_of_member. apply Hmem. exact Hv.
  - exists X. split; [reflexivity | ].
    rewrite <- (map_id X) at 1. apply columns_equal_map.
    intros v _. apply py_eqb_refl.
Qed.

(** Two equal values are both [None], both strings, or both numbers. *)
Lemma py_eqb_kinds (x' x : pyval) :
  py_eqb x' x = true ->
  is_None x' = is_None x /\ is_str x' = is_str x /\ num_of x' = num_of x.
Proof.
  unfold py_eqb, num_of.
  destruct x' as [ | b' | z' | r' | s'], x as [ | b | z | r | s];
    cbn [as_num is_None is_str]; intros E; try discriminate E;
    repeat split; try reflexivity; apply Reqb_true_inv; exact E.
Qed.

Lemma existsb_kinds (f : pyval -> bool) (X' X : list pyval) :
  Forall2 (fun x' x => f x' = f x) X' X -> existsb f X' = existsb f X.
Proof.
  induction 1 as [ | x' x r' r Hx _ IH]; [reflexivity | ].
  simpl. rewrite Hx, IH. reflexivity.
Qed.

(** What [np.array] makes of a value is equal to the value, unless it makes
    a string of a value that is none, or a float of an [int] that binary64
    does not hold. *)
Lemma as_type_equal (t : array_type) (x' x : pyval) :
  py_eqb x' x = true ->
  (t = of_strings -> is_str x = true) ->
  binary64 (num_of x) ->
  py_eqb (as_type t x') x = true.
Proof.
  intros Heq Hstr H64. destruct (py_eqb_kinds x' x Heq) as [_ [Hs Hn]].
  destruct t; cbn [as_type]; try exact Heq.
  - specialize (Hstr eq_refl). rewrite <- Hs in Hstr.
    destruct x' as [ | b' | z' | r' | s']; try discriminate Hstr.
    exact Heq.
  - destruct x' as [ | b' | z' | r' | s']; try exact Heq.
    change (num_of (PInt z')) with (IZR z') in Hn. rewrite <- Hn in H64.
    unfold binary64 in H64. rewrite H64. exact Heq.
  - destruct x' as [ | [ | ] | z' | r' | s']; exact Heq.
Qed.

(** The array that [np.array] makes of a column equal to [X]. *)
Lemma np_array_equal (X' X : list pyval) :
  columns_equal X' X ->
  (common_type X = of_strings -> Forall (fun v => is_str v = true) X) ->
  Forall (fun v => binary64 (num_of v)) X ->
  columns_equal (map (as_type (common_type X')) X') X.
Proof.
  intros Heq Hstr H64.
  assert (Htype : common_type X' = of_strings -> common_type X = of_strings).
  { unfold common_type.
    rewrite (existsb_kinds is_None X' X), (existsb_kinds is_str X' X).
    - destruct (existsb is_None X); [discriminate | ].
      destruct (existsb is_str X); [reflexivity | ].
      destruct (existsb is_float X');
        [discriminate | destruct (existsb _ X'); discriminate].
    - eapply Forall2_impl; [ | exact Heq]. intros a b Hab.
      apply (py_eqb_kinds a b Hab).
    - eapply Forall2_impl; [ | exact Heq]. intros a b Hab.
      apply (py_eqb_kinds a b Hab). }
  generalize (common_type X') Htype. intros t Ht.
  assert (Hall : t = of_strings -> Forall (fun v => is_str v = true) X).
  { intros E. apply Hstr, Ht, E. }
  clear Hstr Ht Htype. unfold columns_equal in *.
  induction Heq as [ | x' x r' r Hx Hr IH]; [constructor | ].
  simpl. constructor.
  - apply as_type_equal; [exact Hx | | ].
    + intros E. specialize (Hall E). inversion Hall. assumption.
    + inversion H64. assumption.
  - apply IH.
    + inversion H64. assumption.
    + intros E. specialize (Hall E). inversion Hall. assumption.
Qed.

(** [Categorical]: the round trip of a column of members returns values
    equal to them. *)
Lemma Categorical_roundtrip (d : Categorical.t) (X : list pyval) :
  Categorical_configured d ->
  (Categorical.transform_ d = "string"%string ->
   str_faithful (Categorical.categories d ++ X)) ->
  (str_in "normalize" (Categorical.transform_ d) = true ->
   (2 <= length (Categorical.categories d))%nat) ->
  (common_type X = of_strings -> Forall (fun v => is_str v = true) X) ->
  Forall (fun v => binary64 (num_of v)) X ->
  Forall (member (Categorical.categories d)) X ->
  exists X' : list pyval,
    (Xt <- Categorical.transform d X ;; Categorical.inverse_transform d Xt)
    = Ok (Arr1 X')
    /\ columns_equal X' X.
Proof.
  intros Hconf Hstr Hnorm Hmix H64 HX.
  destruct (Categorical_pipeline_roundtrip d X Hconf Hstr Hnorm HX)
    as [X0 [Hrun Heq]].
  exists (map (as_type (common_type X0)) X0). split.
  - unfold Categorical.inverse_transform.
    destruct (Categorical.transform d X) as [Xt | e]; cbn [bind] in *;
      [ | discriminate].
    rewrite Hrun. reflexivity.
  - apply np_array_equal; assumption.
Qed.

Lemma elementwise_outputs (f : pyval -> result pyval) (X Y : ndarray) (y : pyval) :
  elementwise f X = Ok Y -> In y (flatten Y) -> exists x, f x = Ok y.
Proof.
  assert (Hrow : forall l l', mapM f l = Ok l' -> In y l' -> exists x, f x = Ok y).
  { induction l as [ | x r IH]; simpl; intros l' Hl Hy.
    - injection Hl as <-. destruct Hy.
    - destruct (f x) as [y0 | e] eqn:Hx; simpl in Hl; [ | discriminate].
      destruct (mapM f r) as [ys | e]; simpl in Hl; [ | discriminate].
      injection Hl as <-. destruct Hy as [<- | Hy].
      + exists x. exact Hx.
      + apply (IH ys); [reflexivity | exact Hy]. }
  destruct X as [l | rows k]; simpl.
  - destruct (mapM f l) as [l' | e] eqn:Hl; simpl; [ | discriminate].
    intros E. injection E as <-. simpl. apply (Hrow l l' Hl).
  - destruct (mapM (mapM f) rows) as [rows' | e] eqn:Hrows; simpl; [ | discriminate].
    intros E. injection E as <-. simpl. revert rows' Hrows.
    induction rows as [ | r rows IH]; simpl; intros rows' Hrows Hy.
    + injection Hrows as <-. destruct Hy.
    + destruct (mapM f r) as [r' | e] eqn:Hr; simpl in Hrows; [ | discriminate].
      destruct (mapM (mapM f) rows) as [rs | e]; simpl in Hrows; [ | discriminate].
      injection Hrows as <-. simpl in Hy. apply in_app_or in Hy.
      destruct Hy as [Hy | Hy].
      * apply (Hrow r r' Hr Hy).
      * apply (IH rs); [reflexivity | exact Hy].
Qed.

Lemma columns_close_values (X : list pyval) :
  Forall numeric X -> columns_close (map (fun v => PFloat (num_of v)) X) X.
Proof.
  unfold columns_close. induction 1 as [ | v r Hv _ IH]; simpl; constructor.
  - unfold close. cbn [as_num]. rewrite (as_num_num_of v Hv).
    apply allclose1_refl.
  - exact IH.
Qed.


End RoundTrip.

Lemma integer_int8_built :
  Integer.__init__ 0 1000 "uniform" 10 None PNone (np_signed 8) = Ok integer_int8.
Proof.
  unfold Integer.__init__. rewrite Rleb_false by lra. reflexivity.
Qed.

Lemma integer_int8_contains_300 :
  Integer.__contains__ integer_int8 (PInt 300) = Ok true.
Proof.
  unfold Integer.__contains__. simpl. rewrite !Rleb_true by lra. reflexivity.
Qed.


(** In mode [string], two categories with one string form are not told
    apart: ["1"] comes back as [1]. *)
Lemma roundtrip_string_collision :
  Categorical.__contains__ cat_1_str1 (PStr "1") = true
  /\ (Xt <- @dim_transform example_runtime (DCategorical cat_1_str1) [PStr "1"] ;;
      @dim_inverse_transform example_runtime (DCategorical cat_1_str1) Xt)
     = Ok (Arr1 [PInt 1])
  /\ py_eqb (PInt 1) (PStr "1") = false.
Proof. repeat split; reflexivity. Qed.

Lemma binary64_IZR (z : Z) : (Z.abs z <= 2 ^ 53)%Z -> binary64 (IZR z).
Proof. apply to_float_IZR. Qed.

Lemma binary64_2_54 : binary64 18014398509481984.
Proof.
  apply (round_to_format_exact 53 (-1022) 1 54); [ | lia | lia | lia].
  rewrite pow2_IZR by lia. rewrite <- mult_IZR. reflexivity.
Qed.

Lemma real_float16_built :
  Real.__init__ 0 2051 "uniform" 10 None PNone (np_floating 16) = Ok real_float16.
Proof.
  unfold Real.__init__. rewrite Rleb_false by lra. reflexivity.
Qed.

(** A dtype narrower than binary64 does not hold the values: 2051 is a
    value of [Real(0, 2051, dtype=np.float16)], and the round trip returns
    2052, the nearest number of binary16, which is outside the tolerance
    and above the upper bound. *)
Lemma roundtrip_float16 :
  Real.__init__ 0 2051 "uniform" 10 None PNone (np_floating 16) = Ok real_float16
  /\ in_domain (DReal real_float16) (PFloat 2051)
  /\ binary64 2051
  /\ (Xt <- @dim_transform example_runtime (DReal real_float16) [PFloat 2051] ;;
      @dim_inverse_transform example_runtime (DReal real_float16) Xt)
     = Ok (Arr1 [PFloat 2052])
  /\ allclose1 2052 2051 = false
  /\ Real.high real_float16 < 2052.
Proof.
  split; [exact real_float16_built | ].
  split; [ | split; [apply binary64_IZR; cbn; lia | split; [ | split]]].
  - unfold in_domain, dim_member. cbn [dim_contains].
    unfold Real.__contains__. cbn. rewrite !Rleb_true by lra. reflexivity.
  - cbn [dim_transform dim_inverse_transform bind]. unfold Real.transform.
    cbn [real_float16 Real.transformer Dimension_transform transformer_transform
         bind].
    unfold Real.inverse_transform.
    cbn [real_float16 Real.transformer Real.low Real.high Real.dtype
         Dimension_inverse_transform transformer_inverse_transform bind
         elementwise mapM].
    unfold as_float. cbn [as_num bind].
    rewrite (to_float_IZR 2051), (to_float_IZR 0) by (cbn; lia).
    rewrite np_clip_inside by lra.
    unfold astype_float. cbn [float_format Z.eqb Pos.eqb].
    rewrite binary16_2051. reflexivity.
  - unfold allclose1. apply Rleb_false.
    replace (2052 - 2051) with 1 by lra.
    rewrite Rabs_R1, (Rabs_pos_eq 2051) by lra. lra.
  - cbn. lra.
Qed.

Lemma real_0_2_54_built :
  Real.__init__ 0 18014398509481984 "uniform" 10 None PNone py_float
  = Ok real_0_2_54.
Proof.
  unfold Real.__init__. rewrite Rleb_false by lra. reflexivity.
Qed.

(** An [int] that binary64 does not hold is not returned: [2 ** 53 + 1] is
    a value of [Real(0, 2 ** 54)], and the round trip returns [2.0 ** 53]. *)
Lemma roundtrip_beyond_binary64 :
  Real.__init__ 0 18014398509481984 "uniform" 10 None PNone py_float
  = Ok real_0_2_54
  /\ in_domain (DReal real_0_2_54) (PInt 9007199254740993)
  /\ (Xt <- @dim_transform example_runtime (DReal real_0_2_54)
              [PInt 9007199254740993] ;;
      @dim_inverse_transform example_runtime (DReal real_0_2_54) Xt)
     = Ok (Arr1 [PFloat 9007199254740992])
  /\ py_eqb (PFloat 9007199254740992) (PInt 9007199254740993) = false.
Proof.
  split; [exact real_0_2_54_built | split; [ | split]].
  - unfold in_domain, dim_member. cbn [dim_contains].
    unfold Real.__contains__. cbn. rewrite !Rleb_true by lra. reflexivity.
  - cbn [dim_transform dim_inverse_transform bind]. unfold Real.transform.
    cbn [real_0_2_54 Real.transformer Dimension_transform transformer_transform
         bind].
    unfold Real.inverse_transform.
    cbn [real_0_2_54 Real.transformer Real.low Real.high Real.dtype
         Dimension_inverse_transform transformer_inverse_transform bind
         elementwise mapM].
    unfold as_float. cbn [as_num bind].
    rewrite to_float_2_53_1, (to_float_IZR 0) by (cbn; lia).
    rewrite binary64_2_54.
    rewrite np_clip_inside by lra. reflexivity.
  - unfold py_eqb. cbn [as_num]. apply Reqb_false. lra.
Qed.

Lemma real_beyond_2_53_built :
  Real.__init__ 9007199254740993 18014398509481984 "uniform" 10 None PNone py_float
  = Ok real_beyond_2_53.
Proof.
  unfold Real.__init__. rewrite Rleb_false by lra. reflexivity.
Qed.

(** A bound that binary64 does not hold is not kept:
    [Real(2 ** 53 + 1, 2 ** 54)] maps the warped value 0 to [2.0 ** 53],
    below its lower bound. *)
Lemma inverse_transform_below_low :
  Real.__init__ 9007199254740993 18014398509481984 "uniform" 10 None PNone py_float
  = Ok real_beyond_2_53
  /\ @Real.inverse_transform example_runtime real_beyond_2_53 (Arr1 [PFloat 0])
     = Ok (Arr1 [PFloat 9007199254740992])
  /\ 9007199254740992 < Real.low real_beyond_2_53.
Proof.
  split; [exact real_beyond_2_53_built | split].
  - unfold Real.inverse_transform.
    cbn [real_beyond_2_53 Real.transformer Real.low Real.high Real.dtype
         Dimension_inverse_transform transformer_inverse_transform bind
         elementwise mapM].
    unfold as_float. cbn [as_num bind].
    rewrite to_float_2_53_1, (to_float_IZR 0) by (cbn; lia).
    rewrite binary64_2_54.
    unfold np_clip. rewrite Rmax_right by lra. rewrite Rmin_left by lra.
    reflexivity.
  - cbn. lra.
Qed.

Lemma integer_half_2_54_built :
  Integer.__init__ (1 / 2) 18014398509481984 "uniform" 10 None PNone (np_signed 64)
  = Ok integer_half_2_54.
Proof.
  unfold Integer.__init__. rewrite Rleb_false by lra. reflexivity.
Qed.

(** The same for an [Integer] whose array is clipped as floats:
    [2 ** 53 + 1] is a value of [Integer(0.5, 2 ** 54)], and the round trip
    returns [2 ** 53]. *)
Lemma roundtrip_integer_beyond_binary64 :
  Integer.__init__ (1 / 2) 18014398509481984 "uniform" 10 None PNone (np_signed 64)
  = Ok integer_half_2_54
  /\ in_domain (DInteger integer_half_2_54) (PInt 9007199254740993)
  /\ astype_int (Integer.dtype integer_half_2_54) 9007199254740993
     = 9007199254740993%Z
  /\ (Xt <- @dim_transform example_runtime (DInteger integer_half_2_54)
              [PInt 9007199254740993] ;;
      @dim_inverse_transform example_runtime (DInteger integer_half_2_54) Xt)
     = Ok (Arr1 [PInt 9007199254740992])
  /\ py_eqb (PInt 9007199254740992) (PInt 9007199254740993) = false.
Proof.
  split; [exact integer_half_2_54_built | split; [ | split; [reflexivity | split]]].
  - split; [ | reflexivity]. unfold dim_member. cbn [dim_contains].
    unfold Integer.__contains__. cbn. rewrite !Rleb_true by lra. reflexivity.
  - cbn [dim_transform dim_inverse_transform bind]. unfold Integer.transform.
    cbn [integer_half_2_54 Integer.transformer Dimension_transform
         transformer_transform bind].
    unfold Integer.inverse_transform, Integer.clips_integers.
    cbn [integer_half_2_54 Integer.transformer Integer.low Integer.high
         Integer.dtype Dimension_inverse_transform
         transformer_inverse_transform bind flatten forallb is_Integral andb].
    rewrite is_whole_half.
    cbn [andb elementwise mapM bind]. unfold as_float. cbn [as_num bind].
    rewrite to_float_2_53_1, binary64_2_54.
    rewrite (to_float_half 1) by (cbn; lia).
    rewrite np_clip_inside by lra. rewrite np_round_IZR. reflexivity.
  - rewrite py_eqb_PInt. reflexivity.
Qed.

Lemma real_base_one_built :
  Real.__init__ 1 100 "log-uniform" 1 None PNone py_float = Ok real_base_one.
Proof.
  unfold Real.__init__. rewrite Rleb_false by lra. reflexivity.
Qed.

(** With the base one nothing is returned but one: [1 ** y] is 1 whatever
    the division by the logarithm of the base has made of [y]. *)
Lemma roundtrip_base_one :
  Real.__init__ 1 100 "log-uniform" 1 None PNone py_float = Ok real_base_one
  /\ in_domain (DReal real_base_one) (PFloat 10)
  /\ (Xt <- @dim_transform example_runtime (DReal real_base_one) [PFloat 10] ;;
      @dim_inverse_transform example_runtime (DReal real_base_one) Xt)
     = Ok (Arr1 [PFloat 1])
  /\ allclose1 1 10 = false.
Proof.
  split; [exact real_base_one_built | split; [ | split]].
  - unfold in_domain, dim_member. cbn [dim_contains].
    unfold Real.__contains__. cbn. rewrite !Rleb_true by lra. reflexivity.
  - cbn [dim_transform dim_inverse_transform bind]. unfold Real.transform.
    cbn [real_base_one Real.transformer Dimension_transform transformer_transform
         elementwise mapM bind].
    unfold LogN_transform, as_float. cbn [as_num bind].
    unfold Real.inverse_transform.
    cbn [real_base_one Real.transformer Real.low Real.high Real.dtype
         Dimension_inverse_transform transformer_inverse_transform bind
         elementwise mapM].
    unfold LogN_inverse_transform, as_float. cbn [as_num bind].
    unfold Rpower. rewrite ln_1, Rmult_0_r, exp_0.
    rewrite !to_float_IZR by (cbn; lia).
    cbn [elementwise mapM bind as_num].
    rewrite (to_float_IZR 1) by (cbn; lia).
    rewrite np_clip_inside by lra. reflexivity.
  - unfold allclose1. apply Rleb_false.
    rewrite (Rabs_left (1 - 10)), (Rabs_pos_eq 10) by lra. lra.
Qed.

(** The operations of the transforms round in binary64.  The tolerance
    does not absorb that for bounds that are large against the value:
    rescaled between [-2 ** 30] and [2 ** 30] and back, [2 ** -24] becomes
    0. *)
Lemma normalize_binary64_beyond_tolerance :
  Float64.Normalize_inverse_transform (-1073741824)%float 1073741824%float
    (Float64.Normalize_transform (-1073741824)%float 1073741824%float
       0x1p-24%float)
  = 0%float
  /\ Float64.allclose1 0%float 0x1p-24%float = false.
Proof. split; vm_compute; reflexivity. Qed.

(** Nor does [np.round] absorb it for large whole numbers: rescaled between
    0 and [3 * 2 ** 58] and back, the whole binary64 number
    483249005427036992 comes back 64 lower. *)
Lemma normalize_binary64_off_the_grid :
  Float64.Normalize_inverse_transform 0%float 864691128455135232%float
    (Float64.Normalize_transform 0%float 864691128455135232%float
       483249005427036992%float)
  = 483249005427036928%float.
Proof. vm_compute. reflexivity. Qed.

Lemma cat_a_1_string_built :
  Categorical.__init__ [PStr "a"; PInt 1] None (Some "string"%string) PNone
  = Ok cat_a_1_string.
Proof. reflexivity. Qed.

(** [np.array] makes strings of the numbers of a list that holds a string:
    ["a"] and [1] are values of [Categorical(["a", 1], transform="string")]
    with different string forms, and the round trip of the two returns
    ["a"] and ["1"]. *)
Lemma roundtrip_mixed_column :
  Categorical.__init__ [PStr "a"; PInt 1] None (Some "string"%string) PNone
  = Ok cat_a_1_string
  /\ Forall (in_domain (DCategorical cat_a_1_string)) [PStr "a"; PInt 1]
  /\ (Xt <- @dim_transform example_runtime (DCategorical cat_a_1_string)
              [PStr "a"; PInt 1] ;;
      @dim_inverse_transform example_runtime (DCategorical cat_a_1_string) Xt)
     = Ok (Arr1 [PStr "a"; PStr "1"])
  /\ py_eqb (PStr "1") (PInt 1) = false.
Proof.
  split; [exact cat_a_1_string_built | split; [ | split; reflexivity]].
  apply Forall_cons; [reflexivity | apply Forall_cons; [ | apply Forall_nil]].
  unfold in_domain, dim_member. cbn [dim_contains].
  unfold Categorical.__contains__, py_in. cbn [cat_a_1_string Categorical.categories existsb].
  rewrite py_eqb_refl. rewrite orb_true_r. reflexivity.
Qed.

Lemma cat_int_float_built :
  Categorical.__init__ [PInt 9007199254740993; PFloat (1 / 2)] None
    (Some "identity"%string) PNone
  = Ok cat_int_float.
Proof. reflexivity. Qed.

(** [np.array] makes floats of the integers of a list that holds a float:
    the round trip of the two values of
    [Categorical([2 ** 53 + 1, 0.5], transform="identity")] returns
    [2.0 ** 53] for the first. *)
Lemma roundtrip_int_float_column :
  Categorical.__init__ [PInt 9007199254740993; PFloat (1 / 2)] None
    (Some "identity"%string) PNone
  = Ok cat_int_float
  /\ Forall (in_domain (DCategorical cat_int_float))
            [PInt 9007199254740993; PFloat (1 / 2)]
  /\ (Xt <- @dim_transform example_runtime (DCategorical cat_int_float)
              [PInt 9007199254740993; PFloat (1 / 2)] ;;
      @dim_inverse_transform example_runtime (DCategorical cat_int_float) Xt)
     = Ok (Arr1 [PFloat 9007199254740992; PFloat (1 / 2)])
  /\ py_eqb (PFloat 9007199254740992) (PInt 9007199254740993) = false.
Proof.
  split; [exact cat_int_float_built | split; [ | split]].
  - apply Forall_cons; [ | apply Forall_cons; [ | apply Forall_nil]];
      unfold in_domain, dim_member; cbn [dim_contains];
      unfold Categorical.__contains__, py_in;
      cbn [cat_int_float Categorical.categories existsb];
      rewrite py_eqb_refl; rewrite ?orb_true_r; reflexivity.
  - cbn [dim_transform dim_inverse_transform bind].
    unfold Categorical.transform, Categorical.inverse_transform.
    cbn [cat_int_float Categorical.transformer Dimension_transform
         transformer_transform Dimension_inverse_transform
         transformer_inverse_transform bind].
    unfold np_array.
    cbn [flatten common_type existsb is_None is_str is_float orb map as_type].
    rewrite to_float_2_53_1. reflexivity.
  - unfold py_eqb. cbn [as_num]. apply Reqb_false. lra.
Qed.

Lemma str_faithful_strings `{PyRuntime} (l : list pyval) :
  (forall v, In v l -> exists s, v = PStr s) -> str_faithful l.
Proof.
  intros Hl a b Ha Hb.
  destruct (Hl a Ha) as [s ->]. destruct (Hl b Hb) as [t ->].
  unfold py_eqb. simpl. rewrite String.eqb_eq. reflexivity.
Qed.

Lemma modest_IZR (z : Z) : (Z.abs z <= 1048576)%Z -> modest (IZR z).
Proof.
  intros Hz. unfold modest. rewrite <- abs_IZR. apply IZR_le. exact Hz.
Qed.

Lemma integer_0_10_normalize_ready :
  dim_valid (DInteger integer_0_10_normalize)
  /\ @roundtrip_ready example_runtime (DInteger integer_0_10_normalize)
       [PInt 3; PInt 10]
  /\ Forall (in_domain (DInteger integer_0_10_normalize)) [PInt 3; PInt 10].
Proof.
  split; [ | split].
  - split; [exists "normalize"%string; reflexivity | ].
    simpl. split; [lra | reflexivity].
  - cbn [roundtrip_ready integer_0_10_normalize Integer.low Integer.high
         Integer.dtype Integer.prior Integer.transform_ Integer.base].
    split; [repeat constructor | ].
    split; [apply binary64_IZR; cbn; lia | ].
    split; [apply binary64_IZR; cbn; lia | ].
    split.
    { apply Forall_cons; [ | apply Forall_cons; [ | apply Forall_nil]];
        apply binary64_IZR; cbn; lia. }
    split.
    + intros Hp. exfalso. apply Hp. reflexivity.
    + intros _. split; apply modest_IZR; cbn; lia.
  - apply Forall_cons; [ | apply Forall_cons; [ | apply Forall_nil]];
      (split; [ | reflexivity]);
      unfold dim_member; simpl; unfold Integer.__contains__; simpl;
      rewrite !Rleb_true by lra; reflexivity.
Qed.

Lemma real_log_unbounded_ready :
  dim_valid (DReal real_log_unbounded)
  /\ @roundtrip_ready example_runtime (DReal real_log_unbounded) [PFloat 10]
  /\ Forall (in_domain (DReal real_log_unbounded)) [PFloat 10].
Proof.
  split; [ | split].
  - split; [exists "normalize_unbounded"%string; reflexivity | ].
    simpl. split; [lra | reflexivity].
  - cbn [roundtrip_ready real_log_unbounded Real.low Real.high Real.dtype
         Real.prior Real.transform_ Real.base].
    split; [reflexivity | ].
    split; [apply binary64_IZR; cbn; lia | ].
    split; [apply binary64_IZR; cbn; lia | ].
    split; [apply Forall_cons; [apply binary64_IZR; cbn; lia | apply Forall_nil] | ].
    split.
    + intros _. split; [lra | ]. split; [lra | ].
      split; [ | intros _; lra].
      apply Forall_cons; [ | apply Forall_nil]. unfold num_of. cbn [as_num]. lra.
    + intros Hp. discriminate Hp.
  - apply Forall_cons; [ | apply Forall_nil].
    unfold in_domain, dim_member. simpl. unfold Real.__contains__. simpl.
    rewrite !Rleb_true by lra. reflexivity.
Qed.

Lemma cat_abc_string_ready :
  dim_valid (DCategorical cat_abc_string)
  /\ @roundtrip_ready example_runtime (DCategorical cat_abc_string)
       [PStr "c"; PStr "a"]
  /\ Forall (in_domain (DCategorical cat_abc_string)) [PStr "c"; PStr "a"].
Proof.
  split; [ | split].
  - split; [exists "string"%string; reflexivity | exact I].
  - cbn [roundtrip_ready cat_abc_string Categorical.transform_
         Categorical.categories].
    split; [ | split; [ | split]].
    + intros _. apply str_faithful_strings. intros v Hv. simpl in Hv.
      repeat (destruct Hv as [<- | Hv]; [eexists; reflexivity | ]). destruct Hv.
    + discriminate.
    + intros _. repeat constructor.
    + apply Forall_cons; [ | apply Forall_cons; [ | apply Forall_nil]];
        unfold num_of; cbn [as_num]; apply (binary64_IZR 0); cbn; lia.
  - repeat constructor.
Qed.


(** ** The example objects are what [__init__] builds *)

Lemma real_x_built :
  Real.__init__ 0 1 "uniform" 10 None (PStr "x") py_float = Ok real_x.
Proof.
  unfold Real.__init__. rewrite Rleb_false by lra. reflexivity.
Qed.

Lemma real_log_unbounded_built :
  Real.__init__ 1 100 "log-uniform" 10 (Some "normalize_unbounded"%string)
    PNone py_float
  = Ok real_log_unbounded.
Proof.
  unfold Real.__init__. rewrite Rleb_false by lra. reflexivity.
Qed.

Lemma integer_0_10_normalize_built :
  Integer.__init__ 0 10 "uniform" 10 (Some "normalize"%string) PNone
    (np_signed 64)
  = Ok integer_0_10_normalize.
Proof.
  unfold Integer.__init__. rewrite Rleb_false by lra. reflexivity.
Qed.

Lemma cat_xyz_built :
  Categorical.__init__ [PStr "x"; PStr "y"; PStr "z"] None None PNone = Ok cat_xyz.
Proof. reflexivity. Qed.

Lemma cat_1_str1_built :
  Categorical.__init__ [PInt 1; PStr "1"] None (Some "string"%string) PNone
  = Ok cat_1_str1.
Proof. reflexivity. Qed.

Lemma cat_abc_string_built :
  Categorical.__init__ [PStr "a"; PStr "b"; PStr "c"] None
    (Some "string"%string) PNone
  = Ok cat_abc_string.
Proof. reflexivity. Qed.

Lemma space_real_cat_built :
  Space.__init__ [Instance (DReal real_01);
                  Sequence [PStr "x"; PStr "y"; PStr "z"]]
  = Ok space_real_cat.
Proof. reflexivity. Qed.

(** * Further properties of the module *)

(** ** Transposition of a list of columns *)

Lemma map_nth_seq {A : Type} (l : list A) (d : A) :
  map (fun i => nth i l d) (seq 0 (length l)) = l.
Proof.
  induction l as [ | a r IH]; simpl; [reflexivity | ].
  rewrite <- seq_shift, map_map. simpl. rewrite IH. reflexivity.
Qed.

Lemma list_item_nth {A : Type} (l : list A) (i : nat) (d : A) :
  (i < length l)%nat -> list_item l i = Ok (nth i l d).
Proof.
  intros Hi. unfold list_item. rewrite (nth_error_nth' l d Hi). reflexivity.
Qed.

(** The transpose of [n] columns of [m] elements, with a default element at
    hand. *)
Lemma transpose_table {A : Type} (d : A) (x : list (list A)) (m : nat) :
  x <> [] ->
  Forall (fun column => length column = m) x ->
  _transpose_list_array x
  = Done (map (fun i => map (fun column => nth i column d) x) (seq 0 m)).
Proof.
  intros Hne Hx. destruct x as [ | x0 xs]; [contradiction | ].
  unfold _transpose_list_array.
  assert (H0 : length x0 = m) by (inversion Hx; assumption).
  rewrite H0.
  rewrite (mapM_map _ (fun i => map (fun column => nth i column d) (x0 :: xs))).
  - reflexivity.
  - intros i Hi. apply in_seq in Hi. apply mapM_map. intros column Hc.
    rewrite Forall_forall in Hx. apply list_item_nth. rewrite (Hx column Hc). lia.
Qed.

(** X1: [_transpose_list_array] on at least one column, all columns of the
    same length [m], returns [m] rows with one element per column, element
    [j] of row [i] being element [i] of column [j]; when [m] is not zero,
    transposing the rows gives the columns back.  On no column at all the
    assertion fails. *)
Theorem transpose_list_array_rectangular :
  forall (A : Type) (x : list (list A)) (m : nat),
    x <> [] ->
    Forall (fun column => length column = m) x ->
    exists rows : list (list A),
      _transpose_list_array x = Done rows
      /\ length rows = m
      /\ Forall (fun row => length row = length x) rows
      /\ (forall (i j : nat) (row column : list A),
             nth_error rows i = Some row ->
             nth_error x j = Some column ->
             nth_error row j = nth_error column i)
      /\ (m <> O -> _transpose_list_array rows = Done x)
      /\ _transpose_list_array (@nil (list A)) = Failed AssertionError.
Proof.
  intros A x m Hne Hx.
  destruct m as [ | m'].
  - exists []. destruct x as [ | x0 xs]; [contradiction | ].
    assert (H0 : length x0 = O) by (inversion Hx; assumption).
    unfold _transpose_list_array. rewrite H0. simpl.
    repeat split; try constructor.
    + intros i j row column Hrow. destruct i; discriminate.
    + intros Hm. contradiction.
  - set (m := S m') in *.
    assert (Hd : exists d : A, True).
    { destruct x as [ | [ | a x0] xs]; [contradiction | | exists a; exact I].
      inversion Hx as [ | ? ? H0 ?]. discriminate H0. }
    destruct Hd as [d _].
    set (rows := map (fun i => map (fun column => nth i column d) x) (seq 0 m)).
    assert (Hrows : Forall (fun row => length row = length x) rows).
    { apply Forall_map. apply Forall_forall. intros i _. apply length_map. }
    exists rows. split; [exact (transpose_table d x m Hne Hx) | ].
    split; [unfold rows; rewrite length_map, length_seq; reflexivity | ].
    split; [exact Hrows | ]. split; [ | split; [ | reflexivity]].
    + intros i j row column Hrow Hcol.
      assert (Hi : (i < m)%nat).
      { assert (Hlt : (i < length rows)%nat)
          by (apply nth_error_Some; congruence).
        unfold rows in Hlt. rewrite length_map, length_seq in Hlt. exact Hlt. }
      unfold rows in Hrow.
      rewrite nth_error_map, nth_error_seq in Hrow.
      destruct (Nat.ltb_spec i m) as [_ | Hge]; [ | lia].
      simpl in Hrow. injection Hrow as <-.
      rewrite nth_error_map, Hcol. simpl.
      rewrite Forall_forall in Hx.
      assert (Hlen : length column = m)
        by (apply Hx; eapply nth_error_In; exact Hcol).
      symmetry. apply nth_error_nth'. lia.
    + intros _.
      rewrite (transpose_table d rows (length x)).
      * f_equal.
        transitivity (map (fun j => nth j x []) (seq 0 (length x)));
          [ | apply map_nth_seq].
        apply map_ext_in. intros j Hj. apply in_seq in Hj.
        assert (Hlen : length (nth j x []) = m).
        { rewrite Forall_forall in Hx. apply Hx. apply nth_In. lia. }
        unfold rows. rewrite map_map.
        transitivity (map (fun i => nth i (nth j x []) d) (seq 0 m));
          [ | rewrite <- Hlen; apply map_nth_seq].
        apply map_ext_in. intros i Hi.
        rewrite (nth_indep _ d (nth i [] d)) by (rewrite length_map; lia).
        rewrite (map_nth (fun column => nth i column d) x []). reflexivity.
      * unfold rows, m. simpl. discriminate.
      * exact Hrows.
Qed.

Lemma transpose_list_array_rectangular_witness :
  exists rows : list (list nat),
    _transpose_list_array [[1; 2; 3]; [4; 5; 6]]%nat = Done rows
    /\ length rows = 3%nat
    /\ _transpose_list_array rows = Done [[1; 2; 3]; [4; 5; 6]]%nat.
Proof.
  destruct (transpose_list_array_rectangular nat [[1; 2; 3]; [4; 5; 6]]%nat 3)
    as [rows [Ht [Hl [_ [_ [Hback _]]]]]].
  - discriminate.
  - repeat constructor.
  - exists rows. split; [exact Ht | split; [exact Hl | ]].
    apply Hback. discriminate.
Defined.

(** ** Construction fails fast *)

Lemma Real_set_transformer_outcome (d : Real.t) (mode : string) :
  snd (Real.set_transformer d mode)
  = if str_among mode ["normalize"; "identity"; "normalize_unbounded"]%string
    then Ok tt else Raise ValueError.
Proof.
  unfold Real.set_transformer. cbv zeta. real_fields.
  destruct (str_among mode ["normalize"; "identity"; "normalize_unbounded"]%string);
    cbn [negb]; [ | reflexivity].
  destruct (str_in "normalize" mode);
    destruct (String.eqb (Real.prior d) "uniform"); reflexivity.
Qed.

Lemma Integer_set_transformer_outcome (d : Integer.t) (mode : string) :
  snd (Integer.set_transformer d mode)
  = if str_among mode ["normalize"; "identity"]%string
    then Ok tt else Raise ValueError.
Proof.
  unfold Integer.set_transformer. cbv zeta. integer_fields.
  destruct (str_among mode ["normalize"; "identity"]%string);
    cbn [negb]; [ | reflexivity].
  destruct (String.eqb mode "normalize");
    destruct (String.eqb (Integer.prior d) "uniform"); reflexivity.
Qed.

Lemma Categorical_set_transformer_outcome (d : Categorical.t) (mode : string) :
  snd (Categorical.set_transformer d mode)
  = if str_among mode ["identity"; "onehot"; "string"; "normalize";
                       "normalize_unbounded"; "label"]%string
    then Ok tt else Raise ValueError.
Proof.
  unfold Categorical.set_transformer. cbv zeta.
  destruct (str_among mode ["identity"; "onehot"; "string"; "normalize";
                            "normalize_unbounded"; "label"]%string);
    cbn [negb]; [ | reflexivity].
  destruct (str_in "normalize" mode); reflexivity.
Qed.

Lemma set_name_Ok (name : pyval) :
  (exists nm, set_name name = Ok nm) <-> (name = PNone \/ exists s, name = PStr s).
Proof.
  destruct name as [ | b | z | r | s]; simpl; split;
    try (intros [nm E]; discriminate E);
    try (intros [E | [s' E]]; discriminate E).
  - intros _. left. reflexivity.
  - intros _. eexists. reflexivity.
  - intros _. right. eexists. reflexivity.
  - intros _. eexists. reflexivity.
Qed.

Lemma set_name_Raise (name : pyval) (e : exn) :
  set_name name = Raise e -> e = ValueError.
Proof. destruct name; simpl; intros E; congruence. Qed.

(** The outcome of [Real.__init__], condition by condition. *)
Lemma Real_init_outcome (low high : R) (prior : string) (base : R)
    (transform : option string) (name : pyval) (dtype : Dtype) :
  let mode := match transform with Some s => s | None => "identity"%string end in
  (low < high
   /\ str_among prior ["uniform"; "log-uniform"]%string = true
   /\ (name = PNone \/ exists s, name = PStr s)
   /\ Real.dtype_ok dtype = true
   /\ str_among mode ["normalize"; "identity"; "normalize_unbounded"]%string = true
   /\ exists d, Real.__init__ low high prior base transform name dtype = Ok d)
  \/ ((high <= low
       \/ str_among prior ["uniform"; "log-uniform"]%string = false
       \/ ~ (name = PNone \/ exists s, name = PStr s)
       \/ Real.dtype_ok dtype = false
       \/ str_among mode ["normalize"; "identity"; "normalize_unbounded"]%string
          = false)
      /\ Real.__init__ low high prior base transform name dtype = Raise ValueError).
Proof.
  intros mode. unfold Real.__init__. fold mode.
  destruct (Rleb high low) eqn:Hlh;
    [right; split; [left; apply Rleb_true_inv; exact Hlh | reflexivity] | ].
  apply Rleb_false_inv in Hlh.
  destruct (str_among prior ["uniform"; "log-uniform"]%string) eqn:Hprior;
    cbn [negb]; [ | right; split; [tauto | reflexivity]].
  destruct (set_name name) as [nm | e] eqn:Hname; cbn [bind].
  - assert (Hn : name = PNone \/ exists s, name = PStr s)
      by (apply set_name_Ok; exists nm; exact Hname).
    destruct (Real.dtype_ok dtype) eqn:Hdt; cbn [negb];
      [ | right; split; [tauto | reflexivity]].
    set (self := Real.mk low high prior base (log10 base) nm dtype None None mode).
    pose proof (Real_set_transformer_outcome self mode) as Hout.
    destruct (Real.set_transformer self mode) as [self' outcome].
    cbn [snd] in Hout. subst outcome.
    destruct (str_among mode ["normalize"; "identity"; "normalize_unbounded"]%string);
      cbn [bind].
    + left. repeat split; try assumption. exists self'. reflexivity.
    + right. split; [tauto | reflexivity].
  - right. rewrite (set_name_Raise name e Hname). split; [ | reflexivity].
    right. right. left. intros Hn. apply set_name_Ok in Hn.
    destruct Hn as [nm Hnm]. congruence.
Qed.

Lemma Integer_init_outcome (low high : R) (prior : string) (base : R)
    (transform : option string) (name : pyval) (dtype : Dtype) :
  let mode := match transform with Some s => s | None => "identity"%string end in
  (low < high
   /\ str_among prior ["uniform"; "log-uniform"]%string = true
   /\ (name = PNone \/ exists s, name = PStr s)
   /\ Integer.dtype_ok dtype = true
   /\ str_among mode ["normalize"; "identity"]%string = true
   /\ exists d, Integer.__init__ low high prior base transform name dtype = Ok d)
  \/ ((high <= low
       \/ str_among prior ["uniform"; "log-uniform"]%string = false
       \/ ~ (name = PNone \/ exists s, name = PStr s)
       \/ Integer.dtype_ok dtype = false
       \/ str_among mode ["normalize"; "identity"]%string = false)
      /\ Integer.__init__ low high prior base transform name dtype
         = Raise ValueError).
Proof.
  intros mode. unfold Integer.__init__. fold mode.
  destruct (Rleb high low) eqn:Hlh;
    [right; split; [left; apply Rleb_true_inv; exact Hlh | reflexivity] | ].
  apply Rleb_false_inv in Hlh.
  destruct (str_among prior ["uniform"; "log-uniform"]%string) eqn:Hprior;
    cbn [negb]; [ | right; split; [tauto | reflexivity]].
  destruct (set_name name) as [nm | e] eqn:Hname; cbn [bind].
  - assert (Hn : name = PNone \/ exists s, name = PStr s)
      by (apply set_name_Ok; exists nm; exact Hname).
    destruct (Integer.dtype_ok dtype) eqn:Hdt; cbn [negb];
      [ | right; split; [tauto | reflexivity]].
    set (self := Integer.mk low high prior base (log10 base) nm dtype None None mode).
    pose proof (Integer_set_transformer_outcome self mode) as Hout.
    destruct (Integer.set_transformer self mode) as [self' outcome].
    cbn [snd] in Hout. subst outcome.
    destruct (str_among mode ["normalize"; "identity"]%string); cbn [bind].
    + left. repeat split; try assumption. exists self'. reflexivity.
    + right. split; [tauto | reflexivity].
  - right. rewrite (set_name_Raise name e Hname). split; [ | reflexivity].
    right. right. left. intros Hn. apply set_name_Ok in Hn.
    destruct Hn as [nm Hnm]. congruence.
Qed.

(** X2: for bounds and a base of magnitude at most 2 ** 53,
    [Real.__init__] and [Integer.__init__] return an object exactly when
    the bounds are strictly ordered, the prior is one of the two names, the
    name is a string or [None], the dtype is admitted and the mode is one
    that the class knows (three for [Real], two for [Integer], [identity]
    when none is given); otherwise they raise [ValueError] and nothing
    else.  The object carries the bounds it was given. *)
Theorem numeric_constructors_fail_fast :
  forall (low high : R) (prior : string) (base : R) (transform : option string)
         (name : pyval) (dtype : Dtype),
    moderate low -> moderate high -> moderate base ->
    let mode := match transform with Some s => s | None => "identity"%string end in
    let named := name = PNone \/ exists s, name = PStr s in
    let prior_ok := str_among prior ["uniform"; "log-uniform"]%string = true in
    ((exists d, Real.__init__ low high prior base transform name dtype = Ok d)
     <-> (low < high /\ prior_ok /\ named /\ Real.dtype_ok dtype = true
          /\ str_among mode ["normalize"; "identity"; "normalize_unbounded"]%string
             = true))
    /\ (forall e, Real.__init__ low high prior base transform name dtype = Raise e ->
                  e = ValueError)
    /\ (forall d, Real.__init__ low high prior base transform name dtype = Ok d ->
                  Real.low d = low /\ Real.high d = high)
    /\ ((exists d, Integer.__init__ low high prior base transform name dtype = Ok d)
        <-> (low < high /\ prior_ok /\ named /\ Integer.dtype_ok dtype = true
             /\ str_among mode ["normalize"; "identity"]%string = true))
    /\ (forall e, Integer.__init__ low high prior base transform name dtype = Raise e ->
                  e = ValueError)
    /\ (forall d, Integer.__init__ low high prior base transform name dtype = Ok d ->
                  Integer.low d = low /\ Integer.high d = high).
Proof.
  intros low high prior base transform name dtype _ _ _ mode named prior_ok.
  subst named prior_ok.
  pose proof (Real_init_outcome low high prior base transform name dtype) as HR.
  pose proof (Integer_init_outcome low high prior base transform name dtype) as HI.
  cbv zeta in HR, HI. fold mode in HR, HI.
  split; [ | split; [ | split; [ | split; [ | split]]]].
  - destruct HR as [[H1 [H2 [H3 [H4 [H5 H6]]]]] | [Hbad Hraise]].
    + split; [intros _; repeat split; assumption | intros _; exact H6].
    + split; [intros [d Hd]; congruence | ].
      intros [H1 [H2 [H3 [H4 H5]]]].
      destruct Hbad as [B | [B | [B | [B | B]]]];
        try congruence; try contradiction; lra.
  - intros e He. destruct HR as [[_ [_ [_ [_ [_ [d Hd]]]]]] | [_ Hraise]]; congruence.
  - intros d Hd. destruct (Real_init_configured _ _ _ _ _ _ _ _ Hd) as [_ [Hl [Hh _]]].
    split; assumption.
  - destruct HI as [[H1 [H2 [H3 [H4 [H5 H6]]]]] | [Hbad Hraise]].
    + split; [intros _; repeat split; assumption | intros _; exact H6].
    + split; [intros [d Hd]; congruence | ].
      intros [H1 [H2 [H3 [H4 H5]]]].
      destruct Hbad as [B | [B | [B | [B | B]]]];
        try congruence; try contradiction; lra.
  - intros e He. destruct HI as [[_ [_ [_ [_ [_ [d Hd]]]]]] | [_ Hraise]]; congruence.
  - intros d Hd.
    destruct (Integer_init_configured _ _ _ _ _ _ _ _ Hd) as [_ [Hl [Hh _]]].
    split; assumption.
Qed.

Lemma moderate_IZR (z : Z) :
  (Z.abs z <= 9007199254740992)%Z -> moderate (IZR z).
Proof.
  intros Hz. unfold moderate. rewrite <- abs_IZR. apply IZR_le. exact Hz.
Qed.

Lemma numeric_constructors_fail_fast_witness :
  (exists d, Real.__init__ 0 1 "uniform" 10 None PNone py_float = Ok d)
  /\ (forall e, Integer.__init__ 10 0 "uniform" 10 None PNone (np_signed 64) = Raise e ->
                e = ValueError).
Proof.
  split.
  - apply (proj1 (numeric_constructors_fail_fast 0 1 "uniform" 10 None PNone py_float
                    (moderate_IZR 0 ltac:(cbn; lia))
                    (moderate_IZR 1 ltac:(cbn; lia))
                    (moderate_IZR 10 ltac:(cbn; lia)))).
    split; [lra | ]. split; [reflexivity | ]. split; [left; reflexivity | ].
    split; reflexivity.
  - apply (proj1 (proj2 (proj2 (proj2 (proj2
             (numeric_constructors_fail_fast 10 0 "uniform" 10 None PNone
                (np_signed 64)
                (moderate_IZR 10 ltac:(cbn; lia))
                (moderate_IZR 0 ltac:(cbn; lia))
                (moderate_IZR 10 ltac:(cbn; lia)))))))).
Defined.

(** The outcome of [Categorical.__init__] without a prior. *)
Lemma Categorical_init_outcome (categories : list pyval)
    (transform : option string) (name : pyval) :
  let mode := match transform with Some s => s | None => "onehot"%string end in
  let modes := ["identity"; "onehot"; "string"; "normalize";
                "normalize_unbounded"; "label"]%string in
  match set_name name with
  | Raise _ => Categorical.__init__ categories None transform name = Raise ValueError
  | Ok _ =>
      match categories with
      | [] => Categorical.__init__ categories None transform name
              = Raise ZeroDivisionError
      | _ :: _ =>
          if str_among mode modes
          then exists d, Categorical.__init__ categories None transform name = Ok d
                         /\ Categorical.categories d = categories
                         /\ Categorical.transform_ d = mode
          else Categorical.__init__ categories None transform name
               = Raise ValueError
      end
  end.
Proof.
  intros mode modes. unfold Categorical.__init__. fold mode.
  destruct (set_name name) as [nm | e] eqn:Hname; cbn [bind].
  - destruct categories as [ | c cats]; [reflexivity | ].
    unfold Categorical.uniform_weights.
    change (Nat.eqb (length (c :: cats)) 0) with false. cbv iota. cbn [bind].
    set (self := Categorical.mk (c :: cats) nm mode None None None
                   (repeat (1 / INR (length (c :: cats))) (length (c :: cats)))).
    pose proof (Categorical_set_transformer_outcome self mode) as Hout.
    pose proof (Categorical_set_transformer_frame self mode) as Hframe.
    assert (Hmode : Categorical.transform_ (fst (Categorical.set_transformer self mode))
                    = mode).
    { unfold Categorical.set_transformer. cbv zeta.
      repeat match goal with
             | |- context [if ?c then _ else _] => destruct c
             end; reflexivity. }
    destruct (Categorical.set_transformer self mode) as [self' outcome].
    cbn [snd fst] in Hout, Hframe, Hmode. subst outcome. fold modes.
    destruct (str_among mode modes); cbn [bind]; [ | reflexivity].
    exists self'. split; [reflexivity | split; [apply Hframe | exact Hmode]].
  - rewrite (set_name_Raise name e Hname). reflexivity.
Qed.

(** X3: [Categorical.__init__] without a prior checks the name before it
    divides: a name that is neither a string nor [None] raises
    [ValueError] even when there is no category; with an admitted name, no
    category raises [ZeroDivisionError]; with at least one category the
    object is returned exactly when the mode ([onehot] when none is given)
    is one of the six, and it keeps the categories in their order. *)
Theorem Categorical_constructor_outcomes :
  forall (categories : list pyval) (transform : option string) (name : pyval),
    let mode := match transform with Some s => s | None => "onehot"%string end in
    let known := str_among mode ["identity"; "onehot"; "string"; "normalize";
                                 "normalize_unbounded"; "label"]%string in
    let named := name = PNone \/ exists s, name = PStr s in
    (~ named ->
     Categorical.__init__ categories None transform name = Raise ValueError)
    /\ (named -> categories = [] ->
        Categorical.__init__ categories None transform name
        = Raise ZeroDivisionError)
    /\ (named -> categories <> [] -> known = false ->
        Categorical.__init__ categories None transform name = Raise ValueError)
    /\ (named -> categories <> [] -> known = true ->
        exists d, Categorical.__init__ categories None transform name = Ok d
                  /\ Categorical.categories d = categories
                  /\ Categorical.transform_ d = mode).
Proof.
  intros categories transform name mode known named. subst known named.
  pose proof (Categorical_init_outcome categories transform name) as H.
  cbv zeta in H. fold mode in H.
  destruct (set_name name) as [nm | e] eqn:Hname.
  - assert (Hn : name = PNone \/ exists s, name = PStr s)
      by (apply set_name_Ok; exists nm; exact Hname).
    split; [intros Hno; contradiction | ].
    destruct categories as [ | c cats].
    + split; [intros _ _; exact H | split; intros _ Hne; contradiction].
    + split; [intros _ E; discriminate E | ].
      destruct (str_among mode
                  ["identity"; "onehot"; "string"; "normalize";
                   "normalize_unbounded"; "label"]%string).
      * split; [intros _ _ E; discriminate E | intros _ _ _; exact H].
      * split; [intros _ _ _; exact H | intros _ _ E; discriminate E].
  - assert (Hn : ~ (name = PNone \/ exists s, name = PStr s)).
    { intros Hn. apply set_name_Ok in Hn. destruct Hn as [nm Hnm]. congruence. }
    split; [intros _; exact H | ].
    repeat split; intros Hyes; contradiction.
Qed.

Lemma Categorical_constructor_outcomes_witness :
  Categorical.__init__ [] None None (PInt 5) = Raise ValueError
  /\ Categorical.__init__ [] None None (PStr "colour") = Raise ZeroDivisionError
  /\ Categorical.__init__ [PStr "a"] None (Some "normalise"%string) PNone
     = Raise ValueError
  /\ exists d, Categorical.__init__ [PStr "a"] None (Some "label"%string) PNone = Ok d
               /\ Categorical.categories d = [PStr "a"]
               /\ Categorical.transform_ d = "label"%string.
Proof.
  split; [ | split; [ | split]].
  - apply (proj1 (Categorical_constructor_outcomes [] None (PInt 5))).
    intros [E | [s E]]; discriminate E.
  - apply (proj1 (proj2 (Categorical_constructor_outcomes [] None (PStr "colour"))));
      [right; eexists; reflexivity | reflexivity].
  - apply (proj1 (proj2 (proj2 (Categorical_constructor_outcomes
                                  [PStr "a"] (Some "normalise"%string) PNone))));
      [left; reflexivity | discriminate | reflexivity].
  - apply (proj2 (proj2 (proj2 (Categorical_constructor_outcomes
                                  [PStr "a"] (Some "label"%string) PNone))));
      [left; reflexivity | discriminate | reflexivity].
Defined.

(** ** Reading a description *)

Lemma unpack_bounds_Raise (args : list pyval) (e : exn) :
  unpack_bounds args = Raise e -> e = TypeError.
Proof.
  unfold unpack_bounds.
  repeat match goal with
         | |- context [match ?x with _ => _ end] => destruct x
         end; intros E; congruence.
Qed.

Lemma call_Integer_outcome (args : list pyval) (transform : option string) :
  (exists d, call_Integer args transform = Ok (DInteger d))
  \/ call_Integer args transform = Raise ValueError
  \/ call_Integer args transform = Raise TypeError.
Proof.
  unfold call_Integer.
  destruct (unpack_bounds args) as [[[[lo hi] p] b] | e] eqn:Hargs; cbn [bind].
  - destruct (Integer_init_outcome lo hi p b transform PNone (np_signed 64))
      as [[_ [_ [_ [_ [_ [d Hd]]]]]] | [_ Hraise]].
    + left. exists d. rewrite Hd. reflexivity.
    + right. left. rewrite Hraise. reflexivity.
  - right. right. rewrite (unpack_bounds_Raise args e Hargs). reflexivity.
Qed.

Lemma call_Real_outcome (args : list pyval) (transform : option string) :
  (exists d, call_Real args transform = Ok (DReal d))
  \/ call_Real args transform = Raise ValueError
  \/ call_Real args transform = Raise TypeError.
Proof.
  unfold call_Real.
  destruct (unpack_bounds args) as [[[[lo hi] p] b] | e] eqn:Hargs; cbn [bind].
  - destruct (Real_init_outcome lo hi p b transform PNone py_float)
      as [[_ [_ [_ [_ [_ [d Hd]]]]]] | [_ Hraise]].
    + left. exists d. rewrite Hd. reflexivity.
    + right. left. rewrite Hraise. reflexivity.
  - right. right. rewrite (unpack_bounds_Raise args e Hargs). reflexivity.
Qed.

Lemma call_Categorical_outcome (c : pyval) (cats : list pyval)
    (transform : option string) :
  let mode := match transform with Some s => s | None => "onehot"%string end in
  if str_among mode ["identity"; "onehot"; "string"; "normalize";
                     "normalize_unbounded"; "label"]%string
  then exists d, call_Categorical (c :: cats) transform = Ok (DCategorical d)
                 /\ Categorical.categories d = c :: cats
                 /\ Categorical.transform_ d = mode
  else call_Categorical (c :: cats) transform = Raise ValueError.
Proof.
  intros mode. unfold call_Categorical.
  pose proof (Categorical_init_outcome (c :: cats) transform PNone) as H.
  cbv zeta in H. fold mode in H. cbn [set_name] in H.
  destruct (str_among mode ["identity"; "onehot"; "string"; "normalize";
                            "normalize_unbounded"; "label"]%string).
  - destruct H as [d [Hd [Hc Hm]]]. exists d. rewrite Hd. repeat split; assumption.
  - rewrite H. reflexivity.
Qed.

(** The description split by its length, as the tests of
    [check_dimension] see it. *)
Lemma description_by_length (l : list pyval) :
  l = []
  \/ (exists a, l = [a])
  \/ (exists a b, l = [a; b])
  \/ (exists a b p, l = [a; b; p])
  \/ (exists a b p q, l = [a; b; p; q])
  \/ (exists a b p q r rest, l = a :: b :: p :: q :: r :: rest).
Proof.
  destruct l as [ | a [ | b [ | p [ | q [ | r rest]]]]].
  - left. reflexivity.
  - right. left. eauto.
  - right. right. left. eauto.
  - right. right. right. left. eauto.
  - right. right. right. right. left. eauto.
  - right. right. right. right. right. eauto 10.
Qed.

(** Every path of [check_dimension] through a sequence ends in the final
    [raise] or in one constructor call on the whole sequence. *)
Lemma check_dimension_dispatch (l : list pyval) (transform : option string) :
  check_dimension (Sequence l) transform = Raise ValueError
  \/ check_dimension (Sequence l) transform = call_Integer l transform
  \/ check_dimension (Sequence l) transform = call_Real l transform
  \/ (l <> [] /\ check_dimension (Sequence l) transform = call_Categorical l transform).
Proof.
  destruct l as [ | c cats]; [left; reflexivity | ].
  assert (Hne : c :: cats <> []) by discriminate.
  unfold check_dimension. split_conditionals; tauto.
Qed.

Lemma check_dimension_raises (dimension : description)
    (transform : option string) (e : exn) :
  check_dimension dimension transform = Raise e -> e = ValueError \/ e = TypeError.
Proof.
  destruct dimension as [d | l | v].
  - intros E. discriminate E.
  - destruct (check_dimension_dispatch l transform)
      as [-> | [-> | [-> | [Hne ->]]]].
    + intros E. left. congruence.
    + destruct (call_Integer_outcome l transform) as [[d ->] | [-> | ->]];
        intros E; [discriminate E | left; congruence | right; congruence].
    + destruct (call_Real_outcome l transform) as [[d ->] | [-> | ->]];
        intros E; [discriminate E | left; congruence | right; congruence].
    + destruct l as [ | c cats]; [contradiction | ].
      pose proof (call_Categorical_outcome c cats transform) as H.
      cbv zeta in H.
      destruct (str_among _ _) in H.
      * destruct H as [d [-> _]]. intros E. discriminate E.
      * rewrite H. intros E. left. congruence.
  - intros E. left. cbn in E. congruence.
Qed.

(** X4: [check_dimension] returns an instance as it is, whatever the
    transform; it raises [ValueError] on a value that is not a sequence and
    on the empty sequence; on a sequence whose numbers have magnitude at
    most 2 ** 53, whatever it raises is a [ValueError] or a [TypeError]
    (never the [ZeroDivisionError] of an empty [Categorical]); and a
    dimension that it builds from a sequence has ordered bounds and a
    pipeline that belongs to its mode. *)
Theorem check_dimension_outcomes :
  (forall (d : Dimension) (transform : option string),
     check_dimension (Instance d) transform = Ok d)
  /\ (forall (v : pyval) (transform : option string),
        check_dimension (Scalar v) transform = Raise ValueError)
  /\ (forall transform : option string,
        check_dimension (Sequence []) transform = Raise ValueError)
  /\ (forall (dimension : description) (transform : option string) (e : exn),
        moderate_description dimension ->
        check_dimension dimension transform = Raise e ->
        e = ValueError \/ e = TypeError)
  /\ (forall (l : list pyval) (transform : option string) (dim : Dimension),
        check_dimension (Sequence l) transform = Ok dim -> dim_valid dim).
Proof.
  split; [reflexivity | ]. split; [reflexivity | ]. split; [reflexivity | ].
  split.
  - intros dimension transform e _. apply check_dimension_raises.
  - intros l transform dim. apply check_dimension_valid.
Qed.

(** X5: when a sequence is read as a list of categories.  With [mode] the
    transform ([onehot] when none is given), [check_dimension] returns a
    [Categorical] exactly when the mode is one of the six and the sequence
    has one element, or two elements one of which is a string or a bool, or
    three or four elements that do not have the form of bounds with a
    prior (for four: a bound that is a number, then ["log-uniform"], then
    an [int] base), or five elements or more.  The categories are then the
    whole sequence, in its order: [(1, 10, "uniform", 2)] is a dimension of
    four categories. *)
Theorem check_dimension_categorical_reading :
  forall (l : list pyval) (transform : option string),
    let mode := match transform with Some s => s | None => "onehot"%string end in
    let known := str_among mode ["identity"; "onehot"; "string"; "normalize";
                                 "normalize_unbounded"; "label"]%string in
    let bound_given := existsb is_float_or_int (firstn 2 l) in
    let reading :=
      match length l with
      | 0%nat => false
      | 1%nat => true
      | 2%nat => existsb is_str_or_bool l
      | 3%nat => negb (bound_given && py_in (nth 2 l PNone) prior_names)
      | 4%nat => negb (bound_given
                       && py_eqb (nth 2 l PNone) (PStr "log-uniform")
                       && is_int (nth 3 l PNone))
      | _ => true
      end in
    ((exists d, check_dimension (Sequence l) transform = Ok (DCategorical d))
     <-> reading && known = true)
    /\ (forall d, check_dimension (Sequence l) transform = Ok (DCategorical d) ->
                  Categorical.categories d = l /\ Categorical.transform_ d = mode).
Proof.
  intros l transform mode known bound_given reading.
  assert (HI : forall d, call_Integer l transform <> Ok (DCategorical d)).
  { intros d. destruct (call_Integer_outcome l transform) as [[d' ->] | [-> | ->]];
      discriminate. }
  assert (HR : forall d, call_Real l transform <> Ok (DCategorical d)).
  { intros d. destruct (call_Real_outcome l transform) as [[d' ->] | [-> | ->]];
      discriminate. }
  assert (HC : l <> [] ->
               ((exists d, call_Categorical l transform = Ok (DCategorical d))
                <-> known = true)
               /\ (forall d, call_Categorical l transform = Ok (DCategorical d) ->
                             Categorical.categories d = l
                             /\ Categorical.transform_ d = mode)).
  { destruct l as [ | c cats]; [intros Hne; contradiction | intros _].
    pose proof (call_Categorical_outcome c cats transform) as H.
    cbv zeta in H. fold mode in H. fold known in H. destruct known.
    - destruct H as [d [Hd [Hc Hm]]]. split.
      + split; [reflexivity | intros _; exists d; exact Hd].
      + intros d' Hd'. rewrite Hd in Hd'. injection Hd' as <-. split; assumption.
    - rewrite H. split.
      + split; [intros [d Hd]; discriminate Hd | discriminate].
      + intros d Hd. discriminate Hd. }
  assert (Hno : forall c : result Dimension,
             (forall d, c <> Ok (DCategorical d)) ->
             ((exists d, c = Ok (DCategorical d)) <-> false && known = true)
             /\ (forall d, c = Ok (DCategorical d) ->
                           Categorical.categories d = l
                           /\ Categorical.transform_ d = mode)).
  { intros c Hc. split.
    - split; [intros [d Hd]; destruct (Hc d Hd) | discriminate].
    - intros d Hd. destruct (Hc d Hd). }
  assert (Hyes : l <> [] ->
             ((exists d, call_Categorical l transform = Ok (DCategorical d))
              <-> true && known = true)
             /\ (forall d, call_Categorical l transform = Ok (DCategorical d) ->
                           Categorical.categories d = l
                           /\ Categorical.transform_ d = mode)).
  { intros Hne. exact (HC Hne). }
  assert (Hval : forall d, @Raise Dimension ValueError <> Ok (DCategorical d))
    by discriminate.
  subst reading bound_given.
  destruct (description_by_length l)
    as [-> | [[a ->] | [[a [b ->]] | [[a [b [p ->]]] | [[a [b [p [q ->]]]]
        | [a [b [p [q [r [rest ->]]]]]]]]]]].
  - apply Hno. exact Hval.
  - apply Hyes. discriminate.
  - unfold check_dimension.
    cbn [length Nat.eqb].
    destruct (existsb is_str_or_bool [a; b]); [apply Hyes; discriminate | ].
    destruct (forallb is_Integral [a; b]); [apply Hno; exact HI | ].
    destruct (existsb is_Real [a; b]); [apply Hno; exact HR | ].
    apply Hno. exact Hval.
  - unfold check_dimension.
    cbn [length Nat.eqb].
    destruct (py_in (nth 2 [a; b; p] PNone) prior_names);
      rewrite ?andb_true_r, ?andb_false_r; cbn [negb].
    + destruct (existsb is_int (firstn 2 [a; b; p])) eqn:Hint.
      * assert (Hfi : existsb is_float_or_int (firstn 2 [a; b; p]) = true).
        { cbn [firstn existsb] in *. destruct a, b; cbn in *; congruence. }
        rewrite Hfi. apply Hno. exact HI.
      * destruct (existsb is_float_or_int (firstn 2 [a; b; p]));
          [apply Hno; exact HR | apply Hyes; discriminate].
    + apply Hyes. discriminate.
  - unfold check_dimension.
    cbn [length Nat.eqb Nat.ltb Nat.leb andb].
    destruct (py_eqb (nth 2 [a; b; p; q] PNone) (PStr "log-uniform"));
      rewrite ?andb_true_r, ?andb_false_r; cbn [negb andb];
      [ | apply Hyes; discriminate].
    destruct (is_int (nth 3 [a; b; p; q] PNone));
      rewrite ?andb_true_r, ?andb_false_r; cbn [negb andb];
      [ | apply Hyes; discriminate].
    destruct (existsb is_int (firstn 2 [a; b; p; q])) eqn:Hint.
    + assert (Hfi : existsb is_float_or_int (firstn 2 [a; b; p; q]) = true).
      { cbn [firstn existsb] in *. destruct a, b; cbn in *; congruence. }
      rewrite Hfi. apply Hno. exact HI.
    + destruct (existsb is_float_or_int (firstn 2 [a; b; p; q]));
        [apply Hno; exact HR | apply Hyes; discriminate].
  - unfold check_dimension.
    cbn [length Nat.eqb Nat.ltb Nat.leb andb]. apply Hyes. discriminate.
Qed.

(** ** A call of [set_transformer] that returns overwrites the earlier ones *)

Lemma Real_set_transformer_from_frame (d1 d2 : Real.t) (mode : string) :
  Real.low d1 = Real.low d2 -> Real.high d1 = Real.high d2 ->
  Real.prior d1 = Real.prior d2 -> Real.base d1 = Real.base d2 ->
  Real.log_base d1 = Real.log_base d2 -> Real.name d1 = Real.name d2 ->
  Real.dtype d1 = Real.dtype d2 ->
  snd (Real.set_transformer d2 mode) = Ok tt ->
  Real.set_transformer d1 mode = Real.set_transformer d2 mode.
Proof.
  destruct d1, d2. real_fields. intros -> -> -> -> -> -> ->.
  unfold Real.set_transformer. cbv zeta. real_fields.
  destruct (str_among mode ["normalize"; "identity"; "normalize_unbounded"]%string);
    cbn [negb]; [ | intros E; discriminate E].
  intros _. split_conditionals; reflexivity.
Qed.

Lemma Integer_set_transformer_from_frame (d1 d2 : Integer.t) (mode : string) :
  Integer.low d1 = Integer.low d2 -> Integer.high d1 = Integer.high d2 ->
  Integer.prior d1 = Integer.prior d2 -> Integer.base d1 = Integer.base d2 ->
  Integer.log_base d1 = Integer.log_base d2 -> Integer.name d1 = Integer.name d2 ->
  Integer.dtype d1 = Integer.dtype d2 ->
  snd (Integer.set_transformer d2 mode) = Ok tt ->
  Integer.set_transformer d1 mode = Integer.set_transformer d2 mode.
Proof.
  destruct d1, d2. integer_fields. intros -> -> -> -> -> -> ->.
  unfold Integer.set_transformer. cbv zeta. integer_fields.
  destruct (str_among mode ["normalize"; "identity"]%string);
    cbn [negb]; [ | intros E; discriminate E].
  intros _. split_conditionals; reflexivity.
Qed.

Lemma Categorical_set_transformer_from_frame (d1 d2 : Categorical.t)
    (mode : string) :
  Categorical.categories d1 = Categorical.categories d2 ->
  Categorical.name d1 = Categorical.name d2 ->
  Categorical.prior d1 = Categorical.prior d2 ->
  Categorical.prior_ d1 = Categorical.prior_ d2 ->
  snd (Categorical.set_transformer d2 mode) = Ok tt ->
  Categorical.set_transformer d1 mode = Categorical.set_transformer d2 mode.
Proof.
  destruct d1, d2.
  cbn [Categorical.categories Categorical.name Categorical.prior Categorical.prior_].
  intros -> -> -> ->.
  unfold Categorical.set_transformer. cbv zeta.
  destruct (str_among mode ["identity"; "onehot"; "string"; "normalize";
                            "normalize_unbounded"; "label"]%string);
    cbn [negb]; [ | intros E; discriminate E].
  intros _. split_conditionals; reflexivity.
Qed.

(** X6: a call of [set_transformer] that returns overwrites what earlier
    calls left behind, those that raised included: the object after
    [set_transformer(m1)] followed by [set_transformer(m2)] is the object
    after [set_transformer(m2)] alone.  In particular the call is
    idempotent, and a dimension left half-configured by a rejected mode is
    repaired by the next accepted one. *)
Theorem set_transformer_overwrites :
  (forall (d : Real.t) (m1 m2 : string),
     snd (Real.set_transformer d m2) = Ok tt ->
     Real.set_transformer (fst (Real.set_transformer d m1)) m2
     = Real.set_transformer d m2)
  /\ (forall (d : Integer.t) (m1 m2 : string),
        snd (Integer.set_transformer d m2) = Ok tt ->
        Integer.set_transformer (fst (Integer.set_transformer d m1)) m2
        = Integer.set_transformer d m2)
  /\ (forall (d : Categorical.t) (m1 m2 : string),
        snd (Categorical.set_transformer d m2) = Ok tt ->
        Categorical.set_transformer (fst (Categorical.set_transformer d m1)) m2
        = Categorical.set_transformer d m2).
Proof.
  split; [ | split].
  - intros d m1 m2 Hok.
    pose proof (Real_set_transformer_frame d m1) as F. cbv zeta in F.
    destruct F as [F1 [F2 [F3 [F4 [F5 [F6 F7]]]]]].
    apply Real_set_transformer_from_frame; assumption.
  - intros d m1 m2 Hok.
    pose proof (Integer_set_transformer_frame d m1) as F. cbv zeta in F.
    destruct F as [F1 [F2 [F3 [F4 [F5 [F6 F7]]]]]].
    apply Integer_set_transformer_from_frame; assumption.
  - intros d m1 m2 Hok.
    pose proof (Categorical_set_transformer_frame d m1) as F. cbv zeta in F.
    destruct F as [F1 [F2 [F3 F4]]].
    apply Categorical_set_transformer_from_frame; assumption.
Qed.

(** ** Reconfiguring a whole space *)

Lemma dim_set_transformer_outcome (dim : Dimension) (mode : string) :
  snd (dim_set_transformer dim mode)
  = if str_among mode (accepted_modes dim) then Ok tt else Raise ValueError.
Proof.
  destruct dim as [d | d | d]; unfold dim_set_transformer, accepted_modes.
  - rewrite <- (Real_set_transformer_outcome d mode).
    destruct (Real.set_transformer d mode). reflexivity.
  - rewrite <- (Integer_set_transformer_outcome d mode).
    destruct (Integer.set_transformer d mode). reflexivity.
  - rewrite <- (Categorical_set_transformer_outcome d mode).
    destruct (Categorical.set_transformer d mode). reflexivity.
Qed.

(** The mode is stored whether the call returns or raises. *)
Lemma dim_set_transformer_mode (dim : Dimension) (mode : string) :
  dim_transform_ (fst (dim_set_transformer dim mode)) = mode.
Proof.
  destruct dim as [d | d | d]; unfold dim_set_transformer.
  - unfold Real.set_transformer. cbv zeta. split_conditionals; reflexivity.
  - unfold Integer.set_transformer. cbv zeta. split_conditionals; reflexivity.
  - unfold Categorical.set_transformer. cbv zeta. split_conditionals; reflexivity.
Qed.

Lemma dim_set_transformer_keeps (dim : Dimension) (mode : string) :
  kept dim (fst (dim_set_transformer dim mode)).
Proof.
  unfold kept. destruct dim as [d | d | d]; unfold dim_set_transformer.
  - pose proof (Real_set_transformer_frame d mode) as F. cbv zeta in F.
    destruct (Real.set_transformer d mode) as [d' o]. cbn [fst] in *.
    destruct F as [Fl [Fh [_ [_ [_ [Fn _]]]]]].
    unfold dim_bounds, dim_name, dim_contains, Real.__contains__, Real.bounds.
    cbn [fst snd]. rewrite Fl, Fh, Fn.
    split; [reflexivity | split; [reflexivity | split]];
      [intros []; reflexivity | reflexivity].
  - pose proof (Integer_set_transformer_frame d mode) as F. cbv zeta in F.
    destruct (Integer.set_transformer d mode) as [d' o]. cbn [fst] in *.
    destruct F as [Fl [Fh [_ [_ [_ [Fn _]]]]]].
    unfold dim_bounds, dim_name, dim_contains, Integer.__contains__, Integer.bounds.
    cbn [fst snd]. rewrite Fl, Fh, Fn.
    split; [reflexivity | split; [reflexivity | split]];
      [intros []; reflexivity | reflexivity].
  - pose proof (Categorical_set_transformer_frame d mode) as F. cbv zeta in F.
    destruct (Categorical.set_transformer d mode) as [d' o]. cbn [fst] in *.
    destruct F as [Fc [Fn _]].
    unfold dim_bounds, dim_name, dim_contains, Categorical.__contains__,
      Categorical.bounds.
    rewrite Fc, Fn.
    split; [reflexivity | split; [reflexivity | split]];
      [intros []; reflexivity | reflexivity].
Qed.

Lemma dim_set_transformer_configured (dim : Dimension) (mode : string) :
  snd (dim_set_transformer dim mode) = Ok tt ->
  dim_configured (fst (dim_set_transformer dim mode)).
Proof.
  destruct dim as [d | d | d]; unfold dim_set_transformer.
  - destruct (Real.set_transformer d mode) as [d' o] eqn:Hset. cbn [fst snd].
    intros ->. exact (Real_set_transformer_configured _ _ _ Hset).
  - destruct (Integer.set_transformer d mode) as [d' o] eqn:Hset. cbn [fst snd].
    intros ->. exact (Integer_set_transformer_configured _ _ _ Hset).
  - destruct (Categorical.set_transformer d mode) as [d' o] eqn:Hset. cbn [fst snd].
    intros ->. exact (Categorical_set_transformer_configured _ _ _ Hset).
Qed.

Lemma kept_refl (dim : Dimension) : kept dim dim.
Proof. unfold kept. repeat split. Qed.

Lemma Forall2_kept_refl (dims : list Dimension) : Forall2 kept dims dims.
Proof. induction dims; constructor; [apply kept_refl | assumption]. Qed.

Lemma set_from_kept (dims : list Dimension) (j : nat) (transform : Space.modes) :
  Forall2 kept dims (fst (Space.set_from dims j transform)).
Proof.
  revert j. induction dims as [ | dim rest IH]; intros j; cbn [Space.set_from].
  - constructor.
  - destruct (match transform with
              | Space.same_mode mode => Ok mode
              | Space.each_mode l => list_item l j
              end) as [mode | e].
    + pose proof (dim_set_transformer_keeps dim mode) as K.
      destruct (dim_set_transformer dim mode) as [dim' outcome]. cbn [fst] in K.
      destruct outcome as [[] | e].
      * specialize (IH (S j)).
        destruct (Space.set_from rest (S j) transform) as [rest' outcome'].
        cbn [fst] in *. constructor; assumption.
      * cbn [fst]. constructor; [exact K | apply Forall2_kept_refl].
    + cbn [fst]. apply Forall2_kept_refl.
Qed.

Lemma set_by_type_from_kept (dims : list Dimension) (transform : string)
    (dim_type : dim_class) :
  Forall2 (fun dim dim' => kept dim dim'
                           /\ (isinstance dim dim_type = false -> dim' = dim))
          dims (fst (Space.set_by_type_from dims transform dim_type)).
Proof.
  assert (Hrefl : forall l : list Dimension,
             Forall2 (fun dim dim' => kept dim dim'
                                      /\ (isinstance dim dim_type = false -> dim' = dim))
                     l l).
  { induction l; constructor; [split; [apply kept_refl | reflexivity] | assumption]. }
  induction dims as [ | dim rest IH]; cbn [Space.set_by_type_from].
  - constructor.
  - destruct (isinstance dim dim_type) eqn:Hinst.
    + pose proof (dim_set_transformer_keeps dim transform) as K.
      destruct (dim_set_transformer dim transform) as [dim' outcome]. cbn [fst] in K.
      destruct outcome as [[] | e].
      * destruct (Space.set_by_type_from rest transform dim_type) as [rest' outcome'].
        cbn [fst] in *. constructor; [ | exact IH].
        split; [exact K | intros E; congruence].
      * cbn [fst]. constructor; [ | apply Hrefl].
        split; [exact K | intros E; congruence].
    + destruct (Space.set_by_type_from rest transform dim_type) as [rest' outcome'].
      cbn [fst] in *. constructor; [ | exact IH].
      split; [apply kept_refl | reflexivity].
Qed.

Lemma kept_names (dims dims' : list Dimension) :
  Forall2 kept dims dims' ->
  forall index, Space.names_from dims' index = Space.names_from dims index.
Proof.
  induction 1 as [ | dim dim' dims dims' [_ [Kn _]] _ IH]; intros index.
  - reflexivity.
  - cbn [Space.names_from]. rewrite Kn, IH. reflexivity.
Qed.

(** What the space reports about dimensions that were kept. *)
Lemma kept_space (dims dims' : list Dimension) :
  Forall2 kept dims dims' ->
  Space.n_dims (Space.mk dims') = Space.n_dims (Space.mk dims)
  /\ Space.bounds (Space.mk dims') = Space.bounds (Space.mk dims)
  /\ Space.dimension_names (Space.mk dims') = Space.dimension_names (Space.mk dims)
  /\ (forall point, Space.__contains__ (Space.mk dims') point
                    = Space.__contains__ (Space.mk dims) point)
  /\ Space.is_real (Space.mk dims') = Space.is_real (Space.mk dims)
  /\ Space.is_categorical (Space.mk dims') = Space.is_categorical (Space.mk dims).
Proof.
  intros H. split; [ | split; [ | split; [exact (kept_names _ _ H 0%nat) | ]]].
  - unfold Space.n_dims. cbn [Space.dimensions]. symmetry.
    exact (Forall2_length H).
  - unfold Space.bounds. cbn [Space.dimensions].
    induction H as [ | dim dim' dims dims' [Kb _] _ IH]; [reflexivity | ].
    cbn [flat_map]. rewrite IH, Kb. reflexivity.
  - unfold Space.__contains__, Space.is_real, Space.is_categorical.
    cbn [Space.dimensions].
    induction H as [ | dim dim' dims dims' [_ [_ [Ki Kc]]] _ IH].
    + repeat split.
    + destruct IH as [IH1 [IH2 IH3]]. cbn [forallb]. rewrite IH2, IH3, !Ki.
      repeat split.
      intros [ | component point]; [reflexivity | ].
      cbn [Space.contains_from]. rewrite Kc, IH1. reflexivity.
Qed.

(** X7: reconfiguring a space changes neither its shape nor its domain.
    After [Space.set_transformer] and after [Space.set_transformer_by_type],
    whether they return or raise, the space has the same number of
    dimensions, the same [bounds], the same [dimension_names], the same
    members and the same answers to [is_real] and [is_categorical]; and
    [set_transformer_by_type] leaves every dimension that is not an
    instance of the given class exactly as it was. *)
Theorem Space_reconfiguration_frame :
  forall (s : Space.t) (transform : Space.modes) (mode : string)
         (dim_type : dim_class),
    let same := fun s' : Space.t =>
      Space.n_dims s' = Space.n_dims s
      /\ Space.bounds s' = Space.bounds s
      /\ Space.dimension_names s' = Space.dimension_names s
      /\ (forall point, Space.__contains__ s' point = Space.__contains__ s point)
      /\ Space.is_real s' = Space.is_real s
      /\ Space.is_categorical s' = Space.is_categorical s in
    same (fst (Space.set_transformer s transform))
    /\ same (fst (Space.set_transformer_by_type s mode dim_type))
    /\ Forall2 (fun dim dim' => isinstance dim dim_type = false -> dim' = dim)
               (Space.dimensions s)
               (Space.dimensions (fst (Space.set_transformer_by_type s mode dim_type))).
Proof.
  intros [dims] transform mode dim_type same. subst same. cbv beta.
  unfold Space.set_transformer, Space.set_transformer_by_type.
  cbn [Space.dimensions].
  pose proof (set_from_kept dims 0 transform) as H1.
  pose proof (set_by_type_from_kept dims mode dim_type) as H2.
  destruct (Space.set_from dims 0 transform) as [dims1 outcome1].
  destruct (Space.set_by_type_from dims mode dim_type) as [dims2 outcome2].
  cbn [fst Space.dimensions] in *.
  split; [exact (kept_space _ _ H1) | ].
  split.
  - apply kept_space. eapply Forall2_impl; [ | exact H2].
    intros dim dim' [K _]. exact K.
  - eapply Forall2_impl; [ | exact H2]. intros dim dim' [_ U]. exact U.
Qed.

Lemma mode_for_item (transform : Space.modes) (j : nat) :
  match transform with
  | Space.same_mode mode => Ok mode
  | Space.each_mode l => list_item l j
  end
  = match mode_for transform j with
    | Some mode => Ok mode
    | None => Raise IndexError
    end.
Proof. destruct transform as [mode | l]; reflexivity. Qed.

(** ** Reconfiguring a space that shares dimension objects *)

Lemma store_length (h : heap) (r : nat) (dim : Dimension) :
  length (store h r dim) = length h.
Proof.
  revert r. induction h as [ | x t IH]; intros [ | r]; cbn [store length];
    try reflexivity. rewrite IH. reflexivity.
Qed.

Lemma deref_store_eq (h : heap) (r : nat) (dim : Dimension) :
  (r < length h)%nat -> deref (store h r dim) r = Some dim.
Proof.
  unfold deref. revert r. induction h as [ | x t IH]; intros [ | r] Hr;
    cbn [store length nth_error] in *; try lia; [reflexivity | ].
  apply IH. lia.
Qed.

Lemma deref_store_neq (h : heap) (r r' : nat) (dim : Dimension) :
  r <> r' -> deref (store h r dim) r' = deref h r'.
Proof.
  unfold deref. revert r r'. induction h as [ | x t IH]; intros [ | r] [ | r'] Hne;
    cbn [store nth_error]; try reflexivity; try congruence.
  apply IH. congruence.
Qed.

Lemma deref_Some_lt (h : heap) (r : nat) (dim : Dimension) :
  deref h r = Some dim -> (r < length h)%nat.
Proof. unfold deref. intros E. apply nth_error_Some. congruence. Qed.

Lemma accepted_modes_set (dim : Dimension) (mode : string) :
  accepted_modes (fst (dim_set_transformer dim mode)) = accepted_modes dim.
Proof.
  destruct dim as [d | d | d]; unfold dim_set_transformer.
  - destruct (Real.set_transformer d mode). reflexivity.
  - destruct (Integer.set_transformer d mode). reflexivity.
  - destruct (Categorical.set_transformer d mode). reflexivity.
Qed.

(** A call that returns overwrites what an earlier call has left. *)
Lemma dim_set_transformer_again (dim : Dimension) (m1 m2 : string) :
  snd (dim_set_transformer dim m2) = Ok tt ->
  fst (dim_set_transformer (fst (dim_set_transformer dim m1)) m2)
  = fst (dim_set_transformer dim m2).
Proof.
  destruct dim as [d | d | d]; unfold dim_set_transformer.
  - pose proof (Real_set_transformer_frame d m1) as F. cbv zeta in F.
    destruct F as [F1 [F2 [F3 [F4 [F5 [F6 F7]]]]]].
    destruct (Real.set_transformer d m1) as [d1 o1]. cbn [fst] in *.
    pose proof (Real_set_transformer_from_frame d1 d m2 F1 F2 F3 F4 F5 F6 F7) as E.
    destruct (Real.set_transformer d m2) as [d2 o2]. cbn [fst snd] in *.
    intros Hok. rewrite (E Hok). reflexivity.
  - pose proof (Integer_set_transformer_frame d m1) as F. cbv zeta in F.
    destruct F as [F1 [F2 [F3 [F4 [F5 [F6 F7]]]]]].
    destruct (Integer.set_transformer d m1) as [d1 o1]. cbn [fst] in *.
    pose proof (Integer_set_transformer_from_frame d1 d m2 F1 F2 F3 F4 F5 F6 F7)
      as E.
    destruct (Integer.set_transformer d m2) as [d2 o2]. cbn [fst snd] in *.
    intros Hok. rewrite (E Hok). reflexivity.
  - pose proof (Categorical_set_transformer_frame d m1) as F. cbv zeta in F.
    destruct F as [F1 [F2 [F3 F4]]].
    destruct (Categorical.set_transformer d m1) as [d1 o1]. cbn [fst] in *.
    pose proof (Categorical_set_transformer_from_frame d1 d m2 F1 F2 F3 F4) as E.
    destruct (Categorical.set_transformer d m2) as [d2 o2]. cbn [fst snd] in *.
    intros Hok. rewrite (E Hok). reflexivity.
Qed.

Lemma last_mode_position (refs : list nat) (j : nat) (transform : Space.modes)
    (r : nat) (mode : string) :
  last_mode refs j transform r = Some mode ->
  exists i, nth_error refs i = Some r /\ mode_for transform (j + i) = Some mode.
Proof.
  revert j. induction refs as [ | r' rest IH]; intros j; cbn [last_mode];
    [discriminate | ].
  destruct (last_mode rest (S j) transform r) as [m | ] eqn:Hlast.
  - intros E. injection E as <-. destruct (IH (S j) Hlast) as [i [Hi Hm]].
    exists (S i). split; [exact Hi | ]. rewrite <- Hm. f_equal. lia.
  - destruct (Nat.eqb_spec r' r) as [-> | Hne]; [ | discriminate].
    intros E. exists 0%nat. split; [reflexivity | ]. rewrite Nat.add_0_r. exact E.
Qed.

Lemma last_mode_absent (refs : list nat) (j : nat) (transform : Space.modes)
    (r : nat) :
  ~ In r refs -> last_mode refs j transform r = None.
Proof.
  revert j. induction refs as [ | r' rest IH]; intros j Hno; cbn [last_mode];
    [reflexivity | ].
  rewrite IH by (intros Hin; apply Hno; right; exact Hin).
  destruct (Nat.eqb_spec r' r) as [-> | Hne]; [ | reflexivity].
  exfalso. apply Hno. left. reflexivity.
Qed.

(** Where no object stands twice, the last position of an object is its
    only one. *)
Lemma last_mode_NoDup (refs : list nat) (j : nat) (transform : Space.modes)
    (i r : nat) :
  NoDup refs -> nth_error refs i = Some r ->
  last_mode refs j transform r = mode_for transform (j + i).
Proof.
  revert j i. induction refs as [ | r' rest IH]; intros j i Hnd Hi;
    [destruct i; discriminate | ].
  inversion Hnd as [ | ? ? Hnotin Hnd']; subst. cbn [last_mode].
  destruct i as [ | i]; cbn [nth_error] in Hi.
  - injection Hi as ->. rewrite last_mode_absent by exact Hnotin.
    rewrite Nat.eqb_refl, Nat.add_0_r. reflexivity.
  - rewrite (IH (S j) i Hnd' Hi).
    replace (S j + i)%nat with (j + S i)%nat by lia.
    destruct (mode_for transform (j + S i)) as [m | ]; [reflexivity | ].
    destruct (Nat.eqb_spec r' r) as [-> | Hne]; [ | reflexivity].
    exfalso. apply Hnotin. apply nth_error_In with i. exact Hi.
Qed.

(** The loop of [Space.set_transformer] on shared objects, outcome by
    outcome. *)
Lemma set_shared_from_outcome (refs : list nat) :
  forall (h : heap) (j : nat) (transform : Space.modes),
    Forall (fun r => r < length h)%nat refs ->
    let h' := fst (set_shared_from h refs j transform) in
    length h' = length h
    /\ (forall r dim, deref h r = Some dim ->
          exists dim', deref h' r = Some dim'
                       /\ accepted_modes dim' = accepted_modes dim)
    /\ match snd (set_shared_from h refs j transform) with
       | Ok _ =>
           (forall i r dim, nth_error refs i = Some r -> deref h r = Some dim ->
              exists mode, mode_for transform (j + i) = Some mode
                           /\ str_among mode (accepted_modes dim) = true)
           /\ (forall r dim, deref h r = Some dim ->
                 deref h' r
                 = Some (match last_mode refs j transform r with
                         | Some mode => fst (dim_set_transformer dim mode)
                         | None => dim
                         end))
       | Raise e =>
           exists k r dim,
             nth_error refs k = Some r /\ deref h r = Some dim
             /\ (forall i r' dim', (i < k)%nat -> nth_error refs i = Some r' ->
                   deref h r' = Some dim' ->
                   exists mode, mode_for transform (j + i) = Some mode
                                /\ str_among mode (accepted_modes dim') = true)
             /\ ((mode_for transform (j + k) = None /\ e = IndexError)
                 \/ (exists mode, mode_for transform (j + k) = Some mode
                                  /\ str_among mode (accepted_modes dim) = false
                                  /\ e = ValueError))
             /\ (forall r', ~ In r' (firstn (S k) refs) -> deref h' r' = deref h r')
       end.
Proof.
  induction refs as [ | r0 rest IH]; intros h j transform Hwf h'; subst h'.
  - cbn [set_shared_from fst snd]. split; [reflexivity | ].
    split; [intros r dim Hr; exists dim; split; [exact Hr | reflexivity] | ].
    split.
    + intros [ | i] r dim Hi; discriminate Hi.
    + intros r dim Hr. exact Hr.
  - inversion Hwf as [ | ? ? Hr0 Hwf']; subst.
    destruct (deref h r0) as [dim0 | ] eqn:Hd0;
      [ | unfold deref in Hd0; apply nth_error_None in Hd0; lia].
    cbn [set_shared_from]. rewrite mode_for_item.
    destruct (mode_for transform j) as [m0 | ] eqn:Hm0.
    + rewrite Hd0.
      pose proof (dim_set_transformer_outcome dim0 m0) as Hout.
      pose proof (accepted_modes_set dim0 m0) as Hclass.
      destruct (dim_set_transformer dim0 m0) as [dim0' out0] eqn:Hset.
      cbn [fst snd] in Hout, Hclass.
      assert (Hkeep : forall r dim, deref h r = Some dim ->
                exists dim1, deref (store h r0 dim0') r = Some dim1
                             /\ accepted_modes dim1 = accepted_modes dim).
      { intros r dim Hr. destruct (Nat.eq_dec r0 r) as [<- | Hne].
        - exists dim0'. split; [apply deref_store_eq; exact Hr0 | ].
          rewrite Hd0 in Hr. injection Hr as <-. exact Hclass.
        - exists dim. split; [rewrite deref_store_neq by exact Hne; exact Hr | ].
          reflexivity. }
      destruct (str_among m0 (accepted_modes dim0)) eqn:Hacc0; subst out0.
      * assert (Hwf1 : Forall (fun r => r < length (store h r0 dim0'))%nat rest).
        { rewrite store_length. exact Hwf'. }
        specialize (IH (store h r0 dim0') (S j) transform Hwf1). cbv zeta in IH.
        destruct (set_shared_from (store h r0 dim0') rest (S j) transform)
          as [h2 out2]. cbn [fst snd] in *.
        destruct IH as [Hlen [Hcls Hrest]].
        split; [rewrite Hlen; apply store_length | ].
        split.
        { intros r dim Hr. destruct (Hkeep r dim Hr) as [dim1 [Hr1 Hc1]].
          destruct (Hcls r dim1 Hr1) as [dim2 [Hr2 Hc2]].
          exists dim2. split; [exact Hr2 | congruence]. }
        destruct out2 as [[] | e].
        -- destruct Hrest as [Hall Hlast]. split.
           ++ intros [ | i] r dim Hi Hr; cbn [nth_error] in Hi.
              ** injection Hi as <-. rewrite Hd0 in Hr.
                 injection Hr as <-. exists m0. rewrite Nat.add_0_r.
                 split; assumption.
              ** destruct (Hkeep r dim Hr) as [dim1 [Hr1 Hc1]].
                 destruct (Hall i r dim1 Hi Hr1) as [mode [Hmode Hacc]].
                 exists mode. replace (j + S i)%nat with (S j + i)%nat by lia.
                 split; [exact Hmode | rewrite <- Hc1; exact Hacc].
           ++ intros r dim Hr. cbn [last_mode].
              destruct (Nat.eq_dec r0 r) as [<- | Hne].
              ** rewrite Hd0 in Hr. injection Hr as <-.
                 rewrite (Hlast r0 dim0' (deref_store_eq h r0 dim0' Hr0)).
                 destruct (last_mode rest (S j) transform r0) as [mode | ] eqn:Hl.
                 --- destruct (last_mode_position _ _ _ _ _ Hl) as [i [Hi Hmode]].
                     destruct (Hall i r0 dim0' Hi (deref_store_eq h r0 dim0' Hr0))
                       as [mode' [Hmode' Hacc']].
                     assert (mode' = mode) by congruence. subst mode'.
                     rewrite Hclass in Hacc'.
                     pose proof (dim_set_transformer_outcome dim0 mode) as Hok.
                     rewrite Hacc' in Hok.
                     pose proof (dim_set_transformer_again dim0 m0 mode Hok) as Hag.
                     rewrite Hset in Hag. cbn [fst] in Hag. rewrite Hag.
                     reflexivity.
                 --- rewrite Nat.eqb_refl, Hm0, Hset. reflexivity.
              ** rewrite (Hlast r dim) by (rewrite deref_store_neq by exact Hne;
                                           exact Hr).
                 destruct (last_mode rest (S j) transform r); [reflexivity | ].
                 destruct (Nat.eqb_spec r0 r); [contradiction | reflexivity].
        -- destruct Hrest as [k [r [dim [Hk [Hr [Hbefore [Hat Hout2]]]]]]].
           assert (Hr' : exists dim_, deref h r = Some dim_
                                     /\ accepted_modes dim = accepted_modes dim_).
           { destruct (Nat.eq_dec r0 r) as [<- | Hne].
             - exists dim0. split; [exact Hd0 | ].
               rewrite deref_store_eq in Hr by exact Hr0. injection Hr as <-.
               exact Hclass.
             - rewrite deref_store_neq in Hr by exact Hne. exists dim.
               split; [exact Hr | reflexivity]. }
           destruct Hr' as [dim_ [Hr_ Hc_]].
           exists (S k), r, dim_. split; [exact Hk | ]. split; [exact Hr_ | ].
           split.
           { intros [ | i] r' dim' Hi Hri Hri'; cbn [nth_error] in Hri.
             - injection Hri as <-. rewrite Hd0 in Hri'.
               injection Hri' as <-. exists m0. rewrite Nat.add_0_r.
               split; assumption.
             - destruct (Hkeep r' dim' Hri') as [dim1 [Hr1 Hc1]].
               destruct (Hbefore i r' dim1 ltac:(lia) Hri Hr1) as [mode [Hmode Hacc]].
               exists mode. replace (j + S i)%nat with (S j + i)%nat by lia.
               split; [exact Hmode | rewrite <- Hc1; exact Hacc]. }
           split.
           { replace (j + S k)%nat with (S j + k)%nat by lia.
             rewrite <- Hc_. exact Hat. }
           intros r' Hno. rewrite Hout2.
           ++ apply deref_store_neq. intros E. apply Hno. left. exact E.
           ++ intros Hin. apply Hno. right. exact Hin.
      * cbn [fst snd].
        split; [apply store_length | ]. split; [exact Hkeep | ].
        exists 0%nat, r0, dim0. split; [reflexivity | ]. split; [exact Hd0 | ].
        split; [intros i r' dim' Hi; lia | ].
        split.
        { right. exists m0. rewrite Nat.add_0_r. repeat split; assumption. }
        intros r' Hno. apply deref_store_neq. intros E. apply Hno. left. exact E.
    + cbn [fst snd]. split; [reflexivity | ].
      split; [intros r dim Hr; exists dim; split; [exact Hr | reflexivity] | ].
      exists 0%nat, r0, dim0. split; [reflexivity | ]. split; [exact Hd0 | ].
      split; [intros i r' dim' Hi; lia | ].
      split; [left; rewrite Nat.add_0_r; split; [exact Hm0 | reflexivity] | ].
      intros r' _. reflexivity.
Qed.

Lemma In_firstn_list {A : Type} (n : nat) (l : list A) (x : A) :
  In x (firstn n l) -> In x l.
Proof.
  revert l. induction n as [ | n IH]; intros [ | y l]; cbn [firstn];
    try (intros Hin; destruct Hin; fail).
  intros [<- | Hin]; [left; reflexivity | right; apply IH; exact Hin].
Qed.

Lemma dimensions_of_nth (h : heap) (refs : list nat) (j : nat) :
  Forall (fun r => r < length h)%nat refs ->
  nth_error (dimensions_of h refs) j
  = match nth_error refs j with
    | Some r => deref h r
    | None => None
    end.
Proof.
  unfold dimensions_of. revert j.
  induction refs as [ | r rest IH]; intros j Hwf; [destruct j; reflexivity | ].
  inversion Hwf as [ | ? ? Hr Hwf']; subst. cbn [flat_map].
  destruct (deref h r) as [dim | ] eqn:Hd;
    [ | apply nth_error_None in Hd; lia].
  destruct j as [ | j]; cbn [app nth_error]; [symmetry; exact Hd | ].
  apply IH. exact Hwf'.
Qed.

Lemma dimensions_of_cons (h : heap) (r : nat) (rest : list nat) (dim : Dimension) :
  deref h r = Some dim ->
  dimensions_of h (r :: rest) = dim :: dimensions_of h rest.
Proof. intros Hd. unfold dimensions_of. cbn [flat_map]. rewrite Hd. reflexivity. Qed.

Lemma dimensions_of_store (h : heap) (r : nat) (dim : Dimension) (refs : list nat) :
  ~ In r refs -> dimensions_of (store h r dim) refs = dimensions_of h refs.
Proof.
  intros Hno. unfold dimensions_of.
  induction refs as [ | r' rest IH]; [reflexivity | ]. cbn [flat_map].
  rewrite deref_store_neq by (intros E; apply Hno; left; symmetry; exact E).
  rewrite IH by (intros Hin; apply Hno; right; exact Hin). reflexivity.
Qed.

(** Where no object stands twice, the loop on shared objects does what the
    loop on the list of the dimensions does. *)
Lemma set_shared_from_unshared (refs : list nat) :
  forall (h : heap) (j : nat) (transform : Space.modes),
    Forall (fun r => r < length h)%nat refs -> NoDup refs ->
    Space.set_from (dimensions_of h refs) j transform
    = (dimensions_of (fst (set_shared_from h refs j transform)) refs,
       snd (set_shared_from h refs j transform)).
Proof.
  induction refs as [ | r0 rest IH]; intros h j transform Hwf Hnd; [reflexivity | ].
  inversion Hwf as [ | ? ? Hr0 Hwf']; subst.
  inversion Hnd as [ | ? ? Hnotin Hnd']; subst.
  destruct (deref h r0) as [dim0 | ] eqn:Hd0;
    [ | unfold deref in Hd0; apply nth_error_None in Hd0; lia].
  rewrite (dimensions_of_cons h r0 rest dim0 Hd0).
  cbn [Space.set_from set_shared_from].
  destruct (match transform with
            | Space.same_mode mode => Ok mode
            | Space.each_mode l => list_item l j
            end) as [m0 | e].
  - rewrite Hd0.
    destruct (dim_set_transformer dim0 m0) as [dim0' out0].
    destruct out0 as [[] | e].
    + assert (Hwf1 : Forall (fun r => r < length (store h r0 dim0'))%nat rest).
      { rewrite store_length. exact Hwf'. }
      pose proof (IH (store h r0 dim0') (S j) transform Hwf1 Hnd') as E.
      rewrite dimensions_of_store in E by exact Hnotin. rewrite E.
      pose proof (set_shared_from_outcome rest (store h r0 dim0') (S j) transform
                    Hwf1) as Hspec. cbv zeta in Hspec.
      destruct (set_shared_from (store h r0 dim0') rest (S j) transform)
        as [h2 out2]. cbn [fst snd] in *.
      f_equal. symmetry. apply dimensions_of_cons.
      assert (Hsame : deref h2 r0 = deref (store h r0 dim0') r0).
      { destruct Hspec as [_ [_ Hspec]]. destruct out2 as [[] | e].
        - destruct Hspec as [_ Hlast].
          rewrite (Hlast r0 dim0' (deref_store_eq h r0 dim0' Hr0)).
          rewrite last_mode_absent by exact Hnotin.
          symmetry. apply deref_store_eq. exact Hr0.
        - destruct Hspec as [k [r [dim [_ [_ [_ [_ Hout]]]]]]]. apply Hout.
          intros Hin. apply Hnotin. apply (In_firstn_list (S k)). exact Hin. }
      rewrite Hsame. apply deref_store_eq. exact Hr0.
    + cbn [fst snd]. f_equal.
      rewrite (dimensions_of_cons _ r0 rest dim0'
                 (deref_store_eq h r0 dim0' Hr0)).
      rewrite dimensions_of_store by exact Hnotin. reflexivity.
  - cbn [fst snd]. rewrite (dimensions_of_cons h r0 rest dim0 Hd0). reflexivity.
Qed.

Lemma last_mode_present (refs : list nat) (j : nat) (transform : Space.modes)
    (i r : nat) :
  nth_error refs i = Some r ->
  (forall i', (i' < length refs)%nat -> mode_for transform (j + i') <> None) ->
  exists mode, last_mode refs j transform r = Some mode.
Proof.
  revert j i. induction refs as [ | r' rest IH]; intros j i Hi Hall;
    [destruct i; discriminate | ].
  cbn [last_mode].
  destruct (last_mode rest (S j) transform r) as [m | ] eqn:Hl; [eauto | ].
  destruct i as [ | i]; cbn [nth_error] in Hi.
  - injection Hi as ->. rewrite Nat.eqb_refl.
    specialize (Hall 0%nat ltac:(cbn [length]; lia)). rewrite Nat.add_0_r in Hall.
    destruct (mode_for transform j) as [m | ]; [eauto | congruence].
  - destruct (IH (S j) i Hi) as [m Hm]; [ | congruence].
    intros i' Hi'. replace (S j + i')%nat with (j + S i')%nat by lia.
    apply Hall. cbn [length]. lia.
Qed.



(** ** The lists of bounds *)

Lemma Categorical_transformed_bounds_shape (d : Categorical.t) :
  let block :=
    if Nat.eqb (Categorical.transformed_size d) 1
    then [Space.whole (Categorical.transformed_bounds d)]
    else Space.extend (Categorical.transformed_bounds d) in
  length block = Categorical.transformed_size d
  /\ Forall (fun entry => exists lo hi, entry = Space.whole (bounds_pair lo hi)) block.
Proof.
  cbv zeta. unfold Categorical.transformed_bounds.
  destruct (Nat.eqb (Categorical.transformed_size d) 1) eqn:Hsize.
  - apply Nat.eqb_eq in Hsize. rewrite Hsize. split; [reflexivity | ].
    constructor; [ | constructor].
    destruct (String.eqb (Categorical.transform_ d) "label"); eauto.
  - cbn [Space.extend]. rewrite !length_map, length_seq. split; [reflexivity | ].
    apply Forall_forall. intros entry Hin. apply in_map_iff in Hin.
    destruct Hin as [p [<- _]]. eauto.
Qed.

(** X9: [Space.bounds] has one entry per dimension, the [bounds] of that
    dimension (no class overrides [size], so the branch that would splice
    a dimension's bounds into the list never runs), and
    [Space.transformed_bounds] has one [(low, high)] pair per column of the
    transformed space: its length is [transformed_n_dims]. *)
Theorem Space_bounds_shape :
  forall s : Space.t,
    Space.bounds s
    = map (fun dim => Space.whole (dim_bounds dim)) (Space.dimensions s)
    /\ length (Space.bounds s) = Space.n_dims s
    /\ length (Space.transformed_bounds s) = Space.transformed_n_dims s
    /\ Forall (fun entry => exists lo hi, entry = Space.whole (bounds_pair lo hi))
              (Space.transformed_bounds s).
Proof.
  intros [dims].
  unfold Space.bounds, Space.transformed_bounds, Space.n_dims,
    Space.transformed_n_dims.
  cbn [Space.dimensions].
  assert (Hb : flat_map (fun dim => if Nat.eqb (dim_size dim) 1
                                    then [Space.whole (dim_bounds dim)]
                                    else Space.extend (dim_bounds dim)) dims
               = map (fun dim => Space.whole (dim_bounds dim)) dims).
  { induction dims as [ | dim dims IH]; [reflexivity | ].
    cbn [flat_map map]. rewrite IH. reflexivity. }
  split; [exact Hb | ]. split; [rewrite Hb; apply length_map | ]. clear Hb.
  induction dims as [ | dim dims IH]; [split; [reflexivity | constructor] | ].
  destruct IH as [IH1 IH2]. cbn [flat_map map list_sum].
  rewrite length_app, IH1.
  assert (Hdim : length (if Nat.eqb (dim_transformed_size dim) 1
                         then [Space.whole (dim_transformed_bounds dim)]
                         else Space.extend (dim_transformed_bounds dim))
                 = dim_transformed_size dim
                 /\ Forall (fun entry =>
                              exists lo hi, entry = Space.whole (bounds_pair lo hi))
                           (if Nat.eqb (dim_transformed_size dim) 1
                            then [Space.whole (dim_transformed_bounds dim)]
                            else Space.extend (dim_transformed_bounds dim))).
  { destruct dim as [d | d | d].
    - split; [reflexivity | ]. constructor; [ | constructor].
      cbn [dim_transformed_bounds]. eauto.
    - split; [reflexivity | ]. constructor; [ | constructor].
      cbn [dim_transformed_bounds]. eauto.
    - exact (Categorical_transformed_bounds_shape d). }
  destruct Hdim as [Hlen Hpairs]. rewrite Hlen. split; [reflexivity | ].
  apply Forall_app. split; assumption.
Qed.

(** ** Membership in a space *)

Lemma contains_from_zip (dims : list Dimension) (point : list pyval) :
  Space.contains_from dims point = Ok true
  <-> Forall (fun dc => dim_member (fst dc) (snd dc)) (combine dims point).
Proof.
  revert point. induction dims as [ | dim dims IH]; intros [ | c point].
  - split; [constructor | reflexivity].
  - split; [constructor | reflexivity].
  - split; [constructor | reflexivity].
  - cbn [Space.contains_from combine]. unfold dim_member at 1.
    destruct (dim_contains dim c) as [[ | ] | e] eqn:Hc; cbn [bind negb fst snd].
    + rewrite IH. split.
      * intros H. constructor; [exact Hc | exact H].
      * intros H. inversion H. assumption.
    + split; [discriminate | ]. intros H. inversion H as [ | ? ? Hm _].
      unfold dim_member in Hm. cbn [fst snd] in Hm. congruence.
    + split; [discriminate | ]. intros H. inversion H as [ | ? ? Hm _].
      unfold dim_member in Hm. cbn [fst snd] in Hm. congruence.
Qed.

Lemma combine_firstn_r {A B : Type} (l : list A) (l' : list B) (k : nat) :
  combine l (firstn k l') = firstn k (combine l l').
Proof.
  revert l l'. induction k as [ | k IH]; intros l l'.
  - destruct l; reflexivity.
  - destruct l as [ | a l]; [reflexivity | ].
    destruct l' as [ | b l']; [reflexivity | ].
    cbn [firstn combine]. rewrite IH. reflexivity.
Qed.

Lemma contains_from_extra (dims : list Dimension) (point extra : list pyval) :
  (length dims <= length point)%nat ->
  Space.contains_from dims (point ++ extra) = Space.contains_from dims point.
Proof.
  revert point. induction dims as [ | dim dims IH]; intros point Hlen.
  - destruct point, extra; reflexivity.
  - destruct point as [ | c point]; [cbn [length] in Hlen; lia | ].
    cbn [app Space.contains_from]. rewrite IH by (cbn [length] in Hlen; lia).
    reflexivity.
Qed.

(** X10: [point in space] tests the components paired with the dimensions
    and nothing else: it is [True] exactly when every component that has a
    dimension belongs to it.  The length of the point is not compared with
    the number of dimensions, so the empty point belongs to every space,
    every prefix of a member is a member, and components beyond the last
    dimension are not looked at. *)
Theorem Space_contains_pairs :
  forall (s : Space.t) (point : list pyval),
    (Space.__contains__ s point = Ok true
     <-> Forall (fun dc => dim_member (fst dc) (snd dc))
                (combine (Space.dimensions s) point))
    /\ Space.__contains__ s [] = Ok true
    /\ (forall k, Space.__contains__ s point = Ok true ->
                  Space.__contains__ s (firstn k point) = Ok true)
    /\ (forall extra, (Space.n_dims s <= length point)%nat ->
                      Space.__contains__ s (point ++ extra)
                      = Space.__contains__ s point).
Proof.
  intros [dims] point. unfold Space.__contains__, Space.n_dims.
  cbn [Space.dimensions].
  split; [apply contains_from_zip | ]. split; [destruct dims; reflexivity | ].
  split.
  - intros k. rewrite !contains_from_zip, combine_firstn_r.
    intros H. apply Forall_forall. intros dc Hin.
    rewrite Forall_forall in H. apply H.
    rewrite <- (firstn_skipn k (combine dims point)). apply in_or_app. left.
    exact Hin.
  - intros extra Hlen. apply contains_from_extra. exact Hlen.
Qed.

(** ** The kinds of a space *)

(** X11: how the three tests on the classes of the dimensions relate.  A
    space without dimensions is real and categorical at once, and not
    partly categorical; a space with a dimension is never both real and
    categorical; a real space is not partly categorical, and a categorical
    space with a dimension is. *)
Theorem Space_kinds :
  forall s : Space.t,
    (Space.n_dims s = 0%nat ->
     Space.is_real s = true /\ Space.is_categorical s = true
     /\ Space.is_partly_categorical s = false)
    /\ (Space.is_real s && Space.is_categorical s = true <-> Space.n_dims s = 0%nat)
    /\ (Space.is_real s = true -> Space.is_partly_categorical s = false)
    /\ (Space.is_categorical s = true -> Space.n_dims s <> 0%nat ->
        Space.is_partly_categorical s = true)
    /\ (Space.is_partly_categorical s = true
        <-> exists d, In (DCategorical d) (Space.dimensions s)).
Proof.
  intros [dims].
  unfold Space.is_real, Space.is_categorical, Space.is_partly_categorical,
    Space.n_dims.
  cbn [Space.dimensions].
  split; [ | split; [ | split; [ | split]]].
  - destruct dims; [intros _; repeat split | discriminate].
  - destruct dims as [ | [d | d | d] dims]; cbn [forallb isinstance length andb].
    + split; reflexivity.
    + rewrite andb_false_r. split; discriminate.
    + split; discriminate.
    + split; discriminate.
  - induction dims as [ | [d | d | d] dims IH]; cbn [forallb existsb isinstance];
      try discriminate; [reflexivity | ].
    cbn [andb orb]. exact IH.
  - destruct dims as [ | [d | d | d] dims]; cbn [forallb existsb isinstance];
      try discriminate; [intros _ H; contradiction | reflexivity].
  - rewrite existsb_exists. split.
    + intros [[d | d | d] [Hin Hc]]; try discriminate Hc. exists d. exact Hin.
    + intros [d Hin]. exists (DCategorical d). split; [exact Hin | reflexivity].
Qed.

(** ** Constant dimensions *)

Lemma count_constant (dims : list Dimension) (n : nat) :
  fold_left (fun n dim => if dim_is_constant dim then S n else n) dims n
  = (n + length (filter dim_is_constant dims))%nat.
Proof.
  revert n. induction dims as [ | dim dims IH]; intros n; cbn [fold_left filter].
  - cbn [length]. lia.
  - rewrite IH. destruct (dim_is_constant dim); cbn [length]; lia.
Qed.

(** X12: a [Real] or an [Integer] that [__init__] returned is never
    constant, since equal bounds are refused; among the dimensions that the
    constructors build only a [Categorical] with a single category is.  So
    for a space of such dimensions [n_constant_dimensions] is the number of
    [Categorical] dimensions with at most one category, and in any space it
    is at most [n_dims]. *)
Theorem constant_dimensions_are_categorical :
  (forall low high prior base transform name dtype d,
     Real.__init__ low high prior base transform name dtype = Ok d ->
     Real.is_constant d = false)
  /\ (forall low high prior base transform name dtype d,
        Integer.__init__ low high prior base transform name dtype = Ok d ->
        Integer.is_constant d = false)
  /\ (forall categories transform name d,
        Categorical.__init__ categories None transform name = Ok d ->
        Categorical.is_constant d = Nat.eqb (length categories) 1)
  /\ (forall s : Space.t,
        Forall dim_valid (Space.dimensions s) ->
        Space.n_constant_dimensions s
        = length (filter (fun dim =>
                            match dim with
                            | DCategorical d =>
                                Nat.leb (length (Categorical.categories d)) 1
                            | _ => false
                            end) (Space.dimensions s)))
  /\ (forall s : Space.t, (Space.n_constant_dimensions s <= Space.n_dims s)%nat).
Proof.
  split; [ | split; [ | split; [ | split]]].
  - intros low high prior base transform name dtype d Hd.
    destruct (Real_init_configured _ _ _ _ _ _ _ _ Hd) as [_ [Hl [Hh [Hlh _]]]].
    unfold Real.is_constant. rewrite Hl, Hh. apply Reqb_false. lra.
  - intros low high prior base transform name dtype d Hd.
    destruct (Integer_init_configured _ _ _ _ _ _ _ _ Hd) as [_ [Hl [Hh [Hlh _]]]].
    unfold Integer.is_constant. rewrite Hl, Hh. apply Reqb_false. lra.
  - intros categories transform name d Hd.
    destruct (Categorical_init_configured _ _ _ _ _ Hd) as [_ Hc].
    unfold Categorical.is_constant. rewrite Hc.
    destruct categories as [ | c [ | c' cats]]; [ | reflexivity | reflexivity].
    pose proof (Categorical_init_outcome [] transform name) as H. cbv zeta in H.
    destruct (set_name name); congruence.
  - intros [dims] Hvalid. unfold Space.n_constant_dimensions.
    cbn [Space.dimensions] in *. rewrite count_constant. cbn [Nat.add].
    induction Hvalid as [ | dim dims Hdim _ IH]; [reflexivity | ].
    cbn [filter].
    destruct dim as [d | d | d]; cbn [dim_is_constant].
    + destruct Hdim as [_ [Hlh _]]. unfold Real.is_constant.
      rewrite Reqb_false by lra. exact IH.
    + destruct Hdim as [_ [Hlh _]]. unfold Integer.is_constant.
      rewrite Reqb_false by lra. exact IH.
    + unfold Categorical.is_constant.
      destruct (Nat.leb (length (Categorical.categories d)) 1); cbn [length];
        rewrite IH; reflexivity.
  - intros [dims]. unfold Space.n_constant_dimensions, Space.n_dims.
    cbn [Space.dimensions]. rewrite count_constant. cbn [Nat.add].
    apply filter_length_le.
Qed.

Lemma space_real_cat_valid : Forall dim_valid (Space.dimensions space_real_cat).
Proof.
  apply Forall_cons; [ | apply Forall_cons; [ | apply Forall_nil]].
  - split; [exact real_01_configured | ]. cbn [Real.low Real.high real_01].
    split; [lra | reflexivity].
  - split; [exact cat_xyz_configured | exact I].
Qed.

Lemma constant_dimensions_are_categorical_witness :
  Space.n_constant_dimensions space_real_cat = 0%nat.
Proof.
  rewrite (proj1 (proj2 (proj2 (proj2 constant_dimensions_are_categorical)))
             space_real_cat space_real_cat_valid).
  reflexivity.
Defined.

(** ** What [Integer.inverse_transform] returns *)

Lemma np_round_between (a b : Z) (x : R) :
  IZR a <= x <= IZR b -> (a <= np_round x <= b)%Z.
Proof.
  intros [Ha Hb]. unfold np_round. cbv zeta.
  pose proof (Zfloor_bound x) as [Hf1 Hf2].
  pose proof (Zfloor_lub a x Ha) as Hlow.
  assert (Hhigh : (Zfloor x <= b)%Z).
  { apply le_IZR. lra. }
  assert (Hnext : IZR (Zfloor x) < x -> (Zfloor x + 1 <= b)%Z).
  { intros Hlt. assert (H : (Zfloor x < b)%Z) by (apply lt_IZR; lra). lia. }
  destruct (Rltb (x - IZR (Zfloor x)) (1 / 2)) eqn:H1; [lia | ].
  assert (Hgap : IZR (Zfloor x) < x).
  { unfold Rltb in H1.
    destruct (Rlt_dec (x - IZR (Zfloor x)) (1 / 2)); [discriminate | lra]. }
  specialize (Hnext Hgap).
  destruct (Rltb (1 / 2) (x - IZR (Zfloor x))); [lia | ].
  destruct (Z.even (Zfloor x)); lia.
Qed.

Lemma np_round_half_odd (n : Z) :
  Z.even n = false -> np_round (IZR n + 1 / 2) = (n + 1)%Z.
Proof.
  intros Hodd. unfold np_round. cbv zeta.
  assert (Hf : Zfloor (IZR n + 1 / 2) = n) by (apply Zfloor_eq; lra).
  rewrite Hf. replace (IZR n + 1 / 2 - IZR n) with (1 / 2) by lra.
  rewrite !Rltb_false by lra. rewrite Hodd. reflexivity.
Qed.

(** [Integer(2 ** 53 + 1, 2 ** 54)]. *)
Lemma integer_beyond_2_53_built :
  Integer.__init__ 9007199254740993 18014398509481984 "uniform" 10 None PNone
    (np_signed 64)
  = Ok (Integer.mk 9007199254740993 18014398509481984 "uniform" 10 (log10 10) None
          (np_signed 64)
          (Some (randint 9007199254740993 (18014398509481984 + 1)))
          (Some Identity) "identity").
Proof.
  unfold Integer.__init__. rewrite Rleb_false by lra. reflexivity.
Qed.

(** X13: [Integer.inverse_transform] returns whole numbers of the domain
    when the bounds are whole numbers of magnitude at most 2 ** 53 that the
    dtype can hold: for a dimension in the state that [__init__] and
    [set_transformer] leave, with its logarithm defined, whatever the
    numbers of the warped input and the mode, every element of a result is
    an [int] between [low] and [high] and a member of the dimension.  For
    a bound that is not a whole number this
    fails, because the values are rounded after they are clipped: the
    dimension that [check_dimension] builds from [(1, 5.5, "uniform")] maps
    5.5 to 6, above its upper bound.  For a bound that binary64 does not
    hold it fails, because an array of floats is clipped between floats:
    [Integer(2 ** 53 + 1, 2 ** 54)] maps the warped value 0.0 to 2 ** 53,
    below its lower bound. *)
Theorem Integer_inverse_transform_in_bounds :
  (forall (runtime : PyRuntime) (d : Integer.t) (a b : Z) (Xt Y : ndarray),
     dim_valid (DInteger d) ->
     log_ready (Integer.prior d) (Integer.transform_ d) (Integer.low d)
               (Integer.base d) [] ->
     Integer.low d = IZR a -> Integer.high d = IZR b ->
     (Z.abs a <= 2 ^ 53)%Z -> (Z.abs b <= 2 ^ 53)%Z ->
     (forall z, (a <= z <= b)%Z -> astype_int (Integer.dtype d) z = z) ->
     Integer.inverse_transform d Xt = Ok Y ->
     Forall (fun y => exists z, y = PInt z /\ (a <= z <= b)%Z
                                /\ dim_member (DInteger d) y)
            (flatten Y))
  /\ (forall runtime : PyRuntime,
      exists d : Integer.t,
        check_dimension (Sequence [PInt 1; PFloat (11 / 2); PStr "uniform"]) None
        = Ok (DInteger d)
        /\ Integer.inverse_transform d (Arr1 [PFloat (11 / 2)]) = Ok (Arr1 [PInt 6])
        /\ Integer.high d < 6
        /\ dim_contains (DInteger d) (PInt 6) = Ok false)
  /\ (forall runtime : PyRuntime,
      exists d : Integer.t,
        Integer.__init__ 9007199254740993 18014398509481984 "uniform" 10 None PNone
          (np_signed 64)
        = Ok d
        /\ Integer.inverse_transform d (Arr1 [PFloat 0])
           = Ok (Arr1 [PInt 9007199254740992])
        /\ 9007199254740992 < Integer.low d
        /\ dim_contains (DInteger d) (PInt 9007199254740992) = Ok false).
Proof.
  split; [ | split].
  - intros runtime d a b Xt Y [_ [Hlh _]] _ Hl Hh Ha Hb Hfits Hinv.
    assert (Hab : (a <= b)%Z).
    { rewrite Hl, Hh in Hlh. apply lt_IZR in Hlh. lia. }
    unfold Integer.inverse_transform in Hinv.
    destruct (Dimension_inverse_transform (Integer.transformer d) Xt)
      as [inv | e]; cbn [bind] in Hinv; [ | discriminate].
    cbv zeta in Hinv.
    assert (Hconv : forall z, (Z.abs z <= 2 ^ 53)%Z ->
              (if Integer.clips_integers d inv then fun x : R => x else to_float)
                (IZR z) = IZR z).
    { intros z Hz. destruct (Integer.clips_integers d inv);
        [reflexivity | apply to_float_IZR; exact Hz]. }
    rewrite Hl, Hh, (Hconv a Ha), (Hconv b Hb) in Hinv.
    apply Forall_forall. intros y Hy.
    destruct (elementwise_outputs _ _ _ y Hinv Hy) as [v Hv].
    destruct (as_float v) as [x | e]; cbn [bind] in Hv; [ | discriminate].
    injection Hv as <-.
    match goal with
    | |- context [np_clip ?t (IZR a) (IZR b)] =>
        assert (Hclip : IZR a <= np_clip t (IZR a) (IZR b) <= IZR b)
          by (apply np_clip_bounds; apply IZR_le; exact Hab);
        pose proof (np_round_between a b _ Hclip) as Hround
    end.
    rewrite (Hfits _ Hround).
    eexists. split; [reflexivity | ]. split; [exact Hround | ].
    unfold dim_member, dim_contains, Integer.__contains__, as_float.
    cbn [as_num bind]. rewrite Hl, Hh.
    rewrite !Rleb_true by (apply IZR_le; lia). reflexivity.
  - intros runtime.
    exists (Integer.mk 1 (11 / 2) "uniform" 10 (log10 10) None (np_signed 64)
              (Some (randint 1 (11 / 2 + 1))) (Some Identity) "identity").
    split; [ | split; [ | split]].
    + unfold check_dimension.
      cbn [length Nat.eqb firstn existsb is_int orb nth prior_names py_in py_eqb
           as_num String.eqb Ascii.eqb Bool.eqb andb].
      unfold call_Integer. cbn [unpack_bounds as_num bind].
      unfold Integer.__init__. rewrite Rleb_false by lra. reflexivity.
    + unfold Integer.inverse_transform, Integer.clips_integers.
      cbn [Integer.transformer Integer.low Integer.high Integer.dtype
           Dimension_inverse_transform transformer_inverse_transform bind
           flatten forallb is_Integral andb elementwise mapM].
      unfold as_float. cbn [as_num bind].
      rewrite (to_float_half 11), (to_float_IZR 1) by (cbn; lia).
      rewrite np_clip_inside by lra.
      replace (11 / 2) with (IZR 5 + 1 / 2) by lra.
      rewrite np_round_half_odd by reflexivity. reflexivity.
    + cbn. lra.
    + unfold dim_contains, Integer.__contains__, as_float. cbn.
      rewrite Rleb_true by lra. rewrite Rleb_false by lra. reflexivity.
  - intros runtime. eexists. split; [exact integer_beyond_2_53_built | ].
    split; [ | split].
    + unfold Integer.inverse_transform, Integer.clips_integers.
      cbn [Integer.transformer Integer.low Integer.high Integer.dtype
           Dimension_inverse_transform transformer_inverse_transform bind
           flatten forallb is_Integral andb elementwise mapM].
      unfold as_float. cbn [as_num bind].
      rewrite to_float_2_53_1, (to_float_IZR 0) by (cbn; lia).
      rewrite binary64_2_54.
      unfold np_clip. rewrite Rmax_right by lra. rewrite Rmin_left by lra.
      rewrite np_round_IZR. reflexivity.
    + cbn. lra.
    + unfold dim_contains, Integer.__contains__, as_float. cbn.
      rewrite Rleb_false by lra. reflexivity.
Qed.

Lemma integer_0_10_inverse_3 :
  @Integer.inverse_transform example_runtime integer_0_10 (Arr1 [PInt 3])
  = Ok (Arr1 [PInt 3]).
Proof.
  unfold Integer.inverse_transform, Integer.clips_integers.
  cbn [integer_0_10 Integer.transformer Integer.low Integer.high Integer.dtype
       Dimension_inverse_transform transformer_inverse_transform bind
       flatten forallb is_Integral andb].
  rewrite (is_whole_IZR 0), (is_whole_IZR 10).
  cbn [andb elementwise mapM bind]. unfold as_float. cbn [as_num bind].
  rewrite np_clip_inside by lra. rewrite np_round_IZR. reflexivity.
Qed.

Lemma Integer_inverse_transform_in_bounds_witness :
  Forall (fun y => exists z, y = PInt z /\ (0 <= z <= 10)%Z
                             /\ dim_member (DInteger integer_0_10) y)
         [PInt 3].
Proof.
  apply (proj1 Integer_inverse_transform_in_bounds example_runtime integer_0_10
           0%Z 10%Z (Arr1 [PInt 3]) (Arr1 [PInt 3])).
  - split; [exists "identity"%string; reflexivity | ].
    simpl. split; [lra | reflexivity].
  - intros Hp. exfalso. apply Hp. reflexivity.
  - reflexivity.
  - reflexivity.
  - cbn; lia.
  - cbn; lia.
  - intros z Hz. unfold astype_int, wrap. cbn [Integer.dtype integer_0_10 int_format].
    change (2 ^ (64 - 1))%Z with 9223372036854775808%Z.
    change (2 ^ 64)%Z with 18446744073709551616%Z.
    rewrite Z.mod_small by lia. lia.
  - exact integer_0_10_inverse_3.
Defined.

(** ** Sampling a categorical dimension *)

(** The distribution of a configured [Categorical]. *)
Lemma Categorical_configured_rvs (d : Categorical.t) :
  Categorical_configured d ->
  Categorical._rvs d
  = Some (if str_in "normalize" (Categorical.transform_ d)
          then _uniform_inclusive 0 1
          else rv_discrete (Categorical.positions d) (Categorical.prior_ d)).
Proof.
  intros [mode Hset]. unfold Categorical.set_transformer in Hset. cbv zeta in Hset.
  destruct (str_among mode
              ["identity"; "onehot"; "string"; "normalize";
               "normalize_unbounded"; "label"]%string)
    eqn:Hmode; cbn [negb] in Hset; [ | discriminate].
  apply str_among_cases in Hmode.
  destruct Hmode as [E | [E | [E | [E | [E | [E | []]]]]]]; subst mode;
    simpl in Hset; injection Hset as Hd; rewrite <- Hd; reflexivity.
Qed.

Lemma tuple_item_position (t : list pyval) (z : Z) :
  In z (map Z.of_nat (seq 0 (length t))) ->
  exists c, tuple_item t z = Ok c /\ nth_error t (Z.to_nat z) = Some c.
Proof.
  intros Hin. apply in_map_iff in Hin. destruct Hin as [i [<- Hi]].
  apply in_seq in Hi. unfold tuple_item. cbv zeta.
  destruct (Z.ltb_spec (Z.of_nat i) 0) as [Hneg | _]; [lia | ].
  destruct (Z.leb_spec 0 (Z.of_nat i)) as [_ | Hneg]; [ | lia].
  destruct (Z.ltb_spec (Z.of_nat i) (Z.of_nat (length t))) as [_ | Hbig]; [ | lia].
  cbn [andb]. rewrite Nat2Z.id.
  destruct (nth_error t i) as [c | ] eqn:Hc.
  - exists c. split; reflexivity.
  - apply nth_error_None in Hc. lia.
Qed.

(** X14: what [Categorical.rvs] makes of a draw.  In the modes without
    [normalize] in their name the distribution is [rv_discrete] over the
    positions of the categories, and a drawn position is answered with the
    category that stands at that position, a sequence of positions with
    the categories at those positions, in the order of the draws.  In mode
    [normalize_unbounded] the distribution is the uniform one on the unit
    interval, whose draws are floats, and only mode [normalize] sends
    floats through [inverse_transform]: a single float and every sequence
    with at least one float raise [TypeError]. *)
Theorem Categorical_rvs_outcomes :
  forall (runtime : PyRuntime) (d : Categorical.t),
    Categorical_configured d ->
    (Categorical.transform_ d = "normalize_unbounded"%string ->
     Categorical._rvs d = Some (_uniform_inclusive 0 1)
     /\ (forall r, Categorical.rvs d (draw_float r) = Raise TypeError)
     /\ (forall r l, Categorical.rvs d (draw_floats (r :: l)) = Raise TypeError))
    /\ (str_in "normalize" (Categorical.transform_ d) = false ->
        Categorical._rvs d
        = Some (rv_discrete (Categorical.positions d) (Categorical.prior_ d))
        /\ Categorical.positions d
           = map Z.of_nat (seq 0 (length (Categorical.categories d)))
        /\ (forall z, In z (Categorical.positions d) ->
                      exists c, Categorical.rvs d (draw_int z) = Ok (one c)
                                /\ nth_error (Categorical.categories d) (Z.to_nat z)
                                   = Some c)
        /\ (forall l, Forall (fun z => In z (Categorical.positions d)) l ->
                      exists cs, Categorical.rvs d (draw_ints l) = Ok (many cs)
                                 /\ Forall2
                                      (fun z c =>
                                         nth_error (Categorical.categories d)
                                                   (Z.to_nat z) = Some c)
                                      l cs)).
Proof.
  intros runtime d Hconf. pose proof (Categorical_configured_rvs d Hconf) as Hrvs.
  split.
  - intros Hmode. rewrite Hmode in Hrvs. split; [exact Hrvs | ].
    unfold Categorical.rvs. rewrite Hmode. split; reflexivity.
  - intros Hmode. rewrite Hmode in Hrvs. split; [exact Hrvs | ].
    split; [reflexivity | ].
    assert (Hnot : String.eqb (Categorical.transform_ d) "normalize" = false).
    { destruct (String.eqb_spec (Categorical.transform_ d) "normalize") as [E | _];
        [ | reflexivity].
      rewrite E in Hmode. discriminate Hmode. }
    unfold Categorical.rvs. rewrite Hnot. unfold Categorical.positions. split.
    + intros z Hz. destruct (tuple_item_position _ z Hz) as [c [Hc Hnth]].
      exists c. rewrite Hc. split; [reflexivity | exact Hnth].
    + intros l Hl. induction Hl as [ | z l Hz _ IH].
      * exists []. split; [reflexivity | constructor].
      * destruct IH as [cs [Hcs Hall]].
        destruct (tuple_item_position _ z Hz) as [c [Hc Hnth]].
        exists (c :: cs). cbn [mapM]. rewrite Hc. cbn [bind].
        destruct (mapM (tuple_item (Categorical.categories d)) l) as [cs' | e];
          cbn [bind] in *; [ | discriminate Hcs].
        injection Hcs as <-. split; [reflexivity | ].
        constructor; [exact Hnth | exact Hall].
Qed.

Lemma Categorical_rvs_outcomes_witness :
  @Categorical.rvs example_runtime
    (fst (Categorical.set_transformer cat_abc "normalize_unbounded"))
    (draw_float (1 / 2))
  = Raise TypeError
  /\ exists cs,
       @Categorical.rvs example_runtime cat_abc (draw_ints [2%Z; 0%Z]) = Ok (many cs)
       /\ Forall2 (fun z c => nth_error [PStr "a"; PStr "b"; PStr "c"] (Z.to_nat z)
                              = Some c)
                  [2%Z; 0%Z] cs.
Proof.
  split.
  - apply (proj1 (Categorical_rvs_outcomes example_runtime
                    (fst (Categorical.set_transformer cat_abc "normalize_unbounded"))
                    (Categorical_set_transformer_configured cat_abc _
                       "normalize_unbounded" eq_refl))
                 eq_refl).
  - apply (proj2 (Categorical_rvs_outcomes example_runtime cat_abc
                    (Categorical_set_transformer_configured cat_abc _
                       "onehot" eq_refl))
                 eq_refl).
    apply Forall_cons; [ | apply Forall_cons; [ | apply Forall_nil]].
    + right. right. left. reflexivity.
    + left. reflexivity.
Defined.

(** ** Reported names and lookup by name *)

Lemma names_from_nth (dims : list Dimension) (i0 i : nat) :
  nth_error (Space.names_from dims i0) i
  = match nth_error dims i with
    | Some dim => Some (match dim_name dim with
                        | None => Space.default_name (i0 + i)
                        | Some name => name
                        end)
    | None => None
    end.
Proof.
  revert i0 i. induction dims as [ | dim dims IH]; intros i0 [ | i];
    cbn [Space.names_from nth_error]; try reflexivity.
  - rewrite Nat.add_0_r. reflexivity.
  - rewrite IH, Nat.add_succ_r. reflexivity.
Qed.

Lemma names_from_length (dims : list Dimension) (i0 : nat) :
  length (Space.names_from dims i0) = length dims.
Proof.
  revert i0. induction dims as [ | dim dims IH]; intros i0; [reflexivity | ].
  cbn [Space.names_from length]. rewrite IH. reflexivity.
Qed.

(** X15: [dimension_names] reports one name per dimension, the name of a
    named dimension and ["X_<position>"] for an unnamed one, but
    [__getitem__] compares a key with the names that the dimensions carry.
    When the reported names are pairwise distinct, looking up the reported
    name of a named dimension returns that dimension with its position, and
    looking up the reported name of an unnamed dimension finds nothing. *)
Theorem dimension_names_lookup :
  forall (s : Space.t) (i : nat) (dim : Dimension),
    nth_error (Space.dimensions s) i = Some dim ->
    NoDup (Space.dimension_names s) ->
    length (Space.dimension_names s) = Space.n_dims s
    /\ (forall name, dim_name dim = Some name ->
          nth_error (Space.dimension_names s) i = Some name
          /\ Space.__getitem__ s (Space.Single (PStr name))
             = Ok (Space.One (Some i, Some dim)))
    /\ (dim_name dim = None ->
          nth_error (Space.dimension_names s) i = Some (Space.default_name i)
          /\ Space.__getitem__ s (Space.Single (PStr (Space.default_name i)))
             = Ok (Space.One (None, None))).
Proof.
  intros [dims] i dim Hdim Hnodup.
  unfold Space.dimension_names, Space.n_dims, Space.__getitem__ in *.
  cbn [Space.dimensions Space.is_str_or_int] in *.
  assert (Hi : (i < length (Space.names_from dims 0))%nat).
  { rewrite names_from_length. apply nth_error_Some. congruence. }
  assert (Hreported : forall j, nth_error (Space.names_from dims 0) i
                                = nth_error (Space.names_from dims 0) j -> i = j).
  { intros j. apply (proj1 (NoDup_nth_error _) Hnodup i j Hi). }
  split; [apply names_from_length | ]. split.
  - intros name Hname.
    assert (Hnth : nth_error (Space.names_from dims 0) i = Some name).
    { rewrite names_from_nth, Hdim, Hname. reflexivity. }
    split; [exact Hnth | ].
    rewrite (_get_name_first dims 0 i name dim Hdim Hname); [reflexivity | ].
    intros j dj Hj Hdj Hnamej.
    assert (E : i = j); [ | lia].
    apply Hreported. rewrite Hnth, names_from_nth, Hdj, Hnamej. reflexivity.
  - intros Hnone.
    assert (Hnth : nth_error (Space.names_from dims 0) i
                   = Some (Space.default_name i)).
    { rewrite names_from_nth, Hdim, Hnone. reflexivity. }
    split; [exact Hnth | ].
    rewrite _get_name_absent; [reflexivity | ].
    intros dj Hin Hnamej. destruct (In_nth_error _ _ Hin) as [j Hdj].
    assert (E : i = j).
    { apply Hreported. rewrite Hnth, names_from_nth, Hdj, Hnamej. reflexivity. }
    subst j. congruence.
Qed.

Lemma dimension_names_lookup_witness :
  Space.dimension_names space_real_cat = ["X_0"; "X_1"]%string
  /\ Space.__getitem__ space_real_cat (Space.Single (PStr "X_0"))
     = Ok (Space.One (None, None)).
Proof.
  split; [reflexivity | ].
  assert (Hnodup : NoDup (Space.dimension_names space_real_cat)).
  { apply NoDup_cons; [ | apply NoDup_cons; [ | apply NoDup_nil]].
    - intros [E | []]. discriminate E.
    - intros []. }
  exact (proj2 (proj2 (proj2 (dimension_names_lookup space_real_cat 0
                                (DReal real_01) eq_refl Hnodup))
                 eq_refl)).
Defined.

(** ** The sampling distribution and the reported bounds *)

(** X16: the arguments [loc] and [scale] with which a configured [Real]
    calls [_uniform_inclusive] (which then widens [scale]) against its
    [transformed_bounds].  In the normalize modes and for the uniform
    prior, [loc] is the lower transformed bound and [scale] the upper one
    minus the lower one.  For the log-uniform prior in mode [identity]
    they are computed from the transformed bounds divided by [log_base]
    each: the sampling is in logarithms to the dimension's [base], the
    reported bounds are in logarithms to base 10, and the two agree when
    [log_base] is one. *)
Theorem Real_sampling_arguments :
  forall d : Real.t,
    Real_configured d ->
    exists loc scale : R,
      Real._rvs d = Some (_uniform_inclusive loc scale)
      /\ (str_in "normalize" (Real.transform_ d) = true
          \/ Real.prior d = "uniform"%string ->
          loc = fst (Real.transformed_bounds d)
          /\ scale = snd (Real.transformed_bounds d)
                     - fst (Real.transformed_bounds d))
      /\ (str_in "normalize" (Real.transform_ d) = false ->
          Real.prior d <> "uniform"%string ->
          loc = fst (Real.transformed_bounds d) / Real.log_base d
          /\ scale = snd (Real.transformed_bounds d) / Real.log_base d
                     - fst (Real.transformed_bounds d) / Real.log_base d
          /\ (Real.log_base d = 1 ->
              loc = fst (Real.transformed_bounds d)
              /\ scale = snd (Real.transformed_bounds d)
                         - fst (Real.transformed_bounds d))).
Proof.
  intros d [mode Hset]. unfold Real.set_transformer in Hset. cbv zeta in Hset.
  real_fields.
  destruct (str_among mode ["normalize"; "identity"; "normalize_unbounded"]%string);
    cbn [negb] in Hset; [ | discriminate].
  unfold Real.transformed_bounds.
  destruct (str_in "normalize" mode) eqn:Hnorm;
    destruct (String.eqb (Real.prior d) "uniform") eqn:Hprior;
    injection Hset as Hd;
    pose proof (f_equal Real._rvs Hd) as Hrvs;
    pose proof (f_equal Real.transform_ Hd) as Hm;
    real_fields; rewrite <- Hrvs, <- Hm, Hnorm, ?Hprior;
    eexists; eexists; (split; [reflexivity | ]); cbn [fst snd].
  - split; [intros _; split; [reflexivity | lra] | intros E; discriminate E].
  - split; [intros _; split; [reflexivity | lra] | intros E; discriminate E].
  - split; [intros _; split; reflexivity | ].
    intros _ Hne. apply String.eqb_eq in Hprior. contradiction.
  - apply String.eqb_neq in Hprior. split.
    + intros [E | E]; [discriminate E | contradiction].
    + intros _ _. split; [reflexivity | ]. split; [reflexivity | ].
      intros Hone. rewrite Hone. split; lra.
Qed.

Lemma Real_sampling_arguments_witness :
  exists loc scale : R,
    Real._rvs real_01 = Some (_uniform_inclusive loc scale)
    /\ loc = fst (Real.transformed_bounds real_01)
    /\ scale = snd (Real.transformed_bounds real_01)
               - fst (Real.transformed_bounds real_01).
Proof.
  destruct (Real_sampling_arguments real_01 real_01_configured)
    as [loc [scale [Hrvs [Hsame _]]]].
  exists loc, scale. split; [exact Hrvs | ]. apply Hsame. right. reflexivity.
Defined.

(** ** Building a space *)

Lemma mapM_outcome {A B : Type} (f : A -> result B) (l : list A) :
  match mapM f l with
  | Ok ys => Forall2 (fun x y => f x = Ok y) l ys
  | Raise e =>
      exists i x, nth_error l i = Some x /\ f x = Raise e
                  /\ forall j xj, (j < i)%nat -> nth_error l j = Some xj ->
                                  exists y, f xj = Ok y
  end.
Proof.
  induction l as [ | x l IH]; cbn [mapM]; [constructor | ].
  destruct (f x) as [y | e] eqn:Hx; cbn [bind].
  - destruct (mapM f l) as [ys | e]; cbn [bind].
    + constructor; assumption.
    + destruct IH as [i [xi [Hi [Hraise Hbefore]]]].
      exists (S i), xi. split; [exact Hi | ]. split; [exact Hraise | ].
      intros [ | j] xj Hj Hxj; cbn [nth_error] in Hxj.
      * injection Hxj as <-. exists y. exact Hx.
      * apply (Hbefore j xj); [lia | exact Hxj].
  - exists 0%nat, x. split; [reflexivity | ]. split; [exact Hx | ].
    intros j xj Hj. lia.
Qed.

(** X17: [Space(dimensions)] reads the descriptions in order with
    [check_dimension] and no transform.  For descriptions whose numbers
    have magnitude at most 2 ** 53: when it returns, the space has one
    dimension per description, each the reading of its description, an
    instance being taken over as it is; when it raises, it raises what
    the first description that is refused raises, a [ValueError] or a
    [TypeError]. *)
Theorem Space_init_outcome :
  forall descriptions : list description,
    Forall moderate_description descriptions ->
    (forall s, Space.__init__ descriptions = Ok s ->
       Space.n_dims s = length descriptions
       /\ Forall2 (fun desc dim => check_dimension desc None = Ok dim)
                  descriptions (Space.dimensions s)
       /\ (forall i d, nth_error descriptions i = Some (Instance d) ->
                       nth_error (Space.dimensions s) i = Some d))
    /\ (forall e, Space.__init__ descriptions = Raise e ->
          (e = ValueError \/ e = TypeError)
          /\ exists i desc,
               nth_error descriptions i = Some desc
               /\ check_dimension desc None = Raise e
               /\ forall j dj, (j < i)%nat -> nth_error descriptions j = Some dj ->
                               exists dim, check_dimension dj None = Ok dim)
    /\ ((exists s, Space.__init__ descriptions = Ok s)
        <-> Forall (fun desc => exists dim, check_dimension desc None = Ok dim)
                   descriptions).
Proof.
  intros descriptions _. unfold Space.__init__.
  pose proof (mapM_outcome (fun dim => check_dimension dim None) descriptions) as H.
  destruct (mapM (fun dim => check_dimension dim None) descriptions) as [dims | e0];
    cbn [bind].
  - split; [ | split].
    + intros s E. injection E as <-. unfold Space.n_dims. cbn [Space.dimensions].
      split; [symmetry; exact (Forall2_length H) | ]. split; [exact H | ].
      intros i d Hi.
      pose proof (Forall2_nth_error _ _ _ i (Instance d) d H Hi) as Hcheck.
      cbn [check_dimension] in Hcheck. injection Hcheck as Hcheck.
      transitivity (Some (nth i dims d)); [ | congruence].
      apply nth_error_nth'.
      rewrite <- (Forall2_length H). apply nth_error_Some. congruence.
    + intros e E. discriminate E.
    + split.
      * intros _. clear - H. induction H; constructor; eauto.
      * intros _. eexists. reflexivity.
  - destruct H as [i [desc [Hi [Hraise Hbefore]]]]. split; [ | split].
    + intros s E. discriminate E.
    + intros e E. injection E as <-.
      split; [exact (check_dimension_raises _ _ _ Hraise) | ].
      exists i, desc. repeat split; assumption.
    + split.
      * intros [s E]. discriminate E.
      * intros Hall. rewrite Forall_forall in Hall.
        destruct (Hall desc (nth_error_In _ _ Hi)) as [dim Hdim]. congruence.
Qed.

Lemma Space_init_outcome_witness :
  exists s : Space.t,
    Space.__init__ [Sequence [PInt 1; PInt 5]; Instance (DCategorical cat_ab)] = Ok s.
Proof.
  assert (Hmod : Forall moderate_description
                   [Sequence [PInt 1; PInt 5]; Instance (DCategorical cat_ab)]).
  { apply Forall_cons; [ | apply Forall_cons; [exact I | apply Forall_nil]].
    apply Forall_cons; [ | apply Forall_cons; [ | apply Forall_nil]];
      apply moderate_IZR; cbn; lia. }
  apply (proj2 (proj2 (proj2 (Space_init_outcome _ Hmod)))).
  apply Forall_cons; [ | apply Forall_cons; [ | apply Forall_nil]].
  - eexists. unfold check_dimension. simpl. unfold call_Integer. simpl.
    unfold Integer.__init__. rewrite Rleb_false by lra. simpl. reflexivity.
  - eexists. reflexivity.
Defined.

(** ** Distances between members *)

Lemma py_eqb_trans (a b c : pyval) :
  py_eqb a b = true -> py_eqb b c = true -> py_eqb a c = true.
Proof.
  unfold py_eqb.
  destruct (as_num a) as [x | ] eqn:Ha, (as_num b) as [y | ] eqn:Hb,
           (as_num c) as [z | ] eqn:Hc.
  - intros H1 H2. apply Reqb_true_inv in H1. apply Reqb_true_inv in H2.
    subst. apply Reqb_refl.
  - destruct b, c; cbn in *; intros; congruence.
  - destruct a, b; cbn in *; intros; congruence.
  - destruct a, b; cbn in *; intros; congruence.
  - destruct a, b; cbn in *; intros; congruence.
  - destruct a, b; cbn in *; intros; congruence.
  - destruct b, c; cbn in *; intros; congruence.
  - destruct a, b, c; cbn in *; try discriminate; try congruence.
    intros H1 H2. apply String.eqb_eq in H1. apply String.eqb_eq in H2.
    subst. apply String.eqb_refl.
Qed.

(** The distance between two numbers of an interval. *)
Lemma interval_distance (lo hi : R) (a b : pyval) :
  (x <- as_float a ;; Ok (Rleb lo x && Rleb x hi)) = Ok true ->
  (x <- as_float b ;; Ok (Rleb lo x && Rleb x hi)) = Ok true ->
  numeric a /\ numeric b
  /\ (a_in <- (x <- as_float a ;; Ok (Rleb lo x && Rleb x hi)) ;;
      both <- (if a_in then x <- as_float b ;; Ok (Rleb lo x && Rleb x hi)
               else Ok false) ;;
      if negb both then Raise RuntimeError
      else x <- as_float a ;; y <- as_float b ;; Ok (Rabs (x - y)))
     = Ok (Rabs (num_of a - num_of b))
  /\ (py_eqb a b = true <-> num_of a = num_of b).
Proof.
  intros Ha Hb. rewrite Ha. cbn [bind]. rewrite Hb. cbn [bind negb].
  unfold as_float, py_eqb, num_of, numeric in *.
  destruct (as_num a) as [x | ]; cbn [bind] in *; [ | discriminate].
  destruct (as_num b) as [y | ]; cbn [bind] in *; [ | discriminate].
  split; [discriminate | ]. split; [discriminate | ]. split; [reflexivity | ].
  split; [apply Reqb_true_inv | intros ->; apply Reqb_refl].
Qed.

(** X18: [distance] on the members of a dimension whose numbers have
    magnitude at most 2 ** 53: it returns for every two members, is never
    negative and does not depend on the order of its arguments.  Between
    categories, and between members of a [Real] or an [Integer] that are
    whole numbers (Python [int]s, whose difference is exact), it is a
    metric up to [==]: zero exactly for two members that compare equal,
    and within the triangle inequality. *)
Theorem distance_is_a_metric :
  forall (dim : Dimension) (a b c : pyval),
    dim_member dim a -> dim_member dim b -> dim_member dim c ->
    moderate_value a -> moderate_value b -> moderate_value c ->
    exists ab ba bc ac : R,
      dim_distance dim a b = Ok ab /\ dim_distance dim b a = Ok ba
      /\ dim_distance dim b c = Ok bc /\ dim_distance dim a c = Ok ac
      /\ 0 <= ab /\ ab = ba
      /\ (match dim with
          | DCategorical _ => True
          | DReal _ | DInteger _ =>
              is_Integral a = true /\ is_Integral b = true /\ is_Integral c = true
          end ->
          (ab = 0 <-> py_eqb a b = true) /\ ac <= ab + bc).
Proof.
  assert (Hnum : forall lo hi a b c,
             (x <- as_float a ;; Ok (Rleb lo x && Rleb x hi)) = Ok true ->
             (x <- as_float b ;; Ok (Rleb lo x && Rleb x hi)) = Ok true ->
             (x <- as_float c ;; Ok (Rleb lo x && Rleb x hi)) = Ok true ->
             let dist := fun a b =>
               a_in <- (x <- as_float a ;; Ok (Rleb lo x && Rleb x hi)) ;;
               both <- (if a_in then x <- as_float b ;; Ok (Rleb lo x && Rleb x hi)
                        else Ok false) ;;
               if negb both then Raise RuntimeError
               else x <- as_float a ;; y <- as_float b ;; Ok (Rabs (x - y)) in
             exists ab ba bc ac : R,
               dist a b = Ok ab /\ dist b a = Ok ba
               /\ dist b c = Ok bc /\ dist a c = Ok ac
               /\ 0 <= ab /\ ab = ba
               /\ (is_Integral a = true /\ is_Integral b = true
                   /\ is_Integral c = true ->
                   (ab = 0 <-> py_eqb a b = true) /\ ac <= ab + bc)).
  { intros lo hi a b c Ha Hb Hc dist. subst dist. cbv beta.
    destruct (interval_distance lo hi a b Ha Hb) as [_ [_ [Hab Heq]]].
    destruct (interval_distance lo hi b a Hb Ha) as [_ [_ [Hba _]]].
    destruct (interval_distance lo hi b c Hb Hc) as [_ [_ [Hbc _]]].
    destruct (interval_distance lo hi a c Ha Hc) as [_ [_ [Hac _]]].
    do 4 eexists.
    split; [exact Hab | ]. split; [exact Hba | ]. split; [exact Hbc | ].
    split; [exact Hac | ]. split; [apply Rabs_pos | ].
    split; [apply Rabs_minus_sym | ]. intros _. split.
    - rewrite Heq. split.
      + intros H0. destruct (Req_dec (num_of a - num_of b) 0) as [E | E]; [lra | ].
        apply Rabs_no_R0 in E. contradiction.
      + intros ->. replace (num_of b - num_of b) with 0 by lra. apply Rabs_R0.
    - replace (num_of a - num_of c)
        with ((num_of a - num_of b) + (num_of b - num_of c)) by lra.
      apply Rabs_triang. }
  intros [d | d | d] a b c Ha Hb Hc _ _ _.
  - exact (Hnum (Real.low d) (Real.high d) a b c Ha Hb Hc).
  - exact (Hnum (Integer.low d) (Integer.high d) a b c Ha Hb Hc).
  - unfold dim_member, dim_contains in Ha, Hb, Hc.
    injection Ha as Ha. injection Hb as Hb. injection Hc as Hc.
    unfold dim_distance, Categorical.distance. rewrite Ha, Hb, Hc. cbn [andb negb].
    cbn [bind]. do 4 eexists. repeat (split; [reflexivity | ]).
    rewrite (py_eqb_sym b a).
    pose proof (py_eqb_trans a b c) as Htrans.
    destruct (py_eqb a b), (py_eqb b c), (py_eqb a c); cbn [negb];
      try (specialize (Htrans eq_refl eq_refl); discriminate Htrans);
      repeat split; try lra; try discriminate; try reflexivity; intros; lra.
Qed.

Lemma integer_0_10_members :
  dim_member (DInteger integer_0_10) (PInt 2)
  /\ dim_member (DInteger integer_0_10) (PInt 7)
  /\ dim_member (DInteger integer_0_10) (PInt 10).
Proof.
  unfold dim_member, dim_contains, Integer.__contains__, as_float.
  cbn [as_num bind Integer.low Integer.high integer_0_10].
  rewrite !Rleb_true by lra. repeat split; reflexivity.
Qed.

Lemma distance_is_a_metric_witness :
  exists ab ba bc ac : R,
    dim_distance (DInteger integer_0_10) (PInt 2) (PInt 7) = Ok ab
    /\ dim_distance (DInteger integer_0_10) (PInt 7) (PInt 2) = Ok ba
    /\ dim_distance (DInteger integer_0_10) (PInt 7) (PInt 10) = Ok bc
    /\ dim_distance (DInteger integer_0_10) (PInt 2) (PInt 10) = Ok ac
    /\ 0 <= ab /\ ab = ba
    /\ (ab = 0 <-> py_eqb (PInt 2) (PInt 7) = true) /\ ac <= ab + bc.
Proof.
  destruct integer_0_10_members as [H2 [H7 H10]].
  destruct (distance_is_a_metric (DInteger integer_0_10) (PInt 2) (PInt 7) (PInt 10)
              H2 H7 H10
              (moderate_IZR 2 ltac:(cbn; lia)) (moderate_IZR 7 ltac:(cbn; lia))
              (moderate_IZR 10 ltac:(cbn; lia)))
    as [ab [ba [bc [ac [Hab [Hba [Hbc [Hac [Hpos [Hsym Hexact]]]]]]]]]].
  exists ab, ba, bc, ac. repeat (split; [assumption | ]).
  apply Hexact. repeat split; reflexivity.
Defined.

(** ** Equality of dimensions *)


(** ** What [Space.inverse_transform] refuses *)

(** X20: [Space.inverse_transform] has nothing to transpose in a space
    without dimensions, where the assertion of [_transpose_list_array]
    fails whatever the array; and in a space with a dimension it takes
    columns of the array before it calls any dimension, so an array with a
    single axis raises [IndexError]. *)
Theorem Space_inverse_transform_refusals :
  forall runtime : PyRuntime,
    (forall Xt : ndarray,
       Space.inverse_transform (Space.mk []) Xt = Failed AssertionError)
    /\ (forall (s : Space.t) (l : list pyval),
          Space.n_dims s <> 0%nat ->
          Space.inverse_transform s (Arr1 l) = Failed (Builtin IndexError)).
Proof.
  intros runtime. split; [reflexivity | ].
  intros [[ | dim dims]] l Hne; [contradiction | ].
  unfold Space.inverse_transform. cbn [Space.dimensions Space.inverse_from].
  destruct (Nat.eqb (dim_transformed_size dim) 1); reflexivity.
Qed.
